(** * Fixie chat backend: routing, tool execution and the approval gate

    A shallow embedding of the Python backend (main.py, agents.py,
    approval_workflow.py, langgraph_workflow.py, config.py) and the
    properties of its conversation orchestration.

    Conventions of the embedding.
    - A Python [str] is a [string] holding its UTF-8 bytes.  Substring
      tests on UTF-8 agree with substring tests on code points, so
      ["✅" in text] is a test on the three bytes of the marker.
    - A Python [dict] with string keys is a [gmap string _].
    - The language model, the Freshdesk HTTP API and the texts the graph
      library renders for rejected tool calls are not part of the
      repository: they are fields of a [World] over which every statement
      quantifies.
    - Exceptions are explicit: a computation yields [Ret v] or [Raise e],
      together with the trace of external calls it made.
    - [print], [uuid.uuid4()] and [datetime.now()] do not influence control
      flow; log lines, message ids and timestamps are left out.
    - [str.lower], [int] and the word class of the ticket-id pattern are
      modelled exactly on ASCII texts.  A statement that would not hold
      for a text outside ASCII carries the condition under which the
      model is the built-in: an ASCII message, an ASCII priority, or a
      text in which only ASCII characters end the word runs after the
      ticket-id literal. *)

From Stdlib Require Import ZArith Ascii String List DecimalString Bool Lia.
From stdpp Require Import gmap strings list fin_maps.

Local Open Scope string_scope.
Local Open Scope list_scope.

(** ** Python built-ins on strings *)

Module Py.

(** [c.lower()] on one byte: the letters A-Z move to a-z; every other byte,
    in particular every byte of a multi-byte UTF-8 sequence, stays.  On a
    text of ASCII characters this is [str.lower()].  On other texts
    [str.lower()] also folds letters outside ASCII, some of them to ASCII
    letters (the Kelvin sign to [k]): a keyword found in [lower s] is found
    in [s.lower()] too, but not the other way round.  Statements that rest
    on a keyword not being found are therefore made for ASCII messages. *)
Definition lower_char (c : ascii) : ascii :=
  let n := nat_of_ascii c in
  if (65 <=? n)%nat && (n <=? 90)%nat then ascii_of_nat (n + 32) else c.

(** [s.lower()] *)
Fixpoint lower (s : string) : string :=
  match s with
  | EmptyString => EmptyString
  | String c s' => String (lower_char c) (lower s')
  end.

(** [s.startswith(p)] *)
Fixpoint startswith (p s : string) : bool :=
  match p, s with
  | EmptyString, _ => true
  | String a p', String b s' => if Ascii.eqb a b then startswith p' s' else false
  | String _ _, EmptyString => false
  end.

(** [p in s] for two strings *)
Fixpoint str_in (p s : string) : bool :=
  startswith p s ||
  match s with
  | EmptyString => false
  | String _ s' => str_in p s'
  end.

(** truth value of a string: [bool(s)] *)
Definition truthy (s : string) : bool :=
  match s with EmptyString => false | _ => true end.

(** [o or default] for an optional string *)
Definition or_default (o : option string) (default : string) : string :=
  match o with
  | Some s => if truthy s then s else default
  | None => default
  end.

(** [str(n)] for an integer *)
Definition str_of_Z (n : Z) : string := NilZero.string_of_int (Z.to_int n).

(** *** [int(s)] for a string argument

    For a text of ASCII characters: the white space of C's [isspace] (tab,
    line feed, vertical tab, form feed, carriage return, space) is stripped
    on both sides, an optional sign follows, then decimal digits in which
    single underscores may separate digits; a literal of more than
    [max_str_digits] digits is refused, which is the interpreter's default
    limit on the conversion.  On other texts [int] also reads Unicode
    digits and Unicode white space: a text that converts here is an ASCII
    text ([int_reads_ascii]) and converts to the same number there, and
    statements that rest on a text not converting are made for ASCII
    texts. *)

Definition is_space (c : ascii) : bool :=
  let n := nat_of_ascii c in
  ((9 <=? n)%nat && (n <=? 13)%nat) || (n =? 32)%nat.

(** [sys.int_info.default_max_str_digits] *)
Definition max_str_digits : Z := 4300.

Definition is_digit (c : ascii) : bool :=
  let n := nat_of_ascii c in (48 <=? n)%nat && (n <=? 57)%nat.

Definition digit_val (c : ascii) : Z := Z.of_nat (nat_of_ascii c) - 48.

Fixpoint lstrip (s : string) : string :=
  match s with
  | EmptyString => EmptyString
  | String c s' => if is_space c then lstrip s' else s
  end.

Fixpoint rev_str (acc s : string) : string :=
  match s with
  | EmptyString => acc
  | String c s' => rev_str (String c acc) s'
  end.

Definition strip (s : string) : string :=
  rev_str EmptyString (lstrip (rev_str EmptyString (lstrip s))).

(** [after_digit] tells whether the previous character was a digit: only
    then may the literal end or an underscore follow; [count] is the number
    of digits read so far. *)
Fixpoint digits (after_digit : bool) (count acc : Z) (s : string) : option Z :=
  match s with
  | EmptyString =>
      if after_digit && (count <=? max_str_digits)%Z then Some acc else None
  | String c s' =>
      if is_digit c then digits true (count + 1) (10 * acc + digit_val c) s'
      else if Ascii.eqb c "_" && after_digit then digits false count acc s'
      else None
  end.

Definition int (s : string) : option Z :=
  match strip s with
  | String "-" s' => option_map Z.opp (digits false 0 0 s')
  | String "+" s' => digits false 0 0 s'
  | s' => digits false 0 0 s'
  end.

(** *** [re.search(r'Ticket ID:\*\* #(\w+)', s)]

    The pattern is a literal followed by a greedy, non-empty run of word
    characters; [re.search] returns the leftmost position where the whole
    pattern matches.  Among the ASCII characters the word characters are
    [A-Za-z0-9_], and these are the ones modelled; the pattern of the
    source also takes letters and digits outside ASCII.  The two agree on
    every text in which each run of ASCII word characters that follows the
    literal ends the text or is followed by an ASCII character
    ([word_safe] below); statements about the capture are made for such
    texts. *)

Definition is_word (c : ascii) : bool :=
  let n := nat_of_ascii c in
  is_digit c || ((65 <=? n)%nat && (n <=? 90)%nat)
             || ((97 <=? n)%nat && (n <=? 122)%nat) || (n =? 95)%nat.

Fixpoint drop_prefix (p s : string) : option string :=
  match p, s with
  | EmptyString, _ => Some s
  | String a p', String b s' => if Ascii.eqb a b then drop_prefix p' s' else None
  | String _ _, EmptyString => None
  end.

Fixpoint take_word (s : string) : string :=
  match s with
  | EmptyString => EmptyString
  | String c s' => if is_word c then String c (take_word s') else EmptyString
  end.

Definition ticket_id_literal : string := "Ticket ID:** #".

(** the pattern anchored at the start of [s]; the result is [group(1)] *)
Definition match_ticket_id_here (s : string) : option string :=
  match drop_prefix ticket_id_literal s with
  | Some rest =>
      match take_word rest with
      | EmptyString => None
      | w => Some w
      end
  | None => None
  end.

Fixpoint search_ticket_id (s : string) : option string :=
  match match_ticket_id_here s with
  | Some w => Some w
  | None =>
      match s with
      | EmptyString => None
      | String _ s' => search_ticket_id s'
      end
  end.

End Py.

(** ** Values, messages, exceptions *)

(** JSON values as Python sees them.  [VRepr s] stands for any value that is
    not [None], a boolean, an integer or a string (a float, a list, a nested
    object); the program only ever formats such a value, so it is known by
    the text [s] that [str()] gives for it. *)
Inductive PyVal : Type :=
  | VNone
  | VBool (b : bool)
  | VInt (n : Z)
  | VStr (s : string)
  | VRepr (s : string).

(** [str(v)], as an f-string renders [v] *)
Definition str (v : PyVal) : string :=
  match v with
  | VNone => "None"
  | VBool true => "True"
  | VBool false => "False"
  | VInt n => Py.str_of_Z n
  | VStr s => s
  | VRepr s => s
  end.

(** [v == s] for an optional value [v] and a string literal [s] *)
Definition eq_str (v : option PyVal) (s : string) : bool :=
  match v with
  | Some (VStr s') => String.eqb s' s
  | _ => false
  end.

(** one entry of [AIMessage.tool_calls] *)
Record ToolCall : Type := mkToolCall {
  name : string;
  args : gmap string PyVal
}.

Inductive Message : Type :=
  | HumanMessage (content : string)
  | AIMessage (content : string) (tool_calls : list ToolCall)
  | ToolMessage (content : string).

Definition content (m : Message) : string :=
  match m with
  | HumanMessage c => c
  | AIMessage c _ => c
  | ToolMessage c => c
  end.

(** [hasattr(m, 'tool_calls') and m.tool_calls] *)
Definition tool_calls_of (m : Message) : list ToolCall :=
  match m with
  | AIMessage _ tcs => tcs
  | _ => []
  end.

Definition isinstance_AIMessage (m : Message) : bool :=
  match m with AIMessage _ _ => true | _ => false end.

Definition isinstance_ToolMessage (m : Message) : bool :=
  match m with ToolMessage _ => true | _ => false end.

(** The [except] clauses of the program tell three groups of exceptions
    apart: [requests.exceptions.Timeout] and its subclasses,
    [requests.exceptions.ConnectionError] and its remaining subclasses, and
    everything else below [Exception]. *)
Inductive ExnClass : Type := Timeout | ConnectionError | OtherException.

Record Exn : Type := mkExn {
  exn_class : ExnClass;
  exn_str : string            (* str(error) *)
}.

Inductive Outcome (A : Type) : Type :=
  | Ret (a : A)
  | Raise (e : Exn).
Arguments Ret {A} a.
Arguments Raise {A} e.

(** ** Configuration (config.py) *)

Record Config : Type := mkConfig {
  OPENAI_API_KEY : string;
  FRESHDESK_DOMAIN : string;
  FRESHDESK_API_KEY : string;
  systemPrompt : string        (* CHAT_CONFIG["systemPrompt"] *)
}.

(** ** The outside world *)

(** the [json=] body of the Freshdesk request *)
Record TicketData : Type := mkTicketData {
  td_description : string;
  td_subject : string;
  td_email : string;
  td_priority : Z;
  td_status : Z
}.

(** [requests.post(api_url, headers=.., json=ticket_data, timeout=30)]; the
    Authorization header is determined by the API key. *)
Record GatewayRequest : Type := mkGatewayRequest {
  api_url : string;
  auth_key : string;
  ticket_data : TicketData
}.

(** what [response.json()] gives when it parses *)
Inductive JsonBody : Type :=
  | JDict (d : gmap string PyVal)
  | JOther.                       (* a list, string, number or null *)

Record Response : Type := mkResponse {
  status_code : Z;
  text : string;
  json : option JsonBody          (* [None]: [response.json()] raises *)
}.

(** [response.ok]: [raise_for_status] raises for the client and server
    error codes, 400 to 599 *)
Definition ok (r : Response) : bool :=
  negb ((400 <=? status_code r)%Z && (status_code r <? 600)%Z).

Record World : Type := mkWorld {
  (** the chat model: bound tool names and message list to a reply *)
  llm : list string -> list Message -> Outcome (string * list ToolCall);
  (** the Freshdesk ticket API *)
  freshdesk : GatewayRequest -> Outcome Response;
  (** the text the graph library's tool node puts into a [ToolMessage] for a
      call it rejects (unknown tool name, arguments not matching the tool's
      signature) *)
  tool_error : ToolCall -> string;
  (** the number of graph steps the graph library allows per run *)
  recursion_limit : nat
}.

(** ** Computations: a result or an exception, with the external calls made *)

Inductive Event : Type :=
  | LLMCall (tools : list string) (messages : list Message)
  | GatewayCall (r : GatewayRequest).

Definition M (A : Type) : Type := Outcome A * list Event.

Definition ret {A} (a : A) : M A := (Ret a, []).
Definition raise {A} (e : Exn) : M A := (Raise e, []).

Definition bind {A B} (m : M A) (k : A -> M B) : M B :=
  match m with
  | (Ret a, t) => let (r, t') := k a in (r, t ++ t')
  | (Raise e, t) => (Raise e, t)
  end.

(** [try: m  except Exception as e: handler e] *)
Definition try_except {A} (m : M A) (handler : Exn -> M A) : M A :=
  match m with
  | (Ret a, t) => (Ret a, t)
  | (Raise e, t) => let (r, t') := handler e in (r, t ++ t')
  end.

Notation "'let!' x ':=' m 'in' k" := (bind m (fun x => k))
  (at level 10, x name, m at level 200, k at level 200).

Definition trace {A} (m : M A) : list Event := snd m.
Definition outcome {A} (m : M A) : Outcome A := fst m.

Definition is_gateway_call (e : Event) : bool :=
  match e with GatewayCall _ => true | LLMCall _ _ => false end.

Definition is_llm_call (e : Event) : bool :=
  match e with LLMCall _ _ => true | GatewayCall _ => false end.

Definition gateway_calls (t : list Event) : list GatewayRequest :=
  omap (fun e => match e with GatewayCall r => Some r | _ => None end) t.

Definition llm_calls (t : list Event) : nat :=
  length (List.filter is_llm_call t).

Definition invoke_llm (w : World) (tools : list string) (msgs : list Message)
  : M Message :=
  (match llm w tools msgs with
   | Ret (c, tcs) => Ret (AIMessage c tcs)
   | Raise e => Raise e
   end, [LLMCall tools msgs]).

Definition requests_post (w : World) (r : GatewayRequest) : M Response :=
  (freshdesk w r, [GatewayCall r]).

Definition nl : string := String (ascii_of_nat 10) EmptyString.

(** [CHAT_CONFIG["systemPrompt"]], line by line *)
Definition dq : string := String (ascii_of_nat 34) EmptyString.

Definition system_prompt_lines : list string :=
    ["You are Fixie, an AI-powered IT Support Specialist. You ONLY help with technical IT issues and computer-related problems.";
     EmptyString;
     "STRICT GUIDELINES:";
     "- ONLY respond to IT support topics (hardware, software, networks, security, troubleshooting)";
     "- If asked about non-IT topics, politely redirect: " +:+ dq +:+ "I'm an IT support specialist. I can only help with technical IT issues. How can I assist with your computer or technology needs?" +:+ dq;
     EmptyString;
     "AVAILABLE TOOLS:";
     "- create_support_ticket: Use this tool when the user explicitly asks to create a ticket, or when you've provided troubleshooting steps but the user indicates they still need help and want to escalate to human support.";
     EmptyString;
     "TOOL USAGE GUIDELINES:";
     "- ONLY use create_support_ticket when:";
     "  1. User explicitly asks to " +:+ dq +:+ "create a ticket" +:+ dq +:+ " or " +:+ dq +:+ "escalate to support" +:+ dq;
     "  2. User has tried your suggestions and still needs help";
     "  3. User expresses frustration and wants human assistance";
     "  4. The issue is complex and requires human intervention";
     EmptyString;
     "- BEFORE using the tool, ask the user: " +:+ dq +:+ "Would you like me to create a support ticket for this issue?" +:+ dq;
     "- Wait for user confirmation before creating a ticket";
     "- Generate appropriate ticket details based on the conversation context";
     "- Use user's email from the conversation or ask for it if needed";
     EmptyString;
     "IT TOPICS YOU HELP WITH:";
     "- Computer troubleshooting (Windows, Mac, Linux)";
     "- Software installation and configuration";
     "- Network connectivity issues";
     "- Email and communication problems";
     "- Security concerns (antivirus, malware, passwords)";
     "- Hardware setup and maintenance";
     "- Performance optimization";
     "- Data backup and recovery";
     "- Remote access and VPN issues";
     "- System administration tasks";
     EmptyString;
     "IMPORTANT: Be helpful with troubleshooting first. Only suggest ticket creation when appropriate."].

Definition system_prompt : string := String.concat nl system_prompt_lines.

(** The class attributes of [Config], read from the environment when the
    module is loaded: [os.getenv(name, default)].  [FRONTEND_URL] only
    feeds the CORS settings of the HTTP layer and has no field here. *)
Definition from_env (env : gmap string string) : Config :=
  {| OPENAI_API_KEY := default "your-openai-api-key-here" (env !! "OPENAI_API_KEY");
     FRESHDESK_DOMAIN := default "yourcompany.freshdesk.com" (env !! "FRESHDESK_DOMAIN");
     FRESHDESK_API_KEY :=
       default "your-freshdesk-api-key-here" (env !! "FRESHDESK_API_KEY");
     systemPrompt := system_prompt |}.

(** [s.encode('ascii')] succeeds exactly on strings of ASCII characters *)
Definition is_ascii (s : string) : bool :=
  forallb (fun c => (nat_of_ascii c <? 128)%nat) (list_ascii_of_string s).

Definition other_error {A} (msg : string) : M A :=
  raise (mkExn OtherException msg).

(** ** The ticket-filing tools (agents.py, langgraph_workflow.py) *)

Definition priority_names_int (p : Z) : string :=
  match p with
  | 1 => "Low" | 2 => "Medium" | 3 => "High" | 4 => "Urgent"
  | _ => "Medium"
  end%Z.

Definition ticket_created_text (id subject priority_name ticket_url : string)
  : string :=
  "✅ **Support ticket created successfully!**" +:+ nl +:+ nl +:+
  "**Ticket ID:** #" +:+ id +:+ nl +:+
  "**Subject:** " +:+ subject +:+ nl +:+
  "**Priority:** " +:+ priority_name +:+ nl +:+ nl +:+
  "**View your ticket:** " +:+ ticket_url +:+ nl +:+ nl +:+
  "Our IT support team will review your request and respond within 24 hours. You'll receive email updates as we work on your issue.".

(** [response.json()] *)
Definition response_json (r : Response) : M JsonBody :=
  match json r with
  | Some j => ret j
  | None => other_error "Expecting value"
  end.

(** [j.get(key)]: only a dict has [get] *)
Definition json_get (j : JsonBody) (key : string) : M (option PyVal) :=
  match j with
  | JDict d => ret (d !! key)
  | JOther => other_error "object has no attribute 'get'"
  end.

(** [j[key]] *)
Definition json_item (j : JsonBody) (key : string) : M PyVal :=
  match j with
  | JDict d =>
      match d !! key with
      | Some v => ret v
      | None => other_error ("'" +:+ key +:+ "'")
      end
  | JOther => other_error "indices must be integers"
  end.

(** [int(priority)] *)
Definition int_or_raise (s : string) : M Z :=
  match Py.int s with
  | Some n => ret n
  | None => other_error ("invalid literal for int() with base 10: '" +:+ s +:+ "'")
  end.

Definition encode_ascii (s : string) : M unit :=
  if is_ascii s then ret tt
  else other_error "'ascii' codec can't encode character".

Section TicketRequest.

(** The bodies of [create_freshdesk_ticket] and [create_support_ticket]
    inside their outer [try] are the same statements; the two texts below
    are the only places where they differ. *)
Variable config_text : string.
Variable auth_text : string.

(** the statements that follow the request: the reply text for a response *)
Definition response_text (domain subject : string) (p : Z) (response : Response)
  : M string :=
  if negb (ok response) then
    let error_text := text response in
    try_except
      (let! error_json := response_json response in
       let! code := json_get error_json "code" in
       if eq_str code "invalid_credentials"
       then ret auth_text
       else if Py.str_in "email" (Py.lower error_text)
       then ret "❌ Email validation failed. Please provide a valid email address."
       else
         let! message := json_get error_json "message" in
         ret ("❌ Freshdesk API error: "
              +:+ str (default (VStr "Unknown error") message)))
      (fun _ =>
         ret ("❌ Freshdesk API error " +:+ Py.str_of_Z (status_code response)
              +:+ ": " +:+ error_text))
  else
    let! ticket := response_json response in
    let! id := json_item ticket "id" in
    let ticket_url := "https://" +:+ domain +:+ "/a/tickets/" +:+ str id in
    let priority_name := priority_names_int p in
    ret (ticket_created_text (str id) subject priority_name ticket_url).

Definition ticket_request (cfg : Config) (w : World)
    (subject description priority email : string) : M string :=
  let domain := FRESHDESK_DOMAIN cfg in
  let api_key := FRESHDESK_API_KEY cfg in
  if negb (Py.truthy domain) || negb (Py.truthy api_key)
     || String.eqb api_key "your-freshdesk-api-key-here"
  then ret config_text
  else
    let! p := int_or_raise priority in
    let ticket_data :=
      {| td_description := description; td_subject := subject;
         td_email := email; td_priority := p; td_status := 2 |} in
    let! _ := encode_ascii (api_key +:+ ":X") in
    let api_url := "https://" +:+ domain +:+ "/api/v2/tickets" in
    let! response :=
      requests_post w {| api_url := api_url; auth_key := api_key;
                         ticket_data := ticket_data |} in
    response_text domain subject p response.

End TicketRequest.

(** ** Tools and the tool node of the graph library *)

(** A [@tool]-decorated function.  All three tools of the repository have
    the signature [(subject: str, description: str, priority: str, email:
    str) -> str]. *)
Record Tool : Type := mkTool {
  tool_name : string;
  tool_func : string -> string -> string -> string -> M string
}.

(** the arguments of a call, checked against that signature *)
Definition tool_args (input : gmap string PyVal)
  : option (string * string * string * string) :=
  match input !! "subject", input !! "description",
        input !! "priority", input !! "email" with
  | Some (VStr s), Some (VStr d), Some (VStr p), Some (VStr e) => Some (s, d, p, e)
  | _, _, _, _ => None
  end.

(** [tool.invoke(input)]: raises when the arguments do not fit *)
Definition tool_invoke (t : Tool) (input : gmap string PyVal) : M string :=
  match tool_args input with
  | Some (s, d, p, e) => tool_func t s d p e
  | None => other_error "validation error"
  end.

(** [t(subject=.., description=.., priority=.., email=..)]: the object
    that [@tool] makes of a function is not that function.  Its call takes
    one positional input, so a call with the fields as keywords is refused
    with a [TypeError] before the function runs. *)
Definition tool_call_keywords (t : Tool) (input : gmap string PyVal)
  : M string :=
  other_error "BaseTool.__call__() got an unexpected keyword argument 'subject'".

(** The tool node runs one requested call: an unknown name or a failing
    invocation becomes a [ToolMessage] carrying the library's error text. *)
Definition run_tool_call (w : World) (tools : list Tool) (tc : ToolCall)
  : M Message :=
  match find (fun t => String.eqb (tool_name t) (name tc)) tools with
  | None => ret (ToolMessage (tool_error w tc))
  | Some t =>
      try_except
        (let! r := tool_invoke t (args tc) in ret (ToolMessage r))
        (fun _ => ret (ToolMessage (tool_error w tc)))
  end.

Fixpoint run_tool_calls (w : World) (tools : list Tool) (tcs : list ToolCall)
  : M (list Message) :=
  match tcs with
  | [] => ret []
  | tc :: rest =>
      let! m := run_tool_call w tools tc in
      let! ms := run_tool_calls w tools rest in
      ret (m :: ms)
  end.

(** [ToolNode(tools)] applied to a message list: the calls of the last
    message are run in request order; the node yields the new messages. *)
Definition ToolNode (w : World) (tools : list Tool) (msgs : list Message)
  : M (list Message) :=
  match last msgs with
  | Some (AIMessage _ tcs) => run_tool_calls w tools tcs
  | _ => other_error "Last message is not an AIMessage"
  end.

(** [msgs[-1]] *)
Definition last_message (msgs : list Message) : M Message :=
  match last msgs with
  | Some m => ret m
  | None => other_error "list index out of range"
  end.

(** one entry of a conversation history: [{"role": .., "content": ..}] *)
Record ChatMsg : Type := mkChatMsg {
  msg_role : string;
  msg_content : string
}.

(** the conversion loop shared by the three [run_*_workflow] functions *)
Fixpoint to_langchain (conversation_history : list ChatMsg) : list Message :=
  match conversation_history with
  | [] => []
  | msg :: rest =>
      if String.eqb (msg_role msg) "user"
      then HumanMessage (msg_content msg) :: to_langchain rest
      else if String.eqb (msg_role msg) "assistant"
      then AIMessage (msg_content msg) [] :: to_langchain rest
      else to_langchain rest
  end.

(** the dictionary a [run_*_workflow] function returns; a key that a
    function does not set reads as [None] through [.get] *)
Record WorkflowResult : Type := mkWorkflowResult {
  wr_content : string;
  wr_needsApproval : bool;
  wr_ticketDetails : option (gmap string PyVal);
  wr_toolsUsed : list string;
  wr_issueType : string;
  wr_ticketCreated : bool;
  wr_ticketId : option string
}.

(** the dictionary [create_ticket_directly] and
    [create_ticket_with_approval] return *)
Record TicketResult : Type := mkTicketResult {
  tr_success : bool;
  tr_content : string;
  tr_ticketId : option string;
  tr_ticketNumber : option string
}.

(** [d[key]] for a dict *)
Definition dict_item (d : gmap string PyVal) (key : string) : M PyVal :=
  match d !! key with
  | Some v => ret v
  | None => other_error ("'" +:+ key +:+ "'")
  end.

Inductive Branch : Type := ToTools | ToEND.

Module Agents.

Definition config_text : string :=
  "❌ Unable to create tickets due to configuration issues. Please contact support directly.".
Definition auth_text : string :=
  "❌ Authentication failed with Freshdesk. Please check API credentials.".
Definition unexpected_text : string :=
  "❌ Unexpected error while creating ticket. Please contact support directly.".

(** agents.py, [create_freshdesk_ticket]: one [except Exception] around
    the whole body *)
Definition create_freshdesk_ticket (cfg : Config) (w : World)
    (subject description priority email : string) : M string :=
  try_except
    (ticket_request config_text auth_text cfg w subject description priority email)
    (fun _ => ret unexpected_text).

Definition create_freshdesk_ticket_tool (cfg : Config) (w : World) : Tool :=
  {| tool_name := "create_freshdesk_ticket";
     tool_func := create_freshdesk_ticket cfg w |}.

Record AgentState : Type := mkAgentState {
  messages : list Message;
  user_id : string;
  conversation_id : string;
  user_email : string;
  current_agent : string;
  ticket_data : option (gmap string PyVal);
  needs_approval : bool
}.

(** a node's return value [{"messages": new, "current_agent": agent}]
    merged into the state: [add_messages] appends, the agent is replaced *)
Definition update (state : AgentState) (new : list Message) (agent : string)
  : AgentState :=
  {| messages := messages state ++ new;
     user_id := user_id state;
     conversation_id := conversation_id state;
     user_email := user_email state;
     current_agent := agent;
     ticket_data := ticket_data state;
     needs_approval := needs_approval state |}.

(** The instruction texts are passed to the model and read by nothing
    else; they are shortened here to their first lines. *)
Definition chat_system_prompt (cfg : Config) : string :=
  systemPrompt cfg +:+ nl +:+ nl +:+ "ESCALATION GUIDELINES: ...".
Definition ticket_system_prompt : string :=
  "You are a specialized Ticket Creation Agent. ...".

(** *** The chat agent: START -> chat -> END, model without tools *)

Definition chat_tools : list Tool := [].

Definition chat_node (cfg : Config) (w : World) (state : AgentState)
  : M AgentState :=
  let msgs := HumanMessage (chat_system_prompt cfg) :: messages state in
  let! response := invoke_llm w (map tool_name chat_tools) msgs in
  ret (update state [response] "chat").

Definition chat_agent := chat_node.

(** *** The ticket agent: START -> analyze -> (tools -> END | END) *)

Definition ticket_tools (cfg : Config) (w : World) : list Tool :=
  [create_freshdesk_ticket_tool cfg w].

Definition ticket_analysis_node (cfg : Config) (w : World) (state : AgentState)
  : M AgentState :=
  let msgs := HumanMessage ticket_system_prompt :: messages state in
  let! response := invoke_llm w (map tool_name (ticket_tools cfg w)) msgs in
  ret (update state [response] "ticket").

Definition should_use_tools (state : AgentState) : M Branch :=
  let! last_msg := last_message (messages state) in
  match tool_calls_of last_msg with
  | _ :: _ => ret ToTools
  | [] => ret ToEND
  end.

Definition tool_node (cfg : Config) (w : World) (state : AgentState)
  : M AgentState :=
  let! new := ToolNode w (ticket_tools cfg w) (messages state) in
  ret (update state new (current_agent state)).

Definition ticket_agent (cfg : Config) (w : World) (state : AgentState)
  : M AgentState :=
  let! analysed := ticket_analysis_node cfg w state in
  let! branch := should_use_tools analysed in
  match branch with
  | ToTools => tool_node cfg w analysed
  | ToEND => ret analysed
  end.

(** *** The main workflow: START -> supervisor_routing -> agent -> END *)

Definition ticket_keywords : list string :=
  ["create ticket"; "create a ticket"; "open ticket"; "submit ticket";
   "escalate"; "human help"; "support team"; "manager"].

Inductive Route : Type := chat | ticket.

Definition supervisor_routing (state : AgentState) : Route :=
  let user_input :=
    match last (messages state) with
    | Some last_msg => Py.lower (content last_msg)
    | None => EmptyString
    end in
  if existsb (fun keyword => Py.str_in keyword user_input) ticket_keywords
  then ticket
  else chat.

Definition multi_agent_workflow (cfg : Config) (w : World) (state : AgentState)
  : M AgentState :=
  match supervisor_routing state with
  | chat => chat_agent cfg w state
  | ticket => ticket_agent cfg w state
  end.

(** the loop that picks the ticket id out of the tool messages *)
Fixpoint first_ticket_id (tool_messages : list Message) : option string :=
  match tool_messages with
  | [] => None
  | msg :: rest =>
      if Py.str_in "Ticket ID:" (content msg)
      then Py.search_ticket_id (content msg)
      else first_ticket_id rest
  end.

Definition run_multi_agent_workflow (cfg : Config) (w : World)
    (message : string) (conversation_history : list ChatMsg)
    (user_id conversation_id user_email : string) : M WorkflowResult :=
  if negb (Py.truthy (OPENAI_API_KEY cfg))
     || String.eqb (OPENAI_API_KEY cfg) "your-openai-api-key-here"
  then other_error "OpenAI API key not available"
  else
    let msgs := to_langchain conversation_history ++ [HumanMessage message] in
    let! result :=
      multi_agent_workflow cfg w
        {| messages := msgs; user_id := user_id;
           conversation_id := conversation_id; user_email := user_email;
           current_agent := EmptyString; ticket_data := None;
           needs_approval := false |} in
    let final_messages := List.filter isinstance_AIMessage (messages result) in
    match last final_messages with
    | None => other_error "No response generated from agents"
    | Some final_message =>
        let tool_messages :=
          List.filter isinstance_ToolMessage (messages result) in
        let ticket_created :=
          existsb (fun msg => Py.str_in "✅" (content msg)) tool_messages in
        let ticket_id :=
          if ticket_created then first_ticket_id tool_messages else None in
        ret {| wr_content := content final_message;
               wr_needsApproval := false;
               wr_ticketDetails := None;
               wr_toolsUsed :=
                 if ticket_created then ["create_freshdesk_ticket"] else [];
               wr_issueType := current_agent result;
               wr_ticketCreated := ticket_created;
               wr_ticketId := ticket_id |}
    end.

(** *** Direct filing after approval *)

Definition error_result : TicketResult :=
  {| tr_success := false;
     tr_content := "❌ Error creating ticket. Please contact support directly.";
     tr_ticketId := None;
     tr_ticketNumber := None |}.

Definition create_ticket_directly (cfg : Config) (w : World)
    (ticket_data : gmap string PyVal) (user_email : string) : M TicketResult :=
  try_except
    (let! subject := dict_item ticket_data "subject" in
     let! description := dict_item ticket_data "description" in
     let! priority := dict_item ticket_data "priority" in
     let tool_input : gmap string PyVal :=
       <["subject" := subject]> (<["description" := description]>
         (<["priority" := priority]> (<["email" := VStr user_email]> ∅))) in
     let! result := tool_invoke (create_freshdesk_ticket_tool cfg w) tool_input in
     let ticket_id := Py.search_ticket_id result in
     ret {| tr_success := Py.str_in "✅" result;
            tr_content := result;
            tr_ticketId := ticket_id;
            tr_ticketNumber := ticket_id |})
    (fun _ => ret error_result).

End Agents.

(** [priority_names.get(priority, "Medium")] over the string-keyed table,
    for a value that can be a dictionary key *)
Definition priority_names_str (priority : PyVal) : string :=
  match priority with
  | VStr "1" => "Low"
  | VStr "2" => "Medium"
  | VStr "3" => "High"
  | VStr "4" => "Urgent"
  | _ => "Medium"
  end.

Module ApprovalWorkflow.

Record ApprovalState : Type := mkApprovalState {
  messages : list Message;
  user_id : string;
  conversation_id : string;
  user_email : string;
  ticket_details : option (gmap string PyVal);
  approval_needed : bool;
  user_approved : bool
}.

(** approval_workflow.py, [generate_ticket_details]: renders the preview;
    no external call *)
Definition generate_ticket_details
    (subject description priority email : string) : M string :=
  let priority_name := priority_names_str (VStr priority) in
  ret ("I can help you create a support ticket for this issue. Here's what I'll include:"
       +:+ nl +:+ nl +:+
       "**Subject:** " +:+ subject +:+ nl +:+
       "**Description:** " +:+ description +:+ nl +:+
       "**Priority:** " +:+ priority_name +:+ nl +:+
       "**Email:** " +:+ email +:+ nl +:+ nl +:+
       "Would you like me to proceed with creating this ticket?").

Definition generate_ticket_details_tool : Tool :=
  {| tool_name := "generate_ticket_details";
     tool_func := generate_ticket_details |}.

Definition approval_tools : list Tool := [generate_ticket_details_tool].

Definition approval_system_prompt (cfg : Config) : string :=
  systemPrompt cfg +:+ nl +:+ nl +:+ "You are now in TICKET CREATION MODE. ...".

Definition analyze_for_ticket (cfg : Config) (w : World) (state : ApprovalState)
  : M ApprovalState :=
  let msgs := HumanMessage (approval_system_prompt cfg) :: messages state in
  let! response := invoke_llm w (map tool_name approval_tools) msgs in
  ret {| messages := messages state ++ [response];
         user_id := user_id state;
         conversation_id := conversation_id state;
         user_email := user_email state;
         ticket_details := ticket_details state;
         approval_needed := true;
         user_approved := user_approved state |}.

Definition should_generate_details (state : ApprovalState) : M Branch :=
  let! last_msg := last_message (messages state) in
  match tool_calls_of last_msg with
  | _ :: _ => ret ToTools
  | [] => ret ToEND
  end.

Definition generate_details (w : World) (state : ApprovalState)
  : M ApprovalState :=
  let! new := ToolNode w approval_tools (messages state) in
  ret {| messages := messages state ++ new;
         user_id := user_id state;
         conversation_id := conversation_id state;
         user_email := user_email state;
         ticket_details := ticket_details state;
         approval_needed := approval_needed state;
         user_approved := user_approved state |}.

(** the search of [extract_ticket_data], over the messages newest first *)
Fixpoint find_details (reversed_messages : list Message)
  : option (gmap string PyVal) :=
  match reversed_messages with
  | [] => None
  | message :: rest =>
      match tool_calls_of message with
      | tool_call :: _ =>
          if String.eqb (name tool_call) "generate_ticket_details"
          then Some (args tool_call)
          else find_details rest
      | [] => find_details rest
      end
  end.

Definition extract_ticket_data (state : ApprovalState) : ApprovalState :=
  match find_details (rev (messages state)) with
  | Some details =>
      {| messages := messages state;
         user_id := user_id state;
         conversation_id := conversation_id state;
         user_email := user_email state;
         ticket_details := Some details;
         approval_needed := true;
         user_approved := user_approved state |}
  | None =>
      {| messages := messages state;
         user_id := user_id state;
         conversation_id := conversation_id state;
         user_email := user_email state;
         ticket_details := ticket_details state;
         approval_needed := false;
         user_approved := user_approved state |}
  end.

(** START -> analyze -> (generate_details -> extract_data -> END | END) *)
Definition approval_workflow (cfg : Config) (w : World) (state : ApprovalState)
  : M ApprovalState :=
  let! analysed := analyze_for_ticket cfg w state in
  let! branch := should_generate_details analysed in
  match branch with
  | ToTools =>
      let! generated := generate_details w analysed in
      ret (extract_ticket_data generated)
  | ToEND => ret analysed
  end.

(** [run_approval_workflow].  [create_approval_workflow] builds the client
    of the model from the configured key before the graph runs; this
    function, unlike the other two [run_*_workflow] functions, does not
    test the key first.  The client library accepts every non-empty key,
    the placeholder included, and may refuse an empty one when it is
    built.  The building of the client is taken to succeed here: what is
    stated of this workflow for a missing key is stated for the
    placeholder. *)
Definition run_approval_workflow (cfg : Config) (w : World)
    (message : string) (conversation_history : list ChatMsg)
    (user_id conversation_id user_email : string) : M WorkflowResult :=
  let msgs := to_langchain conversation_history ++ [HumanMessage message] in
  let! result :=
    approval_workflow cfg w
      {| messages := msgs; user_id := user_id;
         conversation_id := conversation_id; user_email := user_email;
         ticket_details := None; approval_needed := false;
         user_approved := false |} in
  let final_messages := List.filter isinstance_AIMessage (messages result) in
  match last final_messages with
  | None => other_error "No response generated"
  | Some final_message =>
      ret {| wr_content := content final_message;
             wr_needsApproval := approval_needed result;
             wr_ticketDetails := ticket_details result;
             wr_toolsUsed :=
               if approval_needed result then ["generate_ticket_details"] else [];
             wr_issueType := "ticket_approval";
             wr_ticketCreated := false;
             wr_ticketId := None |}
  end.

End ApprovalWorkflow.

Module LanggraphWorkflow.

Definition config_text : string :=
  "I apologize, but I'm unable to create tickets at the moment due to configuration issues. Please contact support directly.".
Definition auth_text : string :=
  "❌ Authentication failed with Freshdesk. Please check the API credentials.".
Definition timeout_text : string := "❌ Request timed out. Please try again.".
Definition connection_text : string :=
  "❌ Cannot connect to Freshdesk. Please check your internet connection.".
Definition unexpected_text : string :=
  "❌ I encountered an unexpected error while creating your ticket. Please contact our support team directly.".

(** langgraph_workflow.py, [create_support_ticket]: three [except]
    clauses, tried in order *)
Definition create_support_ticket (cfg : Config) (w : World)
    (subject description priority email : string) : M string :=
  try_except
    (ticket_request config_text auth_text cfg w subject description priority email)
    (fun e =>
       match exn_class e with
       | Timeout => ret timeout_text
       | ConnectionError => ret connection_text
       | OtherException => ret unexpected_text
       end).

Definition create_support_ticket_tool (cfg : Config) (w : World) : Tool :=
  {| tool_name := "create_support_ticket";
     tool_func := create_support_ticket cfg w |}.

Record ConversationState : Type := mkConversationState {
  messages : list Message;
  user_id : string;
  conversation_id : string;
  needs_approval : bool;
  pending_ticket : option (gmap string PyVal)
}.

Definition add_messages (state : ConversationState) (new : list Message)
  : ConversationState :=
  {| messages := messages state ++ new;
     user_id := user_id state;
     conversation_id := conversation_id state;
     needs_approval := needs_approval state;
     pending_ticket := pending_ticket state |}.

Definition workflow_tools (cfg : Config) (w : World) : list Tool :=
  [create_support_ticket_tool cfg w].

Definition enhanced_system_prompt (cfg : Config) : string :=
  systemPrompt cfg +:+ nl +:+ nl +:+ "AVAILABLE TOOLS: ...".

Definition chatbot (cfg : Config) (w : World) (state : ConversationState)
  : M ConversationState :=
  let msgs := messages state in
  let msgs :=
    if negb (existsb (fun msg => isinstance_AIMessage msg
                                 && Py.str_in "Fixie" (content msg)) msgs)
    then HumanMessage (enhanced_system_prompt cfg) :: msgs
    else msgs in
  let! response := invoke_llm w (map tool_name (workflow_tools cfg w)) msgs in
  ret (add_messages state [response]).

Definition should_continue (state : ConversationState) : M Branch :=
  let! last_msg := last_message (messages state) in
  match tool_calls_of last_msg with
  | _ :: _ => ret ToTools
  | [] => ret ToEND
  end.

Definition tool_node (cfg : Config) (w : World) (state : ConversationState)
  : M ConversationState :=
  let! new := ToolNode w (workflow_tools cfg w) (messages state) in
  ret (add_messages state new).

(** START -> chatbot -> (tools -> chatbot | END).  The source sets no
    bound on the cycle.  The graph library runs one node per step, at most
    [steps] of them, and tests its limit before it looks whether a node is
    still due: a run of n nodes needs a limit of n + 1 to end, and with a
    smaller limit the library raises its recursion error after the nodes
    the limit allowed have run. *)
Inductive Node : Type := chatbot_node | tools_node.

Fixpoint run_graph (cfg : Config) (w : World) (steps : nat) (node : Node)
    (state : ConversationState) : M ConversationState :=
  match steps with
  | O => other_error "Recursion limit reached without hitting a stop condition"
  | S steps' =>
      match node with
      | chatbot_node =>
          let! replied := chatbot cfg w state in
          let! branch := should_continue replied in
          match branch with
          | ToTools => run_graph cfg w steps' tools_node replied
          | ToEND =>
              match steps' with
              | O =>
                  other_error
                    "Recursion limit reached without hitting a stop condition"
              | S _ => ret replied
              end
          end
      | tools_node =>
          let! observed := tool_node cfg w state in
          run_graph cfg w steps' chatbot_node observed
      end
  end.

Definition langgraph_workflow (cfg : Config) (w : World)
    (state : ConversationState) : M ConversationState :=
  run_graph cfg w (recursion_limit w) chatbot_node state.

Record ChatWorkflowResult : Type := mkChatWorkflowResult {
  cw_content : string;
  cw_needsApproval : bool;
  cw_toolsUsed : list string;
  cw_issueType : string;
  cw_pendingTicket : option (gmap string PyVal)
}.

(** the first message with tool calls whose first call names the tool *)
Fixpoint find_pending (msgs : list Message) : option (gmap string PyVal) :=
  match msgs with
  | [] => None
  | msg :: rest =>
      match tool_calls_of msg with
      | tool_call :: _ =>
          if String.eqb (name tool_call) "create_support_ticket"
          then Some (args tool_call)
          else find_pending rest
      | [] => find_pending rest
      end
  end.

Definition run_chat_workflow (cfg : Config) (w : World)
    (message : string) (conversation_history : list ChatMsg)
    (user_id conversation_id : string) : M ChatWorkflowResult :=
  if negb (Py.truthy (OPENAI_API_KEY cfg))
     || String.eqb (OPENAI_API_KEY cfg) "your-openai-api-key-here"
  then other_error "OpenAI API key not available"
  else
    let msgs := to_langchain conversation_history ++ [HumanMessage message] in
    let! result :=
      langgraph_workflow cfg w
        {| messages := msgs; user_id := user_id;
           conversation_id := conversation_id; needs_approval := false;
           pending_ticket := None |} in
    let final_messages := List.filter isinstance_AIMessage (messages result) in
    match last final_messages with
    | None => other_error "No AI response generated"
    | Some final_message =>
        match find_pending (messages result) with
        | Some tool_args =>
            let! priority := dict_item tool_args "priority" in
            let priority_name := priority_names_str priority in
            let! subject := dict_item tool_args "subject" in
            let! description := dict_item tool_args "description" in
            ret {| cw_content :=
                     "I can help you create a support ticket for this issue. Here's what I'll include:"
                     +:+ nl +:+ nl +:+
                     "**Subject:** " +:+ str subject +:+ nl +:+
                     "**Description:** " +:+ str description +:+ nl +:+
                     "**Priority:** " +:+ priority_name +:+ nl +:+ nl +:+
                     "Would you like me to proceed with creating this ticket?";
                   cw_needsApproval := true;
                   cw_toolsUsed := ["create_support_ticket"];
                   cw_issueType := "ticket_creation";
                   cw_pendingTicket := Some tool_args |}
        | None =>
            ret {| cw_content := content final_message;
                   cw_needsApproval := false;
                   cw_toolsUsed := [];
                   cw_issueType := "general";
                   cw_pendingTicket := None |}
        end
    end.

Definition error_result : TicketResult :=
  {| tr_success := false;
     tr_content := "I apologize, but I encountered an error while creating your ticket. Please contact our support team directly.";
     tr_ticketId := None;
     tr_ticketNumber := None |}.

(** [create_ticket_with_approval].  The source does not run the tool
    through [invoke]: it calls the tool object like the function it wraps,
    with the four fields as keyword arguments, after the three fields of
    the draft have been read.  That call raises (see [tool_call_keywords]),
    so the statements after it are never reached and the [except] clause
    answers. *)
Definition create_ticket_with_approval (cfg : Config) (w : World)
    (ticket_data : gmap string PyVal) (user_email : string) : M TicketResult :=
  try_except
    (let! subject := dict_item ticket_data "subject" in
     let! description := dict_item ticket_data "description" in
     let! priority := dict_item ticket_data "priority" in
     let tool_input : gmap string PyVal :=
       <["subject" := subject]> (<["description" := description]>
         (<["priority" := priority]> (<["email" := VStr user_email]> ∅))) in
     let! result :=
       tool_call_keywords (create_support_ticket_tool cfg w) tool_input in
     let ticket_id := Py.search_ticket_id result in
     ret {| tr_success := Py.str_in "✅" result;
            tr_content := result;
            tr_ticketId := ticket_id;
            tr_ticketNumber := ticket_id |})
    (fun _ => ret error_result).

End LanggraphWorkflow.

(** ** The chat endpoint (main.py) *)

Module Main.

Record ChatRequest : Type := mkChatRequest {
  conversationId : string;
  message : string;
  userId : option string;
  userEmail : option string;
  action : option string;
  ticketData : option (gmap string PyVal)
}.

(** the approval prompt: the draft attached to the approve button; the
    labels and ids of the two buttons are constants *)
Record InteractiveButtons : Type := mkInteractiveButtons {
  approve_data : gmap string PyVal
}.

Record ChatResponse : Type := mkChatResponse {
  success : bool;
  resp_content : string;
  resp_conversationId : string;
  needsApproval : bool;
  ticketSummary : option PyVal;
  interactiveButtons : option InteractiveButtons;
  ticketCreated : bool;
  ticketId : option string;
  ticketNumber : option string
}.

(** an entry of [messages_db[conversationId]] *)
Record StoredMessage : Type := mkStoredMessage {
  role : string;
  stored_content : string;
  stored_ticketId : option string;
  stored_ticketNumber : option string
}.

(** the two module-level dictionaries *)
Record Store : Type := mkStore {
  messages_db : gmap string (list StoredMessage);
  conversations_db : gmap string (gmap string PyVal)
}.

Inductive HttpResult : Type :=
  | Respond (r : ChatResponse)
  | HTTPException (status : Z) (detail : string).

(** [messages_db[cid].append/extend(..)], creating the list when absent *)
Definition append_messages (db : Store) (cid : string)
    (new : list StoredMessage) : Store :=
  {| messages_db :=
       <[cid := default [] (messages_db db !! cid) ++ new]> (messages_db db);
     conversations_db := conversations_db db |}.

Definition set_conversation (db : Store) (cid : string)
    (meta : gmap string PyVal) : Store :=
  {| messages_db := messages_db db;
     conversations_db := <[cid := meta]> (conversations_db db) |}.

Definition decline_message : string :=
  "I understand you don't want to create a ticket right now. Is there anything else I can help you with?".

Definition ticket_keywords : list string :=
  ["create ticket"; "create a ticket"; "yes"; "proceed"; "confirm"].

(** the handler of the outer [except Exception as error] *)
Definition http_error (error : Exn) : HttpResult :=
  if Py.str_in "auth" (Py.lower (exn_str error))
  then HTTPException 401 "Authentication failed. Please refresh and try again."
  else HTTPException 500 ("Sorry, I encountered an error: " +:+ exn_str error).

(** truth value of [request.ticketData] *)
Definition truthy_dict (d : option (gmap string PyVal)) : bool :=
  match d with
  | Some d => negb (bool_decide (d = ∅))
  | None => false
  end.

Definition is_action (request : ChatRequest) (a : string) : bool :=
  match action request with
  | Some a' => String.eqb a' a
  | None => false
  end.

(** the workflow chosen by the keyword test of the normal chat flow *)
Definition run_workflow (cfg : Config) (w : World) (request : ChatRequest)
    (history : list ChatMsg) (user_id user_email : string) : M WorkflowResult :=
  let message_lower := Py.lower (message request) in
  if existsb (fun keyword => Py.str_in keyword message_lower) ticket_keywords
  then ApprovalWorkflow.run_approval_workflow cfg w (message request) history
         user_id (conversationId request) user_email
  else Agents.run_multi_agent_workflow cfg w (message request) history
         user_id (conversationId request) user_email.

Definition plain_response (request : ChatRequest) (text : string)
  : ChatResponse :=
  {| success := true; resp_content := text;
     resp_conversationId := conversationId request;
     needsApproval := false; ticketSummary := None;
     interactiveButtons := None; ticketCreated := false;
     ticketId := None; ticketNumber := None |}.

Definition history_of (db : Store) (cid : string) : list ChatMsg :=
  let conversation_messages := default [] (messages_db db !! cid) in
  map (fun msg => {| msg_role := role msg; msg_content := stored_content msg |})
      conversation_messages.

(** Each branch of [chat_endpoint] yields the result, the store afterwards
    and the external calls made. *)

(** [# Handle ticket creation approval] *)
Definition approve_flow (cfg : Config) (w : World) (db : Store)
    (request : ChatRequest) (ticket_data : gmap string PyVal)
    (user_email : string) : HttpResult * Store * list Event :=
  match Agents.create_ticket_directly cfg w ticket_data user_email with
  | (Raise error, calls) => (http_error error, db, calls)
  | (Ret ticket_result, calls) =>
      let message_data :=
        {| role := "assistant";
           stored_content := tr_content ticket_result;
           stored_ticketId := tr_ticketId ticket_result;
           stored_ticketNumber := tr_ticketNumber ticket_result |} in
      let db := append_messages db (conversationId request) [message_data] in
      (Respond
         {| success := true;
            resp_content := tr_content ticket_result;
            resp_conversationId := conversationId request;
            needsApproval := false; ticketSummary := None;
            interactiveButtons := None;
            ticketCreated := tr_success ticket_result;
            ticketId := tr_ticketId ticket_result;
            ticketNumber := tr_ticketNumber ticket_result |},
       db, calls)
  end.

(** [# Handle ticket decline] *)
Definition decline_flow (db : Store) (request : ChatRequest)
  : HttpResult * Store * list Event :=
  let message_data :=
    {| role := "assistant"; stored_content := decline_message;
       stored_ticketId := None; stored_ticketNumber := None |} in
  let db := append_messages db (conversationId request) [message_data] in
  (Respond (plain_response request decline_message), db, []).

(** [# Normal chat flow] *)
Definition normal_chat_flow (cfg : Config) (w : World) (db : Store)
    (request : ChatRequest) (user_id user_email : string)
  : HttpResult * Store * list Event :=
  let history := history_of db (conversationId request) in
  match run_workflow cfg w request history user_id user_email with
  | (Raise error, calls) => (http_error error, db, calls)
  | (Ret workflow_result, calls) =>
      let ai_response := wr_content workflow_result in
      let user_message_data :=
        {| role := "user"; stored_content := message request;
           stored_ticketId := None; stored_ticketNumber := None |} in
      let ai_message_data :=
        {| role := "assistant"; stored_content := ai_response;
           stored_ticketId := None; stored_ticketNumber := None |} in
      let db := append_messages db (conversationId request)
                  [user_message_data; ai_message_data] in
      let db := set_conversation db (conversationId request)
                  (<["lastMessage" := VStr (message request)]>
                     (<["userId" := VStr user_id]> ∅)) in
      if wr_needsApproval workflow_result
         && truthy_dict (wr_ticketDetails workflow_result) then
        let details := default ∅ (wr_ticketDetails workflow_result) in
        match details !! "subject" with
        | None => (http_error (mkExn OtherException "'subject'"), db, calls)
        | Some subject =>
            (Respond
               {| success := true; resp_content := ai_response;
                  resp_conversationId := conversationId request;
                  needsApproval := true;
                  ticketSummary := Some subject;
                  interactiveButtons := Some {| approve_data := details |};
                  ticketCreated := false; ticketId := None;
                  ticketNumber := None |},
             db, calls)
        end
      else (Respond (plain_response request ai_response), db, calls)
  end.

Definition chat_endpoint (cfg : Config) (w : World) (db : Store)
    (request : ChatRequest) : HttpResult * Store * list Event :=
  let user_id := Py.or_default (userId request) "test-user" in
  let user_email := Py.or_default (userEmail request) "user@example.com" in
  if is_action request "approve_ticket" && truthy_dict (ticketData request)
  then approve_flow cfg w db request (default ∅ (ticketData request)) user_email
  else if is_action request "decline_ticket"
  then decline_flow db request
  else normal_chat_flow cfg w db request user_id user_email.

(** *** The other endpoints *)

(** [get_conversation_messages] *)
Definition get_conversation_messages (db : Store) (conversation_id : string)
  : list StoredMessage :=
  default [] (messages_db db !! conversation_id).

(** [get_conversation] *)
Definition get_conversation (db : Store) (conversation_id : string)
  : gmap string PyVal :=
  default ∅ (conversations_db db !! conversation_id).

(** [create_conversation]; [conversation_id] is the value [uuid.uuid4()]
    gave *)
Definition create_conversation (db : Store) (conversation_id : string)
  : string * Store :=
  (conversation_id,
   set_conversation db conversation_id (<["title" := VStr "New Chat"]> ∅)).

Record DebugInfo : Type := mkDebugInfo {
  conversations : gmap string (gmap string PyVal);
  total_conversations : nat;
  total_messages : nat
}.

(** [debug_conversations] *)
Definition debug_conversations (db : Store) : DebugInfo :=
  {| conversations := conversations_db db;
     total_conversations := size (conversations_db db);
     total_messages :=
       map_fold (fun _ msgs total => length msgs + total) 0 (messages_db db) |}.

Definition test_ticket_data : gmap string PyVal :=
  <["subject" := VStr "Direct API Test Ticket"]>
    (<["description" :=
         VStr "This is a direct test of the ticket creation API endpoint"]>
       (<["priority" := VStr "2"]>
          (<["email" := VStr "kingmaker@gmail.com"]> ∅))).

Inductive TestTicketResult : Type :=
  | TestCompleted (test_success : bool) (ticketResult : TicketResult)
  | TestFailed (status : Z) (detail : string).

(** [test_ticket_creation] *)
Definition test_ticket_creation (cfg : Config) (w : World)
  : TestTicketResult * list Event :=
  match Agents.create_ticket_directly cfg w test_ticket_data
          "kingmaker@gmail.com" with
  | (Ret result, calls) => (TestCompleted (tr_success result) result, calls)
  | (Raise error, calls) =>
      (TestFailed 500 ("Direct ticket test failed: " +:+ exn_str error), calls)
  end.

End Main.


(** ** Vocabulary of the statements *)

(** the configuration test that [ticket_request] makes first, negated *)
Definition config_ok (cfg : Config) : bool :=
  negb (negb (Py.truthy (FRESHDESK_DOMAIN cfg))
        || negb (Py.truthy (FRESHDESK_API_KEY cfg))
        || String.eqb (FRESHDESK_API_KEY cfg) "your-freshdesk-api-key-here").

(** the request [ticket_request] sends for a priority that converted to [p] *)
Definition gateway_request (cfg : Config)
    (subject description : string) (p : Z) (email : string) : GatewayRequest :=
  {| api_url := "https://" +:+ FRESHDESK_DOMAIN cfg +:+ "/api/v2/tickets";
     auth_key := FRESHDESK_API_KEY cfg;
     ticket_data :=
       {| td_description := description; td_subject := subject;
          td_email := email; td_priority := p; td_status := 2 |} |}.

(** what the two direct-filing functions make of the text the tool returned *)
Definition ticket_result_of (result : string) : TicketResult :=
  {| tr_success := Py.str_in "✅" result;
     tr_content := result;
     tr_ticketId := Py.search_ticket_id result;
     tr_ticketNumber := Py.search_ticket_id result |}.

(** the three fields of a draft that the filing step reads are strings *)
Definition draft_fields (data : gmap string PyVal)
    (subject description priority : string) : Prop :=
  data !! "subject" = Some (VStr subject)
  /\ data !! "description" = Some (VStr description)
  /\ data !! "priority" = Some (VStr priority).

(** computations that call nothing outside *)
Definition silent {A} (m : M A) : Prop := trace m = [].

(** the external calls of one run of a filing tool *)
Definition filing_trace (cfg : Config)
    (subject description priority email : string) : list Event :=
  if config_ok cfg then
    match Py.int priority with
    | Some p =>
        if is_ascii (FRESHDESK_API_KEY cfg +:+ ":X")
        then [GatewayCall (gateway_request cfg subject description p email)]
        else []
    | None => []
    end
  else [].

(** the shape of [create_ticket_directly], for a tool and a fallback
    result *)
Definition file_directly (tool : Tool) (fallback : TicketResult)
    (ticket_data : gmap string PyVal) (user_email : string) : M TicketResult :=
  try_except
    (let! subject := dict_item ticket_data "subject" in
     let! description := dict_item ticket_data "description" in
     let! priority := dict_item ticket_data "priority" in
     let tool_input : gmap string PyVal :=
       <["subject" := subject]> (<["description" := description]>
         (<["priority" := priority]> (<["email" := VStr user_email]> ∅))) in
     let! result := tool_invoke tool tool_input in
     let ticket_id := Py.search_ticket_id result in
     ret {| tr_success := Py.str_in "✅" result;
            tr_content := result;
            tr_ticketId := ticket_id;
            tr_ticketNumber := ticket_id |})
    (fun _ => ret fallback).

(** the error of the graph library when its step limit is reached; the
    library's message goes on to name the limit and to give advice *)
Definition recursion_error : Exn :=
  mkExn OtherException "Recursion limit reached without hitting a stop condition".

(** the key test that [run_multi_agent_workflow] and [run_chat_workflow]
    make first, negated *)
Definition openai_ok (cfg : Config) : bool :=
  negb (negb (Py.truthy (OPENAI_API_KEY cfg))
        || String.eqb (OPENAI_API_KEY cfg) "your-openai-api-key-here").

(** tools whose function never calls the model *)
Definition model_free (tools : list Tool) : Prop :=
  forall t, In t tools ->
    forall s d p e, llm_calls (trace (tool_func t s d p e)) = 0.

(** tools whose function never calls the gateway *)
Definition gateway_free (tools : list Tool) : Prop :=
  forall t, In t tools ->
    forall s d p e, gateway_calls (trace (tool_func t s d p e)) = [].

(** the same request with another message text *)
Definition with_message (request : Main.ChatRequest) (text : string)
  : Main.ChatRequest :=
  {| Main.conversationId := Main.conversationId request;
     Main.message := text;
     Main.userId := Main.userId request;
     Main.userEmail := Main.userEmail request;
     Main.action := Main.action request;
     Main.ticketData := Main.ticketData request |}.

(** the same request without action and draft *)
Definition without_approval (request : Main.ChatRequest) : Main.ChatRequest :=
  {| Main.conversationId := Main.conversationId request;
     Main.message := Main.message request;
     Main.userId := Main.userId request;
     Main.userEmail := Main.userEmail request;
     Main.action := None;
     Main.ticketData := None |}.

(** the external calls of a turn *)
Definition calls_of (turn : Main.HttpResult * Main.Store * list Event)
  : list Event := snd turn.

(** the failure texts of the filing tools that consist of fixed wording *)
Definition fixed_failure_texts : list string :=
  [Agents.config_text; Agents.auth_text; Agents.unexpected_text;
   LanggraphWorkflow.config_text; LanggraphWorkflow.auth_text;
   LanggraphWorkflow.timeout_text; LanggraphWorkflow.connection_text;
   LanggraphWorkflow.unexpected_text;
   "❌ Email validation failed. Please provide a valid email address."].

(** the two failure texts that embed text received from the gateway *)
Definition api_error_message_text (message : string) : string :=
  "❌ Freshdesk API error: " +:+ message.
Definition api_error_body_text (status : Z) (body : string) : string :=
  "❌ Freshdesk API error " +:+ Py.str_of_Z status +:+ ": " +:+ body.

(** every character of [s] satisfies [f] *)
Definition all_chars (f : ascii -> bool) (s : string) : bool :=
  forallb f (list_ascii_of_string s).

(** [s] is empty or begins with an ASCII character *)
Definition ascii_ahead (s : string) : bool :=
  match s with
  | EmptyString => true
  | String c _ => (nat_of_ascii c <? 128)%nat
  end.

(** [s] without its leading run of ASCII word characters *)
Fixpoint drop_word (s : string) : string :=
  match s with
  | EmptyString => EmptyString
  | String c s' => if Py.is_word c then drop_word s' else s
  end.

(** After every occurrence of the ticket-id literal in [s], the run of
    ASCII word characters ends the text or is followed by an ASCII
    character.  On such a text no character outside ASCII decides a match
    or the extent of a capture, so [Py.search_ticket_id] is the capture of
    the source's pattern. *)
Fixpoint word_safe (s : string) : bool :=
  match Py.drop_prefix Py.ticket_id_literal s with
  | Some rest => ascii_ahead (drop_word rest)
  | None => true
  end
  && match s with
     | EmptyString => true
     | String _ s' => word_safe s'
     end.

(** [s] does not begin with a word character *)
Definition no_word_ahead (s : string) : bool :=
  match s with
  | EmptyString => true
  | String c _ => negb (Py.is_word c)
  end.

(** the result, the store and the calls of a turn *)
Definition result_of (turn : Main.HttpResult * Main.Store * list Event)
  : Main.HttpResult := fst (fst turn).
Definition store_of (turn : Main.HttpResult * Main.Store * list Event)
  : Main.Store := snd (fst turn).

(** the stored history of a conversation is made of assistant messages and
    of user messages each directly followed by an assistant message *)
Inductive paired : list Main.StoredMessage -> Prop :=
  | paired_nil : paired []
  | paired_assistant (m : Main.StoredMessage) (rest : list Main.StoredMessage) :
      Main.role m = "assistant" -> paired rest -> paired (m :: rest)
  | paired_turn (u a : Main.StoredMessage) (rest : list Main.StoredMessage) :
      Main.role u = "user" -> Main.role a = "assistant" -> paired rest ->
      paired (u :: a :: rest).

Definition store_ok (db : Main.Store) : Prop :=
  forall cid msgs,
    Main.messages_db db !! cid = Some msgs -> msgs <> [] /\ paired msgs.

(** one request served: a chat turn or the creation of a conversation *)
Inductive step : Main.Store -> Main.Store -> Prop :=
  | step_chat (cfg : Config) (w : World) (db : Main.Store)
      (request : Main.ChatRequest) :
      step db (store_of (Main.chat_endpoint cfg w db request))
  | step_create (db : Main.Store) (conversation_id : string) :
      step db (snd (Main.create_conversation db conversation_id)).

Inductive reachable : Main.Store -> Prop :=
  | reachable_start :
      reachable {| Main.messages_db := ∅; Main.conversations_db := ∅ |}
  | reachable_step (db db' : Main.Store) :
      reachable db -> step db db' -> reachable db'.

(** the store entry of a message *)
Definition stored (role content : string) : Main.StoredMessage :=
  {| Main.role := role; Main.stored_content := content;
     Main.stored_ticketId := None; Main.stored_ticketNumber := None |}.

(** a model that answers every request with at least one tool call *)
Definition always_requests_action (w : World) : Prop :=
  forall tools msgs, exists c tc tcs, llm w tools msgs = Ret (c, tc :: tcs).

(** what a normal turn stores once its workflow has returned *)
Definition stored_turn (db : Main.Store) (request : Main.ChatRequest)
    (uid reply : string) : Main.Store :=
  Main.set_conversation
    (Main.append_messages db (Main.conversationId request)
       [stored "user" (Main.message request); stored "assistant" reply])
    (Main.conversationId request)
    (<["lastMessage" := VStr (Main.message request)]>
       (<["userId" := VStr uid]> ∅)).

(** the catalogue and the instruction the model gets for a message in the
    normal chat flow: the endpoint's keywords are tried first, then the
    router's *)
Definition dispatch (cfg : Config) (message : string) : list string * string :=
  let lowered := Py.lower message in
  if existsb (fun keyword => Py.str_in keyword lowered) Main.ticket_keywords
  then (["generate_ticket_details"], ApprovalWorkflow.approval_system_prompt cfg)
  else if existsb (fun keyword => Py.str_in keyword lowered)
            Agents.ticket_keywords
  then (["create_freshdesk_ticket"], Agents.ticket_system_prompt)
  else ([], Agents.chat_system_prompt cfg).

(** the metadata a normal turn writes for its conversation *)
Definition turn_metadata (request : Main.ChatRequest) : gmap string PyVal :=
  <["lastMessage" := VStr (Main.message request)]>
    (<["userId" :=
         VStr (Py.or_default (Main.userId request) "test-user")]> ∅).

(** the gateway request that a requested call of the ticket agent's tool
    leads to, when the call fits the tool and its priority reads as an
    integer *)
Definition requested_filing (cfg : Config) (tc : ToolCall)
  : option GatewayRequest :=
  if String.eqb (name tc) "create_freshdesk_ticket" then
    match tool_args (args tc) with
    | Some (s, d, p, e) =>
        match Py.int p with
        | Some n => Some (gateway_request cfg s d n e)
        | None => None
        end
    | None => None
    end
  else None.

(** the messages the chatbot of langgraph_workflow.py sends to the model:
    the instruction is put in front unless an assistant message already
    mentions the assistant's name *)
Definition prompted (cfg : Config) (msgs : list Message) : list Message :=
  if negb (existsb (fun msg => isinstance_AIMessage msg
                               && Py.str_in "Fixie" (content msg)) msgs)
  then HumanMessage (LanggraphWorkflow.enhanced_system_prompt cfg) :: msgs
  else msgs.

(** the approval question that [run_chat_workflow] builds from a draft *)
Definition approval_question (subject description priority_name : string)
  : string :=
  "I can help you create a support ticket for this issue. Here's what I'll include:"
  +:+ nl +:+ nl +:+
  "**Subject:** " +:+ subject +:+ nl +:+
  "**Description:** " +:+ description +:+ nl +:+
  "**Priority:** " +:+ priority_name +:+ nl +:+ nl +:+
  "Would you like me to proceed with creating this ticket?".

(** a requested call that carries the four arguments as strings, with a
    priority of ASCII characters *)
Definition typed_call (tc : ToolCall) : bool :=
  match tool_args (args tc) with
  | Some (_, _, p, _) => is_ascii p
  | None => false
  end.

(** ** Sample inputs *)

Module Sample.

Definition cfg : Config :=
  {| OPENAI_API_KEY := "sk-test";
     FRESHDESK_DOMAIN := "acme.freshdesk.com";
     FRESHDESK_API_KEY := "abc123";
     systemPrompt := "You are Fixie, an AI-powered IT Support Specialist." |}.

(** a draft as the approval workflow hands it to the caller *)
Definition draft : gmap string PyVal :=
  <["subject" := VStr "Printer is broken"]>
    (<["description" := VStr "The printer on floor 2 does not print."]>
       (<["priority" := VStr "2"]> (<["email" := VStr "a@b.com"]> ∅))).

Definition created : Response :=
  {| status_code := 201; text := "{}";
     json := Some (JDict (<["id" := VInt 42]> ∅)) |}.

Definition unauthorized : Response :=
  {| status_code := 401; text := "{}";
     json := Some (JDict (<["code" := VStr "invalid_credentials"]>
                            (<["message" := VStr "You have to be logged in"]> ∅))) |}.

(** a server error whose body happens to carry the success marker and the
    ticket-id pattern *)
Definition misleading : Response :=
  {| status_code := 500; text := "✅ Ticket ID:** #77"; json := None |}.

(** the model asks for the filing tool on every request *)
Definition files_ticket : World :=
  {| llm := fun _ _ =>
       Ret ("Creating the ticket.", [mkToolCall "create_freshdesk_ticket" draft]);
     freshdesk := fun _ => Ret created;
     tool_error := fun _ => "Error: invalid tool call";
     recursion_limit := 25 |}.

(** the same for the tool of langgraph_workflow.py *)
Definition files_support_ticket : World :=
  {| llm := fun _ _ =>
       Ret ("Creating the ticket.", [mkToolCall "create_support_ticket" draft]);
     freshdesk := fun _ => Ret created;
     tool_error := fun _ => "Error: invalid tool call";
     recursion_limit := 25 |}.

Definition plain_reply : World :=
  {| llm := fun _ _ => Ret ("Have you tried restarting the VPN client?", []);
     freshdesk := fun _ => Ret created;
     tool_error := fun _ => "Error: invalid tool call";
     recursion_limit := 25 |}.

Definition model_down : World :=
  {| llm := fun _ _ => Raise (mkExn OtherException "Connection error.");
     freshdesk := fun _ => Ret created;
     tool_error := fun _ => "Error: invalid tool call";
     recursion_limit := 25 |}.

Definition rejects_credentials : World :=
  {| llm := fun _ _ => Ret ("Have you tried restarting the VPN client?", []);
     freshdesk := fun _ => Ret unauthorized;
     tool_error := fun _ => "Error: invalid tool call";
     recursion_limit := 25 |}.

Definition misleading_gateway : World :=
  {| llm := fun _ _ => Ret ("Have you tried restarting the VPN client?", []);
     freshdesk := fun _ => Ret misleading;
     tool_error := fun _ => "Error: invalid tool call";
     recursion_limit := 25 |}.

(** the model requests the preview tool with a draft that has no subject *)
Definition drafts_without_subject : World :=
  {| llm := fun _ _ =>
       Ret ("Here is the draft.",
            [mkToolCall "generate_ticket_details"
               (<["description" := VStr "The printer does not print."]> ∅)]);
     freshdesk := fun _ => Ret created;
     tool_error := fun _ => "Error: invalid tool call";
     recursion_limit := 25 |}.

Definition empty_store : Main.Store :=
  {| Main.messages_db := ∅; Main.conversations_db := ∅ |}.

Definition request (text : string) (act : option string)
    (data : option (gmap string PyVal)) : Main.ChatRequest :=
  {| Main.conversationId := "conv-1"; Main.message := text;
     Main.userId := None; Main.userEmail := None;
     Main.action := act; Main.ticketData := data |}.

Definition state (text : string) : Agents.AgentState :=
  {| Agents.messages := [HumanMessage text];
     Agents.user_id := "test-user"; Agents.conversation_id := "conv-1";
     Agents.user_email := "user@example.com";
     Agents.current_agent := EmptyString; Agents.ticket_data := None;
     Agents.needs_approval := false |}.

End Sample.

(** ** Further sample inputs *)

Module Scenario.

(** the model drafts the ticket through the preview tool *)
Definition drafts : World :=
  {| llm := fun _ _ =>
       Ret ("Here is the draft.",
            [mkToolCall "generate_ticket_details" Sample.draft]);
     freshdesk := fun _ => Ret Sample.created;
     tool_error := fun _ => "Error: invalid tool call";
     recursion_limit := 25 |}.

(** the model requests the support ticket once and then answers in plain
    text, as soon as an observation is the last message *)
Definition files_then_replies : World :=
  {| llm := fun _ msgs =>
       match last msgs with
       | Some (ToolMessage _) => Ret ("Your ticket is on its way.", [])
       | _ => Ret ("Creating the ticket.",
                   [mkToolCall "create_support_ticket" Sample.draft])
       end;
     freshdesk := fun _ => Ret Sample.created;
     tool_error := fun _ => "Error: invalid tool call";
     recursion_limit := 25 |}.

(** the gateway accepts the request but its body carries no id *)
Definition accepted_without_id : World :=
  {| llm := fun _ _ => Ret ("Have you tried restarting the VPN client?", []);
     freshdesk := fun _ =>
       Ret {| status_code := 201; text := "{}"; json := Some (JDict ∅) |};
     tool_error := fun _ => "Error: invalid tool call";
     recursion_limit := 25 |}.

(** the model requests the same filing twice in one reply *)
Definition files_twice : World :=
  {| llm := fun _ _ =>
       Ret ("Creating the ticket.",
            [mkToolCall "create_freshdesk_ticket" Sample.draft;
             mkToolCall "create_freshdesk_ticket" Sample.draft]);
     freshdesk := fun _ => Ret Sample.created;
     tool_error := fun _ => "Error: invalid tool call";
     recursion_limit := 25 |}.

(** a configuration whose OpenAI key is the placeholder *)
Definition no_openai_key : Config :=
  {| OPENAI_API_KEY := "your-openai-api-key-here";
     FRESHDESK_DOMAIN := "acme.freshdesk.com";
     FRESHDESK_API_KEY := "abc123";
     systemPrompt := system_prompt |}.


(** the request to the gateway times out *)
Definition gateway_times_out : World :=
  {| llm := fun _ _ => Ret ("Have you tried restarting the VPN client?", []);
     freshdesk := fun _ => Raise (mkExn Timeout "Read timed out.");
     tool_error := fun _ => "Error: invalid tool call";
     recursion_limit := 25 |}.


(** the configuration of a process started with an empty environment *)
Definition unset : Config := from_env ∅.


(** a requested call of the support-ticket tool *)
Definition support_call : ToolCall :=
  mkToolCall "create_support_ticket" Sample.draft.

End Scenario.

(** * Properties *)

(** ** Facts about the string operations *)

Example lower_mixed : Py.lower "Please ESCALATE now" = "please escalate now".
Proof. reflexivity. Qed.

Example int_examples :
  Py.int "2" = Some 2%Z /\ Py.int " +4 " = Some 4%Z /\ Py.int "-1" = Some (-1)%Z
  /\ Py.int "1_0" = Some 10%Z /\ Py.int "high" = None /\ Py.int EmptyString = None
  /\ Py.int "2.0" = None /\ Py.int "1__0" = None /\ Py.int "- 1" = None.
Proof. repeat split; reflexivity. Qed.

Example search_examples :
  Py.search_ticket_id "**Ticket ID:** #4711 **Subject:** x" = Some "4711"
  /\ Py.search_ticket_id "Ticket ID:** #" = None
  /\ Py.search_ticket_id "Ticket ID:** #! Ticket ID:** #ab_1!" = Some "ab_1".
Proof. repeat split; reflexivity. Qed.

#[local] Arguments String.append _ _ : simpl nomatch.

Lemma append_assoc (a b c : string) : (a +:+ b) +:+ c = a +:+ (b +:+ c).
Proof. induction a as [|x a IH]; simpl; [reflexivity | now rewrite IH]. Qed.

Lemma append_empty_r (a : string) : a +:+ EmptyString = a.
Proof. induction a as [|x a IH]; simpl; [reflexivity | now rewrite IH]. Qed.

Lemma startswith_spec (p s : string) :
  Py.startswith p s = true <-> exists rest, s = p +:+ rest.
Proof.
  revert s. induction p as [|a p IH]; intros s; simpl.
  - split; [intros _; now exists s | reflexivity].
  - destruct s as [|b s].
    + split; [discriminate | intros [rest H]; discriminate].
    + destruct (Ascii.eqb_spec a b) as [->|Hne].
      * rewrite IH. split; intros [rest H]; exists rest; congruence.
      * split; [discriminate | intros [rest H]; congruence].
Qed.

(** [p in s] holds exactly when [s] splits around an occurrence of [p]. *)
Lemma str_in_spec (p s : string) :
  Py.str_in p s = true <-> exists pre post, s = pre +:+ p +:+ post.
Proof.
  induction s as [|c s IH].
  - simpl. rewrite orb_false_r, startswith_spec. split.
    + intros [rest H]. exists EmptyString, rest. exact H.
    + intros [pre [post H]]. destruct pre; [|discriminate].
      exists post. exact H.
  - simpl. rewrite orb_true_iff, startswith_spec, IH. split.
    + intros [[rest H] | [pre [post H]]].
      * exists EmptyString, rest. exact H.
      * exists (String c pre), post. simpl. now rewrite H.
    + intros [pre [post H]]. destruct pre as [|x pre].
      * left. exists post. exact H.
      * right. exists pre, post. simpl in H. congruence.
Qed.

Lemma lower_app (a b : string) :
  Py.lower (a +:+ b) = Py.lower a +:+ Py.lower b.
Proof. induction a as [|x a IH]; simpl; [reflexivity | now rewrite IH]. Qed.

Lemma str_in_absent (kws : list string) (s : string) :
  existsb (fun keyword => Py.str_in keyword s) kws = false <->
  forall kw, In kw kws -> ~ exists pre post, s = pre +:+ kw +:+ post.
Proof.
  split.
  - intros H kw Hin Hocc. apply str_in_spec in Hocc.
    assert (existsb (fun keyword => Py.str_in keyword s) kws = true) as Ht
      by (apply existsb_exists; eauto).
    congruence.
  - intros H. apply not_true_is_false. intros Ht.
    apply existsb_exists in Ht as [kw [Hin Hocc]].
    apply str_in_spec in Hocc. exact (H kw Hin Hocc).
Qed.

Lemma str_in_present (kws : list string) (s : string) :
  existsb (fun keyword => Py.str_in keyword s) kws = true <->
  exists kw pre post, In kw kws /\ s = pre +:+ kw +:+ post.
Proof.
  rewrite existsb_exists. split.
  - intros [kw [Hin Hocc]]. apply str_in_spec in Hocc as [pre [post H]]. eauto.
  - intros [kw [pre [post [Hin H]]]]. exists kw. split; [exact Hin|].
    apply str_in_spec. eauto.
Qed.

(** ** The Router *)

Lemma supervisor_routing_last (state : Agents.AgentState)
    (earlier : list Message) (m : Message) :
  Agents.messages state = earlier ++ [m] ->
  Agents.supervisor_routing state =
    if existsb (fun keyword => Py.str_in keyword (Py.lower (content m)))
         Agents.ticket_keywords
    then Agents.ticket else Agents.chat.
Proof.
  intros H. unfold Agents.supervisor_routing. rewrite H, last_snoc. reflexivity.
Qed.


(** ** The monad of traced computations *)

Lemma outcome_bind {A B} (m : M A) (k : A -> M B) :
  outcome (bind m k) =
  match outcome m with Ret a => outcome (k a) | Raise e => Raise e end.
Proof. destruct m as [[a|e] t]; simpl; [destruct (k a)|]; reflexivity. Qed.

Lemma trace_bind {A B} (m : M A) (k : A -> M B) :
  trace (bind m k) =
  trace m ++ match outcome m with Ret a => trace (k a) | Raise _ => [] end.
Proof.
  destruct m as [[a|e] t]; simpl; [destruct (k a)|]; simpl;
    [reflexivity | now rewrite app_nil_r].
Qed.

Lemma outcome_try {A} (m : M A) (h : Exn -> M A) :
  outcome (try_except m h) =
  match outcome m with Ret a => Ret a | Raise e => outcome (h e) end.
Proof. destruct m as [[a|e] t]; simpl; [|destruct (h e)]; reflexivity. Qed.

Lemma trace_try {A} (m : M A) (h : Exn -> M A) :
  trace (try_except m h) =
  trace m ++ match outcome m with Ret _ => [] | Raise e => trace (h e) end.
Proof.
  destruct m as [[a|e] t]; simpl; [|destruct (h e)]; simpl;
    [now rewrite app_nil_r | reflexivity].
Qed.

Lemma bind_ret {A B} (a : A) (k : A -> M B) : bind (ret a) k = k a.
Proof. unfold bind, ret. destruct (k a). reflexivity. Qed.

Lemma bind_raise {A B} (e : Exn) (k : A -> M B) : bind (raise e) k = raise e.
Proof. reflexivity. Qed.

Lemma trace_post (w : World) (r : GatewayRequest) :
  trace (requests_post w r) = [GatewayCall r].
Proof. reflexivity. Qed.

Lemma outcome_post (w : World) (r : GatewayRequest) :
  outcome (requests_post w r) = freshdesk w r.
Proof. reflexivity. Qed.

#[local] Arguments bind : simpl never.
#[local] Arguments try_except : simpl never.
#[local] Arguments trace : simpl never.
#[local] Arguments outcome : simpl never.

(** a handler that always returns makes the whole [try] return *)
Lemma try_except_returns {A} (m : M A) (h : Exn -> M A) :
  (forall e, exists a, outcome (h e) = Ret a) ->
  exists a, outcome (try_except m h) = Ret a.
Proof.
  intros Hh. rewrite outcome_try. destruct (outcome m) as [a|e]; eauto.
Qed.

Lemma silent_ret {A} (a : A) : silent (ret a).
Proof. reflexivity. Qed.

Lemma silent_raise {A} (e : Exn) : silent (@raise A e).
Proof. reflexivity. Qed.

Lemma silent_bind {A B} (m : M A) (k : A -> M B) :
  silent m -> (forall a, silent (k a)) -> silent (bind m k).
Proof.
  unfold silent. intros Hm Hk. rewrite trace_bind, Hm.
  destruct (outcome m); simpl; auto.
Qed.

Lemma silent_try {A} (m : M A) (h : Exn -> M A) :
  silent m -> (forall e, silent (h e)) -> silent (try_except m h).
Proof.
  unfold silent. intros Hm Hh. rewrite trace_try, Hm.
  destruct (outcome m); simpl; auto.
Qed.

Lemma silent_response_json (r : Response) : silent (response_json r).
Proof. unfold response_json. destruct (json r); reflexivity. Qed.

Lemma silent_json_get (j : JsonBody) (k : string) : silent (json_get j k).
Proof. destruct j; reflexivity. Qed.

Lemma silent_json_item (j : JsonBody) (k : string) : silent (json_item j k).
Proof. destruct j as [d|]; simpl; [destruct (d !! k)|]; reflexivity. Qed.

Lemma silent_int_or_raise (s : string) : silent (int_or_raise s).
Proof. unfold int_or_raise. destruct (Py.int s); reflexivity. Qed.

Lemma silent_encode_ascii (s : string) : silent (encode_ascii s).
Proof. unfold encode_ascii. destruct (is_ascii s); reflexivity. Qed.

Lemma silent_dict_item (d : gmap string PyVal) (k : string) :
  silent (dict_item d k).
Proof. unfold dict_item. destruct (d !! k); reflexivity. Qed.

Lemma silent_if {A} (b : bool) (m1 m2 : M A) :
  silent m1 -> silent m2 -> silent (if b then m1 else m2).
Proof. destruct b; auto. Qed.

Create HintDb silent.
#[local] Hint Resolve silent_ret silent_raise silent_response_json
  silent_json_get silent_json_item silent_int_or_raise silent_encode_ascii
  silent_dict_item : silent.

Ltac silent :=
  repeat first
    [ apply silent_bind; [|intros ?]
    | apply silent_try; [|intros ?]
    | apply silent_if
    | solve [auto with silent]
    | reflexivity ].

(** ** The ticket-filing tools *)

Section TicketRequestFacts.

Variables config_text auth_text : string.

Lemma silent_response_text (domain subject : string) (p : Z) (r : Response) :
  silent (response_text auth_text domain subject p r).
Proof. unfold response_text. silent. Qed.

(** The gateway is contacted at most once, and exactly when the
    configuration is present, [int(priority)] succeeds and the key is
    ASCII; the request then carries the four arguments as given. *)
Lemma ticket_request_trace (cfg : Config) (w : World)
    (subject description priority email : string) :
  trace (ticket_request config_text auth_text cfg w
           subject description priority email) =
  if config_ok cfg then
    match Py.int priority with
    | Some p =>
        if is_ascii (FRESHDESK_API_KEY cfg +:+ ":X")
        then [GatewayCall (gateway_request cfg subject description p email)]
        else []
    | None => []
    end
  else [].
Proof.
  unfold ticket_request, config_ok.
  destruct (negb (Py.truthy (FRESHDESK_DOMAIN cfg)) || _ || _);
    [reflexivity|]. cbv zeta. simpl negb. cbv iota.
  unfold int_or_raise. destruct (Py.int priority) as [p|]; [|reflexivity].
  rewrite bind_ret. unfold encode_ascii.
  destruct (is_ascii (FRESHDESK_API_KEY cfg +:+ ":X")); [|reflexivity].
  rewrite bind_ret, trace_bind, trace_post, outcome_post.
  destruct (freshdesk w _) as [r|e]; [|reflexivity].
  now rewrite silent_response_text.
Qed.

Lemma ticket_request_outcome (cfg : Config) (w : World)
    (subject description priority email : string) (p : Z) :
  config_ok cfg = true -> Py.int priority = Some p ->
  is_ascii (FRESHDESK_API_KEY cfg +:+ ":X") = true ->
  outcome (ticket_request config_text auth_text cfg w
             subject description priority email) =
  match freshdesk w (gateway_request cfg subject description p email) with
  | Ret r => outcome (response_text auth_text (FRESHDESK_DOMAIN cfg) subject p r)
  | Raise e => Raise e
  end.
Proof.
  unfold ticket_request, config_ok. intros Hc Hp Ha.
  destruct (negb (Py.truthy (FRESHDESK_DOMAIN cfg)) || _ || _);
    [discriminate|].
  unfold int_or_raise, encode_ascii. rewrite Hp, Ha.
  rewrite !bind_ret, outcome_bind, outcome_post. reflexivity.
Qed.

Lemma ticket_request_unconfigured (cfg : Config) (w : World)
    (subject description priority email : string) :
  config_ok cfg = false ->
  ticket_request config_text auth_text cfg w subject description priority email
  = ret config_text.
Proof.
  unfold ticket_request, config_ok. intros Hc.
  destruct (negb (Py.truthy (FRESHDESK_DOMAIN cfg)) || _ || _);
    [reflexivity | discriminate].
Qed.

Lemma ticket_request_bad_priority (cfg : Config) (w : World)
    (subject description priority email : string) :
  config_ok cfg = true -> Py.int priority = None ->
  exists msg,
    ticket_request config_text auth_text cfg w subject description priority email
    = raise (mkExn OtherException msg).
Proof.
  unfold ticket_request, config_ok. intros Hc Hp.
  destruct (negb (Py.truthy (FRESHDESK_DOMAIN cfg)) || _ || _);
    [discriminate|].
  unfold int_or_raise. rewrite Hp. eexists. apply bind_raise.
Qed.

(** the reply for a response that reports invalid credentials *)
Lemma response_text_invalid_credentials (domain subject : string) (p : Z)
    (r : Response) (body : gmap string PyVal) :
  ok r = false -> json r = Some (JDict body) ->
  body !! "code" = Some (VStr "invalid_credentials") ->
  outcome (response_text auth_text domain subject p r) = Ret auth_text.
Proof.
  intros Hok Hjson Hcode. unfold response_text, response_json.
  rewrite Hok, Hjson. simpl negb. cbv iota.
  rewrite bind_ret. simpl json_get. rewrite bind_ret, Hcode. reflexivity.
Qed.

(** whatever the response, a reply text comes out unless the body of a
    successful response cannot be read *)
Lemma response_text_error_returns (domain subject : string) (p : Z)
    (r : Response) :
  ok r = false ->
  exists t, outcome (response_text auth_text domain subject p r) = Ret t.
Proof.
  intros Hok. unfold response_text. rewrite Hok. simpl negb. cbv iota.
  apply try_except_returns. intros e. eexists. reflexivity.
Qed.

End TicketRequestFacts.

Lemma trace_try_silent {A} (m : M A) (h : Exn -> M A) :
  (forall e, silent (h e)) -> trace (try_except m h) = trace m.
Proof.
  intros Hh. rewrite trace_try. destruct (outcome m) as [a|e].
  - apply app_nil_r.
  - rewrite (Hh e). apply app_nil_r.
Qed.

Lemma create_freshdesk_ticket_trace (cfg : Config) (w : World)
    (subject description priority email : string) :
  trace (Agents.create_freshdesk_ticket cfg w subject description priority email)
  = filing_trace cfg subject description priority email.
Proof.
  unfold Agents.create_freshdesk_ticket.
  rewrite trace_try_silent by (intros e; reflexivity).
  apply ticket_request_trace.
Qed.

Lemma create_support_ticket_trace (cfg : Config) (w : World)
    (subject description priority email : string) :
  trace (LanggraphWorkflow.create_support_ticket cfg w
           subject description priority email)
  = filing_trace cfg subject description priority email.
Proof.
  unfold LanggraphWorkflow.create_support_ticket.
  rewrite trace_try_silent by (intros e; destruct (exn_class e); reflexivity).
  apply ticket_request_trace.
Qed.

Lemma filing_trace_cases (cfg : Config)
    (subject description priority email : string) :
  filing_trace cfg subject description priority email = []
  \/ exists p, Py.int priority = Some p /\
       filing_trace cfg subject description priority email
       = [GatewayCall (gateway_request cfg subject description p email)].
Proof.
  unfold filing_trace. destruct (config_ok cfg); [|now left].
  destruct (Py.int priority) as [p|]; [|now left].
  destruct (is_ascii _); [right; eauto | now left].
Qed.

Lemma create_freshdesk_ticket_returns (cfg : Config) (w : World)
    (subject description priority email : string) :
  exists t,
    outcome (Agents.create_freshdesk_ticket cfg w
               subject description priority email) = Ret t.
Proof. apply try_except_returns. intros e. eexists. reflexivity. Qed.

Lemma create_support_ticket_returns (cfg : Config) (w : World)
    (subject description priority email : string) :
  exists t,
    outcome (LanggraphWorkflow.create_support_ticket cfg w
               subject description priority email) = Ret t.
Proof.
  apply try_except_returns. intros e.
  destruct (exn_class e); eexists; reflexivity.
Qed.

Lemma run_tool_call_returns (w : World) (tools : list Tool) (tc : ToolCall) :
  exists c, outcome (run_tool_call w tools tc) = Ret (ToolMessage c).
Proof.
  unfold run_tool_call. destruct (find _ tools) as [t|].
  - rewrite outcome_try, outcome_bind.
    destruct (outcome (tool_invoke t (args tc))); eexists; reflexivity.
  - eexists. reflexivity.
Qed.

(** ** The conversion of a priority *)

Lemma is_ascii_cons (c : ascii) (s : string) :
  is_ascii (String c s) = (nat_of_ascii c <? 128)%nat && is_ascii s.
Proof. reflexivity. Qed.

Lemma space_is_ascii (c : ascii) :
  Py.is_space c = true -> (nat_of_ascii c <? 128)%nat = true.
Proof. destruct c as [[] [] [] [] [] [] [] []]; now vm_compute. Qed.

Lemma digit_is_ascii (c : ascii) :
  Py.is_digit c = true -> (nat_of_ascii c <? 128)%nat = true.
Proof. destruct c as [[] [] [] [] [] [] [] []]; now vm_compute. Qed.

Lemma lstrip_ascii (s : string) :
  is_ascii (Py.lstrip s) = true -> is_ascii s = true.
Proof.
  induction s as [|c s IH]; [reflexivity|]. cbn [Py.lstrip].
  destruct (Py.is_space c) eqn:Hc; [|auto].
  intros H. rewrite is_ascii_cons, (space_is_ascii c Hc). now apply IH.
Qed.

Lemma rev_str_ascii (s acc : string) :
  is_ascii (Py.rev_str acc s) = is_ascii acc && is_ascii s.
Proof.
  revert acc. induction s as [|c s IH]; intros acc; cbn [Py.rev_str].
  - change (is_ascii EmptyString) with true. now rewrite andb_true_r.
  - rewrite IH, !is_ascii_cons.
    destruct (nat_of_ascii c <? 128)%nat, (is_ascii acc), (is_ascii s);
      reflexivity.
Qed.

Lemma strip_ascii (s : string) :
  is_ascii (Py.strip s) = true -> is_ascii s = true.
Proof.
  unfold Py.strip. rewrite rev_str_ascii. cbn [andb].
  change (is_ascii EmptyString) with true. cbn [andb].
  intros H. apply lstrip_ascii in H. rewrite rev_str_ascii in H.
  apply lstrip_ascii. exact H.
Qed.

Lemma digits_ascii (s : string) :
  forall after_digit count acc n,
    Py.digits after_digit count acc s = Some n -> is_ascii s = true.
Proof.
  induction s as [|c s IH]; intros after_digit count acc n; [reflexivity|].
  cbn [Py.digits]. rewrite is_ascii_cons.
  destruct (Py.is_digit c) eqn:Hd.
  - intros H. rewrite (digit_is_ascii c Hd). exact (IH _ _ _ _ H).
  - destruct (Ascii.eqb_spec c "_") as [-> | _]; [|discriminate].
    destruct after_digit; [|discriminate].
    intros H. exact (IH _ _ _ _ H).
Qed.

(** a text that converts consists of ASCII characters: the white space,
    the sign, the digits and the underscores that [int] reads *)
Lemma int_reads_ascii (s : string) (n : Z) :
  Py.int s = Some n -> is_ascii s = true.
Proof.
  unfold Py.int. intros H. apply strip_ascii.
  destruct (Py.strip s) as [|c t]; [discriminate H|].
  assert (Hcases :
    (c = "-"%char /\ exists m, Py.digits false 0 0 t = Some m)
    \/ (c = "+"%char /\ Py.digits false 0 0 t = Some n)
    \/ Py.digits false 0 0 (String c t) = Some n).
  { destruct c as [[] [] [] [] [] [] [] []];
      try (right; right; exact H).
    - right. left. split; [reflexivity | exact H].
    - left. split; [reflexivity|].
      destruct (Py.digits false 0 0 t) as [m|]; [eauto | discriminate H]. }
  destruct Hcases as [[-> [m Hm]] | [[-> Hm] | Hm]].
  - rewrite is_ascii_cons. exact (digits_ascii _ _ _ _ _ Hm).
  - rewrite is_ascii_cons. exact (digits_ascii _ _ _ _ _ Hm).
  - exact (digits_ascii _ _ _ _ _ Hm).
Qed.

Lemma bad_priority_texts (cfg : Config) (w : World)
    (subject description priority email : string) :
  config_ok cfg = true -> Py.int priority = None ->
  outcome (Agents.create_freshdesk_ticket cfg w
             subject description priority email) = Ret Agents.unexpected_text
  /\ outcome (LanggraphWorkflow.create_support_ticket cfg w
                subject description priority email)
     = Ret LanggraphWorkflow.unexpected_text.
Proof.
  intros Hc Hp.
  unfold Agents.create_freshdesk_ticket, LanggraphWorkflow.create_support_ticket.
  rewrite !outcome_try.
  destruct (ticket_request_bad_priority Agents.config_text Agents.auth_text
              cfg w subject description priority email Hc Hp) as [e1 ->].
  destruct (ticket_request_bad_priority LanggraphWorkflow.config_text
              LanggraphWorkflow.auth_text
              cfg w subject description priority email Hc Hp) as [e2 ->].
  split; reflexivity.
Qed.

(** C5.  Both ticket-filing tools and the preview tool return a text for
    every invocation, and the tool node turns every requested call into a
    text observation; no exception reaches the caller.  A priority (of
    ASCII characters) that does not convert, a timeout, a connection
    failure and any other exception of the request each end in one of the
    fixed texts of the tool; an error response reporting invalid
    credentials ends in the fixed authentication-failure text of the tool,
    which does not depend on the response body. *)
Theorem action_executor_never_raises
    (cfg : Config) (w : World) (subject description priority email : string) :
  let filed :=
    outcome (Agents.create_freshdesk_ticket cfg w
               subject description priority email) in
  let supported :=
    outcome (LanggraphWorkflow.create_support_ticket cfg w
               subject description priority email) in
  (exists t, filed = Ret t)
  /\ (exists t, supported = Ret t)
  /\ (exists t, outcome (ApprovalWorkflow.generate_ticket_details
                           subject description priority email) = Ret t)
  /\ (forall tools tc, exists c,
        outcome (run_tool_call w tools tc) = Ret (ToolMessage c))
  /\ (config_ok cfg = true -> is_ascii priority = true ->
      Py.int priority = None ->
      filed = Ret Agents.unexpected_text
      /\ supported = Ret LanggraphWorkflow.unexpected_text)
  /\ (forall p,
        config_ok cfg = true -> Py.int priority = Some p ->
        is_ascii (FRESHDESK_API_KEY cfg +:+ ":X") = true ->
        let request := gateway_request cfg subject description p email in
        (forall r body,
           freshdesk w request = Ret r -> ok r = false ->
           json r = Some (JDict body) ->
           body !! "code" = Some (VStr "invalid_credentials") ->
           filed = Ret Agents.auth_text
           /\ supported = Ret LanggraphWorkflow.auth_text)
        /\ (forall msg,
              freshdesk w request = Raise (mkExn Timeout msg) ->
              filed = Ret Agents.unexpected_text
              /\ supported = Ret LanggraphWorkflow.timeout_text)
        /\ (forall msg,
              freshdesk w request = Raise (mkExn ConnectionError msg) ->
              filed = Ret Agents.unexpected_text
              /\ supported = Ret LanggraphWorkflow.connection_text)
        /\ (forall msg,
              freshdesk w request = Raise (mkExn OtherException msg) ->
              filed = Ret Agents.unexpected_text
              /\ supported = Ret LanggraphWorkflow.unexpected_text)).
Proof.
  cbv zeta.
  split; [apply create_freshdesk_ticket_returns|].
  split; [apply create_support_ticket_returns|].
  split; [eexists; reflexivity|].
  split; [apply run_tool_call_returns|].
  split; [intros Hc _ Hp; now apply bad_priority_texts|].
  unfold Agents.create_freshdesk_ticket, LanggraphWorkflow.create_support_ticket.
  rewrite !outcome_try.
  - intros p Hc Hp Ha.
    rewrite !(ticket_request_outcome _ _ cfg w subject description priority
                email p Hc Hp Ha).
    repeat split.
    + rewrite H.
      now rewrite (response_text_invalid_credentials _ _ _ _ r body).
    + rewrite H.
      now rewrite (response_text_invalid_credentials _ _ _ _ r body).
    + now rewrite H.
    + now rewrite H.
    + now rewrite H.
    + now rewrite H.
    + now rewrite H.
    + now rewrite H.
Qed.

Lemma action_executor_never_raises_witness :
  outcome (Agents.create_freshdesk_ticket Sample.cfg Sample.rejects_credentials
             "Printer" "broken" "2" "a@b.com") = Ret Agents.auth_text.
Proof.
  pose proof (action_executor_never_raises Sample.cfg Sample.rejects_credentials
                "Printer" "broken" "2" "a@b.com") as H.
  cbv zeta in H. destruct H as (_ & _ & _ & _ & _ & H).
  destruct (H 2%Z eq_refl eq_refl eq_refl) as [Hauth _].
  exact (proj1 (Hauth Sample.unauthorized _ eq_refl eq_refl eq_refl eq_refl)).
Defined.




(** ** Direct filing *)

Lemma tool_input_args (subject description priority : PyVal) (email : string) :
  tool_args (<["subject" := subject]> (<["description" := description]>
               (<["priority" := priority]> (<["email" := VStr email]> ∅))))
  = match subject, description, priority with
    | VStr s, VStr d, VStr p => Some (s, d, p, email)
    | _, _, _ => None
    end.
Proof.
  unfold tool_args. simplify_map_eq.
  destruct subject, description, priority; reflexivity.
Qed.

(** Filing through a tool [t] whose function always returns. *)
Section DirectFiling.

Variable run : string -> string -> string -> string -> M string.
Variable tool : Tool.
Variable fallback : TicketResult.
Hypothesis tool_runs : tool_func tool = run.
Hypothesis run_returns : forall s d p e, exists t, outcome (run s d p e) = Ret t.

Lemma file_directly_valid (data : gmap string PyVal) (email s d p : string) :
  draft_fields data s d p ->
  exists t,
    outcome (run s d p email) = Ret t
    /\ outcome (file_directly tool fallback data email) = Ret (ticket_result_of t)
    /\ trace (file_directly tool fallback data email) = trace (run s d p email).
Proof.
  intros (Hs & Hd & Hp). destruct (run_returns s d p email) as [t Ht].
  exists t. split; [exact Ht|].
  unfold file_directly, dict_item. rewrite Hs, Hd, Hp, !bind_ret.
  unfold tool_invoke. rewrite tool_input_args, tool_runs.
  rewrite outcome_try, outcome_bind, Ht. split; [reflexivity|].
  rewrite trace_try_silent by (intros e; reflexivity).
  rewrite trace_bind, Ht. apply app_nil_r.
Qed.

Lemma file_directly_cases (data : gmap string PyVal) (email : string) :
  (outcome (file_directly tool fallback data email) = Ret fallback
   /\ trace (file_directly tool fallback data email) = [])
  \/ exists s d p, draft_fields data s d p.
Proof.
  destruct (data !! "subject") as [vs|] eqn:Hs;
    [destruct (data !! "description") as [vd|] eqn:Hd;
       [destruct (data !! "priority") as [vp|] eqn:Hp|]|].
  - destruct vs as [| | |s|]; destruct vd as [| | |d|];
      destruct vp as [| | |p|];
      try (right; exists s, d, p; repeat split; assumption);
      left; unfold file_directly, dict_item; rewrite Hs, Hd, Hp, !bind_ret;
      unfold tool_invoke; rewrite tool_input_args; split; reflexivity.
  - left. unfold file_directly, dict_item. rewrite Hs, Hd, Hp, !bind_ret.
    split; reflexivity.
  - left. unfold file_directly, dict_item. rewrite Hs, Hd, !bind_ret.
    split; reflexivity.
  - left. unfold file_directly, dict_item. rewrite Hs. split; reflexivity.
Qed.

End DirectFiling.

(** ** The endpoint: decline and failure *)

(** C7.  A turn whose action is the decline signal is answered with the
    fixed acknowledgement text; neither the gateway nor the model is
    called; the response carries no draft, no approval prompt, no
    awaiting-approval flag and reports no ticket; the only change to the
    store is the acknowledgement appended to the conversation. *)
Theorem decline_is_acknowledged
    (cfg : Config) (w : World) (db : Main.Store) (request : Main.ChatRequest)
    (Hdecline : Main.action request = Some "decline_ticket") :
  exists r,
    Main.chat_endpoint cfg w db request =
      (Main.Respond r,
       Main.append_messages db (Main.conversationId request)
         [{| Main.role := "assistant";
             Main.stored_content := Main.decline_message;
             Main.stored_ticketId := None;
             Main.stored_ticketNumber := None |}],
       [])
    /\ Main.resp_content r = Main.decline_message
    /\ Main.ticketCreated r = false
    /\ Main.ticketId r = None
    /\ Main.needsApproval r = false
    /\ Main.ticketSummary r = None
    /\ Main.interactiveButtons r = None.
Proof.
  exists (Main.plain_response request Main.decline_message).
  unfold Main.chat_endpoint, Main.is_action. rewrite Hdecline.
  repeat split.
Qed.

Lemma decline_is_acknowledged_witness :
  exists r,
    Main.chat_endpoint Sample.cfg Sample.files_ticket Sample.empty_store
      (Sample.request "no thanks" (Some "decline_ticket") (Some Sample.draft))
    = (Main.Respond r,
       Main.append_messages Sample.empty_store "conv-1"
         [{| Main.role := "assistant";
             Main.stored_content := Main.decline_message;
             Main.stored_ticketId := None;
             Main.stored_ticketNumber := None |}],
       [])
    /\ Main.ticketCreated r = false.
Proof.
  destruct (decline_is_acknowledged Sample.cfg Sample.files_ticket
              Sample.empty_store
              (Sample.request "no thanks" (Some "decline_ticket")
                 (Some Sample.draft)) eq_refl)
    as (r & Heq & _ & Hcreated & _).
  exists r. split; [exact Heq | exact Hcreated].
Defined.

Lemma http_error_status (error : Exn) :
  Main.http_error error
    = Main.HTTPException 401 "Authentication failed. Please refresh and try again."
  \/ Main.http_error error
     = Main.HTTPException 500
         ("Sorry, I encountered an error: " +:+ exn_str error).
Proof.
  unfold Main.http_error. destruct (Py.str_in _ _); [left | right]; reflexivity.
Qed.

(** C8.  When the workflow of a normal turn raises before it has produced a
    reply, the endpoint leaves both dictionaries of the store as they were
    (no message is appended) and the caller receives an HTTP error in
    place of a response: status 401 with a fixed text when the error text
    mentions "auth", status 500 with the error text otherwise. *)
Theorem workflow_failure_leaves_store
    (cfg : Config) (w : World) (db : Main.Store) (request : Main.ChatRequest)
    (error : Exn) (calls : list Event)
    (Hnormal :
       Main.is_action request "approve_ticket"
       && Main.truthy_dict (Main.ticketData request) = false)
    (Hnot_decline : Main.is_action request "decline_ticket" = false)
    (Hraises :
       Main.run_workflow cfg w request
         (Main.history_of db (Main.conversationId request))
         (Py.or_default (Main.userId request) "test-user")
         (Py.or_default (Main.userEmail request) "user@example.com")
       = (Raise error, calls)) :
  Main.chat_endpoint cfg w db request = (Main.http_error error, db, calls)
  /\ (Main.http_error error
        = Main.HTTPException 401
            "Authentication failed. Please refresh and try again."
      \/ Main.http_error error
         = Main.HTTPException 500
             ("Sorry, I encountered an error: " +:+ exn_str error)).
Proof.
  split; [|apply http_error_status].
  unfold Main.chat_endpoint. rewrite Hnormal, Hnot_decline.
  unfold Main.normal_chat_flow. rewrite Hraises. reflexivity.
Qed.

Lemma workflow_failure_leaves_store_witness :
  exists calls,
    Main.chat_endpoint Sample.cfg Sample.model_down Sample.empty_store
      (Sample.request "My VPN won't connect" None None)
    = (Main.HTTPException 500 "Sorry, I encountered an error: Connection error.",
       Sample.empty_store, calls).
Proof.
  eexists.
  exact (proj1 (workflow_failure_leaves_store Sample.cfg Sample.model_down
                  Sample.empty_store
                  (Sample.request "My VPN won't connect" None None)
                  _ _ eq_refl eq_refl eq_refl)).
Defined.

(** A failure after the workflow has replied is a different matter: when
    the draft extracted by the approval workflow has no subject, the lookup
    for the ticket summary fails once the two messages of the turn are
    stored. *)
Remark failure_after_reply_keeps_messages :
  exists db calls,
    Main.chat_endpoint Sample.cfg Sample.drafts_without_subject
      Sample.empty_store (Sample.request "yes, create a ticket" None None)
    = (Main.HTTPException 500 "Sorry, I encountered an error: 'subject'",
       db, calls)
    /\ Main.messages_db db !! "conv-1"
       = Some [{| Main.role := "user";
                  Main.stored_content := "yes, create a ticket";
                  Main.stored_ticketId := None;
                  Main.stored_ticketNumber := None |};
               {| Main.role := "assistant";
                  Main.stored_content := "Here is the draft.";
                  Main.stored_ticketId := None;
                  Main.stored_ticketNumber := None |}].
Proof. eexists. eexists. split; reflexivity. Qed.

(** ** External calls of the agents *)

Lemma gateway_calls_app (a b : list Event) :
  gateway_calls (a ++ b) = gateway_calls a ++ gateway_calls b.
Proof. unfold gateway_calls. apply omap_app. Qed.

Lemma llm_calls_app (a b : list Event) :
  llm_calls (a ++ b) = llm_calls a + llm_calls b.
Proof. unfold llm_calls. now rewrite List.filter_app, length_app. Qed.

Lemma trace_invoke_llm (w : World) (tools : list string) (msgs : list Message) :
  trace (invoke_llm w tools msgs) = [LLMCall tools msgs].
Proof. reflexivity. Qed.

Lemma outcome_invoke_llm (w : World) (tools : list string) (msgs : list Message) :
  outcome (invoke_llm w tools msgs) =
  match llm w tools msgs with
  | Ret (c, tcs) => Ret (AIMessage c tcs)
  | Raise e => Raise e
  end.
Proof. reflexivity. Qed.

Lemma filing_trace_no_llm (cfg : Config) (s d p e : string) :
  llm_calls (filing_trace cfg s d p e) = 0.
Proof.
  destruct (filing_trace_cases cfg s d p e) as [-> | [n [_ ->]]]; reflexivity.
Qed.

Lemma find_In (tools : list Tool) (f : Tool -> bool) (t : Tool) :
  find f tools = Some t -> In t tools /\ f t = true.
Proof. apply find_some. Qed.

Lemma trace_run_tool_call (w : World) (tools : list Tool) (tc : ToolCall) :
  trace (run_tool_call w tools tc) = []
  \/ exists t s d p e,
       In t tools /\ tool_name t = name tc
       /\ tool_args (args tc) = Some (s, d, p, e)
       /\ trace (run_tool_call w tools tc) = trace (tool_func t s d p e).
Proof.
  unfold run_tool_call.
  destruct (find _ tools) as [t|] eqn:Hfind; [|now left].
  apply find_In in Hfind as [Hin Hname]. apply String.eqb_eq in Hname.
  rewrite trace_try_silent by (intros e; reflexivity).
  rewrite trace_bind. unfold tool_invoke.
  destruct (tool_args (args tc)) as [[[[s d] p] e]|] eqn:Hargs; [|now left].
  right. exists t, s, d, p, e. repeat split; try assumption.
  destruct (outcome (tool_func t s d p e)); apply app_nil_r.
Qed.

Lemma outcome_run_tool_calls (w : World) (tools : list Tool)
    (tcs : list ToolCall) :
  exists obs,
    outcome (run_tool_calls w tools tcs) = Ret obs
    /\ length obs = length tcs
    /\ forallb isinstance_ToolMessage obs = true.
Proof.
  induction tcs as [|tc tcs IH]; simpl run_tool_calls.
  - exists []. repeat split.
  - destruct IH as (obs & Hobs & Hlen & Hall).
    destruct (run_tool_call_returns w tools tc) as [c Hc].
    exists (ToolMessage c :: obs).
    rewrite outcome_bind, Hc, outcome_bind, Hobs.
    repeat split; simpl; [now rewrite Hlen | exact Hall].
Qed.

Lemma trace_run_tool_calls (w : World) (tools : list Tool)
    (tcs : list ToolCall) :
  trace (run_tool_calls w tools tcs)
  = flat_map (fun tc => trace (run_tool_call w tools tc)) tcs.
Proof.
  induction tcs as [|tc tcs IH]; simpl run_tool_calls; [reflexivity|].
  destruct (run_tool_call_returns w tools tc) as [c Hc].
  destruct (outcome_run_tool_calls w tools tcs) as (obs & Hobs & _).
  rewrite trace_bind, Hc, trace_bind, Hobs, IH. simpl.
  now rewrite app_nil_r.
Qed.

Lemma run_tool_calls_model_free (w : World) (tools : list Tool)
    (tcs : list ToolCall) :
  model_free tools -> llm_calls (trace (run_tool_calls w tools tcs)) = 0.
Proof.
  intros Hfree. rewrite trace_run_tool_calls.
  induction tcs as [|tc tcs IH]; [reflexivity|].
  simpl. rewrite llm_calls_app, IH.
  destruct (trace_run_tool_call w tools tc)
    as [-> | (t & s & d & p & e & Hin & _ & _ & ->)]; [reflexivity|].
  now rewrite (Hfree t Hin).
Qed.

Lemma run_tool_calls_gateway_free (w : World) (tools : list Tool)
    (tcs : list ToolCall) :
  gateway_free tools -> gateway_calls (trace (run_tool_calls w tools tcs)) = [].
Proof.
  intros Hfree. rewrite trace_run_tool_calls.
  induction tcs as [|tc tcs IH]; [reflexivity|].
  simpl. rewrite gateway_calls_app, IH.
  destruct (trace_run_tool_call w tools tc)
    as [-> | (t & s & d & p & e & Hin & _ & _ & ->)]; [reflexivity|].
  now rewrite (Hfree t Hin).
Qed.

(** a gateway call made by the tool node stems from a requested call that
    names one of the node's tools *)
Lemma run_tool_calls_gateway_origin (w : World) (tools : list Tool)
    (tcs : list ToolCall) :
  gateway_calls (trace (run_tool_calls w tools tcs)) <> [] ->
  exists tc t, In tc tcs /\ In t tools /\ tool_name t = name tc.
Proof.
  rewrite trace_run_tool_calls.
  induction tcs as [|tc tcs IH]; [intros H; now contradiction H|].
  simpl. rewrite gateway_calls_app. intros H.
  destruct (trace_run_tool_call w tools tc)
    as [Hnil | (t & s & d & p & e & Hin & Hname & _ & _)].
  - rewrite Hnil in H. simpl in H.
    destruct (IH H) as (tc' & t & Htc & Ht & Hn).
    exists tc', t. repeat split; [now right | exact Ht | exact Hn].
  - exists tc, t. repeat split; [now left | exact Hin | exact Hname].
Qed.

Lemma approval_tools_free :
  model_free ApprovalWorkflow.approval_tools
  /\ gateway_free ApprovalWorkflow.approval_tools.
Proof. split; intros t [<- | []] s d p e; reflexivity. Qed.

Lemma ticket_tools_model_free (cfg : Config) (w : World) :
  model_free (Agents.ticket_tools cfg w).
Proof.
  intros t [<- | []] s d p e. simpl tool_func.
  rewrite create_freshdesk_ticket_trace. apply filing_trace_no_llm.
Qed.

Lemma workflow_tools_model_free (cfg : Config) (w : World) :
  model_free (LanggraphWorkflow.workflow_tools cfg w).
Proof.
  intros t [<- | []] s d p e. simpl tool_func.
  rewrite create_support_ticket_trace. apply filing_trace_no_llm.
Qed.

Lemma bind_assoc {A B C} (m : M A) (k : A -> M B) (h : B -> M C) :
  bind (bind m k) h = bind m (fun a => bind (k a) h).
Proof.
  unfold bind. destruct m as [[a|e] t]; [|reflexivity].
  destruct (k a) as [[b|e] t']; [|reflexivity].
  destruct (h b) as [r t'']. now rewrite app_assoc.
Qed.

Lemma bind_invoke_llm {B} (w : World) (tools : list string)
    (msgs : list Message) (k : Message -> M B) :
  bind (invoke_llm w tools msgs) k =
  match llm w tools msgs with
  | Ret (c, tcs) =>
      (outcome (k (AIMessage c tcs)),
       LLMCall tools msgs :: trace (k (AIMessage c tcs)))
  | Raise e => (Raise e, [LLMCall tools msgs])
  end.
Proof.
  unfold bind, invoke_llm.
  destruct (llm w tools msgs) as [[c tcs]|e]; [|reflexivity].
  destruct (k (AIMessage c tcs)). reflexivity.
Qed.

Lemma bind_invoke_llm_ext {B} (w : World) (tools : list string)
    (msgs : list Message) (k1 k2 : Message -> M B) :
  (forall c tcs, k1 (AIMessage c tcs) = k2 (AIMessage c tcs)) ->
  bind (invoke_llm w tools msgs) k1 = bind (invoke_llm w tools msgs) k2.
Proof.
  intros H. rewrite !bind_invoke_llm.
  destruct (llm w tools msgs) as [[c tcs]|e]; [now rewrite H | reflexivity].
Qed.

Lemma last_message_snoc (msgs : list Message) (m : Message) :
  last_message (msgs ++ [m]) = ret m.
Proof. unfold last_message. now rewrite last_snoc. Qed.

Lemma ToolNode_snoc (w : World) (tools : list Tool) (msgs : list Message)
    (c : string) (tcs : list ToolCall) :
  ToolNode w tools (msgs ++ [AIMessage c tcs]) = run_tool_calls w tools tcs.
Proof. unfold ToolNode. now rewrite last_snoc. Qed.

Lemma pair_eta {A} (m : M A) : (outcome m, trace m) = m.
Proof. now destruct m. Qed.

(** the ticket agent in one piece: one model call, then the requested
    calls, if any *)
Lemma ticket_agent_run (cfg : Config) (w : World) (state : Agents.AgentState) :
  Agents.ticket_agent cfg w state =
  let! response :=
    invoke_llm w ["create_freshdesk_ticket"]
      (HumanMessage Agents.ticket_system_prompt :: Agents.messages state) in
  let analysed := Agents.update state [response] "ticket" in
  match tool_calls_of response with
  | [] => ret analysed
  | tcs =>
      let! obs := run_tool_calls w (Agents.ticket_tools cfg w) tcs in
      ret (Agents.update analysed obs "ticket")
  end.
Proof.
  unfold Agents.ticket_agent, Agents.ticket_analysis_node.
  simpl map. rewrite bind_assoc. apply bind_invoke_llm_ext. intros c tcs.
  rewrite !bind_ret. unfold Agents.should_use_tools.
  simpl Agents.messages. rewrite last_message_snoc, bind_ret.
  simpl tool_calls_of. destruct tcs as [|tc tcs].
  - rewrite bind_ret. reflexivity.
  - rewrite bind_ret. unfold Agents.tool_node. simpl Agents.messages.
    rewrite ToolNode_snoc. reflexivity.
Qed.

Lemma chat_agent_run (cfg : Config) (w : World) (state : Agents.AgentState) :
  Agents.chat_agent cfg w state =
  match llm w [] (HumanMessage (Agents.chat_system_prompt cfg)
                    :: Agents.messages state) with
  | Ret (c, tcs) =>
      (Ret (Agents.update state [AIMessage c tcs] "chat"),
       [LLMCall [] (HumanMessage (Agents.chat_system_prompt cfg)
                      :: Agents.messages state)])
  | Raise e =>
      (Raise e,
       [LLMCall [] (HumanMessage (Agents.chat_system_prompt cfg)
                      :: Agents.messages state)])
  end.
Proof.
  unfold Agents.chat_agent, Agents.chat_node. simpl map.
  rewrite bind_invoke_llm. destruct (llm w _ _) as [[c tcs]|e]; reflexivity.
Qed.

(** the approval workflow in one piece *)
Lemma approval_workflow_run (cfg : Config) (w : World)
    (state : ApprovalWorkflow.ApprovalState) :
  ApprovalWorkflow.approval_workflow cfg w state =
  let! response :=
    invoke_llm w ["generate_ticket_details"]
      (HumanMessage (ApprovalWorkflow.approval_system_prompt cfg)
         :: ApprovalWorkflow.messages state) in
  let analysed :=
    {| ApprovalWorkflow.messages := ApprovalWorkflow.messages state ++ [response];
       ApprovalWorkflow.user_id := ApprovalWorkflow.user_id state;
       ApprovalWorkflow.conversation_id := ApprovalWorkflow.conversation_id state;
       ApprovalWorkflow.user_email := ApprovalWorkflow.user_email state;
       ApprovalWorkflow.ticket_details := ApprovalWorkflow.ticket_details state;
       ApprovalWorkflow.approval_needed := true;
       ApprovalWorkflow.user_approved := ApprovalWorkflow.user_approved state |} in
  match tool_calls_of response with
  | [] => ret analysed
  | _ :: _ =>
      let! generated := ApprovalWorkflow.generate_details w analysed in
      ret (ApprovalWorkflow.extract_ticket_data generated)
  end.
Proof.
  unfold ApprovalWorkflow.approval_workflow, ApprovalWorkflow.analyze_for_ticket.
  simpl map. rewrite bind_assoc. apply bind_invoke_llm_ext. intros c tcs.
  rewrite !bind_ret. unfold ApprovalWorkflow.should_generate_details.
  simpl ApprovalWorkflow.messages. rewrite last_message_snoc, bind_ret.
  simpl tool_calls_of. destruct tcs as [|tc tcs]; now rewrite bind_ret.
Qed.

Lemma approval_workflow_trace (cfg : Config) (w : World)
    (state : ApprovalWorkflow.ApprovalState) :
  gateway_calls (trace (ApprovalWorkflow.approval_workflow cfg w state)) = []
  /\ llm_calls (trace (ApprovalWorkflow.approval_workflow cfg w state)) = 1.
Proof.
  rewrite approval_workflow_run. cbv zeta. rewrite bind_invoke_llm.
  destruct (llm w _ _) as [[c tcs]|e]; [|split; reflexivity].
  simpl tool_calls_of. destruct tcs as [|tc tcs]; [split; reflexivity|].
  unfold ApprovalWorkflow.generate_details. simpl ApprovalWorkflow.messages.
  rewrite ToolNode_snoc, bind_assoc.
  destruct approval_tools_free as [Hm Hg].
  pose proof (run_tool_calls_gateway_free w _ (tc :: tcs) Hg) as Hgw.
  pose proof (run_tool_calls_model_free w _ (tc :: tcs) Hm) as Hllm.
  destruct (outcome_run_tool_calls w ApprovalWorkflow.approval_tools
              (tc :: tcs)) as (obs & Hobs & _).
  rewrite trace_bind, Hobs, !bind_ret.
  change (trace (ret ?x)) with (@nil Event). rewrite app_nil_r.
  unfold trace at 1 3. cbn [snd].
  split.
  - exact Hgw.
  - change (S (llm_calls
                 (trace (run_tool_calls w ApprovalWorkflow.approval_tools
                           (tc :: tcs)))) = 1). now rewrite Hllm.
Qed.

Lemma trace_bind_silent {A B} (m : M A) (k : A -> M B) :
  (forall a, silent (k a)) -> trace (bind m k) = trace m.
Proof.
  intros Hk. rewrite trace_bind. destruct (outcome m) as [a|e].
  - rewrite (Hk a). apply app_nil_r.
  - apply app_nil_r.
Qed.

Lemma ticket_agent_trace (cfg : Config) (w : World) (state : Agents.AgentState) :
  trace (Agents.ticket_agent cfg w state) =
  LLMCall ["create_freshdesk_ticket"]
    (HumanMessage Agents.ticket_system_prompt :: Agents.messages state)
  :: match llm w ["create_freshdesk_ticket"]
             (HumanMessage Agents.ticket_system_prompt :: Agents.messages state)
     with
     | Ret (c, tcs) => trace (run_tool_calls w (Agents.ticket_tools cfg w) tcs)
     | Raise _ => []
     end.
Proof.
  rewrite ticket_agent_run. cbv zeta. rewrite bind_invoke_llm.
  destruct (llm w _ _) as [[c tcs]|e]; [|reflexivity].
  unfold trace at 1. cbn [snd]. f_equal. simpl tool_calls_of.
  destruct tcs as [|tc tcs]; [reflexivity|].
  apply trace_bind_silent. intros obs. reflexivity.
Qed.

Lemma ticket_agent_llm_calls (cfg : Config) (w : World)
    (state : Agents.AgentState) :
  llm_calls (trace (Agents.ticket_agent cfg w state)) = 1.
Proof.
  rewrite ticket_agent_trace.
  change (S (llm_calls
               match llm w ["create_freshdesk_ticket"]
                       (HumanMessage Agents.ticket_system_prompt
                          :: Agents.messages state)
               with
               | Ret (c, tcs) =>
                   trace (run_tool_calls w (Agents.ticket_tools cfg w) tcs)
               | Raise _ => []
               end) = 1).
  destruct (llm w _ _) as [[c tcs]|e]; [|reflexivity].
  now rewrite (run_tool_calls_model_free w _ tcs (ticket_tools_model_free cfg w)).
Qed.

(** a gateway call during a turn of the ticket agent stems from a
    [create_freshdesk_ticket] call that the model requested *)
Lemma ticket_agent_gateway_origin (cfg : Config) (w : World)
    (state : Agents.AgentState) :
  gateway_calls (trace (Agents.ticket_agent cfg w state)) <> [] ->
  exists c tcs tc,
    llm w ["create_freshdesk_ticket"]
      (HumanMessage Agents.ticket_system_prompt :: Agents.messages state)
    = Ret (c, tcs)
    /\ In tc tcs /\ name tc = "create_freshdesk_ticket".
Proof.
  rewrite ticket_agent_trace.
  destruct (llm w _ _) as [[c tcs]|e]; [|intros H; now contradiction H].
  intros H.
  destruct (run_tool_calls_gateway_origin w (Agents.ticket_tools cfg w) tcs H)
    as (tc & t & Htc & [<- | []] & Hname).
  exists c, tcs, tc. repeat split; [exact Htc | symmetry; exact Hname].
Qed.

(** when the model requests calls, the ticket agent ends after one round:
    the assistant message and one observation per requested call *)
Lemma ticket_agent_one_round (cfg : Config) (w : World)
    (state : Agents.AgentState) (c : string) (tc : ToolCall)
    (tcs : list ToolCall) :
  llm w ["create_freshdesk_ticket"]
    (HumanMessage Agents.ticket_system_prompt :: Agents.messages state)
  = Ret (c, tc :: tcs) ->
  exists final obs,
    outcome (Agents.ticket_agent cfg w state) = Ret final
    /\ Agents.messages final
       = Agents.messages state ++ [AIMessage c (tc :: tcs)] ++ obs
    /\ length obs = length (tc :: tcs)
    /\ forallb isinstance_ToolMessage obs = true
    /\ Agents.current_agent final = "ticket".
Proof.
  intros Hllm. rewrite ticket_agent_run. cbv zeta.
  rewrite bind_invoke_llm, Hllm. unfold outcome at 1. cbn [fst].
  simpl tool_calls_of.
  destruct (outcome_run_tool_calls w (Agents.ticket_tools cfg w) (tc :: tcs))
    as (obs & Hobs & Hlen & Hall).
  rewrite outcome_bind, Hobs. eexists. exists obs.
  split; [reflexivity|]. simpl Agents.messages.
  rewrite <- app_assoc. repeat split; assumption.
Qed.

Lemma multi_agent_workflow_gateway_origin (cfg : Config) (w : World)
    (state : Agents.AgentState) :
  gateway_calls (trace (Agents.multi_agent_workflow cfg w state)) <> [] ->
  Agents.supervisor_routing state = Agents.ticket
  /\ exists c tcs tc,
       llm w ["create_freshdesk_ticket"]
         (HumanMessage Agents.ticket_system_prompt :: Agents.messages state)
       = Ret (c, tcs)
       /\ In tc tcs /\ name tc = "create_freshdesk_ticket".
Proof.
  unfold Agents.multi_agent_workflow.
  destruct (Agents.supervisor_routing state).
  - rewrite chat_agent_run.
    destruct (llm w _ _) as [[c tcs]|e]; intros H; now contradiction H.
  - intros H. split; [reflexivity|].
    exact (ticket_agent_gateway_origin cfg w state H).
Qed.

Lemma multi_agent_workflow_llm_calls (cfg : Config) (w : World)
    (state : Agents.AgentState) :
  llm_calls (trace (Agents.multi_agent_workflow cfg w state)) = 1.
Proof.
  unfold Agents.multi_agent_workflow.
  destruct (Agents.supervisor_routing state).
  - rewrite chat_agent_run. destruct (llm w _ _) as [[c tcs]|e]; reflexivity.
  - apply ticket_agent_llm_calls.
Qed.

Lemma run_multi_agent_workflow_trace (cfg : Config) (w : World)
    (message : string) (history : list ChatMsg) (uid cid email : string) :
  trace (Agents.run_multi_agent_workflow cfg w message history uid cid email)
  = [] \/
  trace (Agents.run_multi_agent_workflow cfg w message history uid cid email)
  = trace (Agents.multi_agent_workflow cfg w
             {| Agents.messages := to_langchain history ++ [HumanMessage message];
                Agents.user_id := uid; Agents.conversation_id := cid;
                Agents.user_email := email;
                Agents.current_agent := EmptyString;
                Agents.ticket_data := None;
                Agents.needs_approval := false |}).
Proof.
  unfold Agents.run_multi_agent_workflow.
  destruct (negb (Py.truthy (OPENAI_API_KEY cfg)) || _); [now left|].
  right. apply trace_bind_silent. intros result.
  destruct (last _); reflexivity.
Qed.

Lemma run_approval_workflow_trace (cfg : Config) (w : World)
    (message : string) (history : list ChatMsg) (uid cid email : string) :
  gateway_calls
    (trace (ApprovalWorkflow.run_approval_workflow cfg w message history
              uid cid email)) = []
  /\ llm_calls
       (trace (ApprovalWorkflow.run_approval_workflow cfg w message history
                 uid cid email)) = 1.
Proof.
  unfold ApprovalWorkflow.run_approval_workflow.
  rewrite trace_bind_silent by (intros result; destruct (last _); reflexivity).
  apply approval_workflow_trace.
Qed.

(** ** The action catalogues *)

(** C1, as stated, fails: the ticket agent offers the model the filing
    tool, and when the model requests it during a turn routed to that
    agent the gateway is called. *)
Lemma ticket_agent_files_on_model_request :
  map tool_name (Agents.ticket_tools Sample.cfg Sample.files_ticket)
    = ["create_freshdesk_ticket"]
  /\ Agents.supervisor_routing (Sample.state "please escalate this")
     = Agents.ticket
  /\ gateway_calls
       (trace (Agents.multi_agent_workflow Sample.cfg Sample.files_ticket
                 (Sample.state "please escalate this")))
     = [gateway_request Sample.cfg "Printer is broken"
          "The printer on floor 2 does not print." 2 "a@b.com"].
Proof. repeat split; reflexivity. Qed.

(** C1, amended.  The chat agent offers the model no action, and a turn it
    handles never calls the gateway.  The ticket agent offers exactly the
    filing tool [create_freshdesk_ticket] (the chatbot of
    langgraph_workflow.py exactly [create_support_ticket]); a gateway call
    during a turn of the ticket agent always stems from a call of that tool
    requested by the model.  The draft-only tool [generate_ticket_details]
    is the one action of the approval workflow, whose turns never call the
    gateway. *)
Theorem action_catalogues (cfg : Config) (w : World) :
  map tool_name Agents.chat_tools = []
  /\ map tool_name (Agents.ticket_tools cfg w) = ["create_freshdesk_ticket"]
  /\ map tool_name (LanggraphWorkflow.workflow_tools cfg w)
     = ["create_support_ticket"]
  /\ map tool_name ApprovalWorkflow.approval_tools = ["generate_ticket_details"]
  /\ (forall state, gateway_calls (trace (Agents.chat_agent cfg w state)) = [])
  /\ (forall state,
        gateway_calls (trace (ApprovalWorkflow.approval_workflow cfg w state))
        = [])
  /\ (forall state,
        gateway_calls (trace (Agents.ticket_agent cfg w state)) <> [] ->
        exists c tcs tc,
          llm w ["create_freshdesk_ticket"]
            (HumanMessage Agents.ticket_system_prompt :: Agents.messages state)
          = Ret (c, tcs)
          /\ In tc tcs /\ name tc = "create_freshdesk_ticket").
Proof.
  repeat split.
  - intros state. rewrite chat_agent_run.
    destruct (llm w _ _) as [[c tcs]|e]; reflexivity.
  - intros state. apply approval_workflow_trace.
  - intros state. apply ticket_agent_gateway_origin.
Qed.

Lemma action_catalogues_witness :
  exists c tcs tc,
    llm Sample.files_ticket ["create_freshdesk_ticket"]
      (HumanMessage Agents.ticket_system_prompt
         :: Agents.messages (Sample.state "please escalate this"))
    = Ret (c, tcs)
    /\ In tc tcs /\ name tc = "create_freshdesk_ticket".
Proof.
  destruct (action_catalogues Sample.cfg Sample.files_ticket)
    as (_ & _ & _ & _ & _ & _ & H).
  apply (H (Sample.state "please escalate this")).
  intros Hnone. vm_compute in Hnone. discriminate Hnone.
Defined.

(** ** The tool-call loops *)

Lemma last_AIMessage (msgs obs : list Message) (c : string)
    (tcs : list ToolCall) :
  forallb isinstance_ToolMessage obs = true ->
  last (List.filter isinstance_AIMessage (msgs ++ [AIMessage c tcs] ++ obs))
  = Some (AIMessage c tcs).
Proof.
  intros Hobs. rewrite !List.filter_app.
  assert (List.filter isinstance_AIMessage obs = []) as ->.
  { induction obs as [|m obs IH]; [reflexivity|].
    simpl in Hobs. apply andb_true_iff in Hobs as [Hm Hobs].
    destruct m; try discriminate. simpl. now apply IH. }
  simpl. rewrite ?app_nil_r. apply last_snoc.
Qed.

Section LanggraphLoop.

Variable cfg : Config.
Variable w : World.
Hypothesis stub : always_requests_action w.

Lemma chatbot_requests (state : LanggraphWorkflow.ConversationState) :
  exists c tc tcs msgs,
    LanggraphWorkflow.chatbot cfg w state
    = (Ret (LanggraphWorkflow.add_messages state [AIMessage c (tc :: tcs)]),
       [LLMCall ["create_support_ticket"] msgs]).
Proof.
  unfold LanggraphWorkflow.chatbot. simpl map.
  set (msgs := if negb _ then _ else _).
  destruct (stub ["create_support_ticket"] msgs) as (c & tc & tcs & Hllm).
  exists c, tc, tcs, msgs. rewrite bind_invoke_llm, Hllm. reflexivity.
Qed.

Lemma run_graph_exhausts (steps : nat) :
  forall state,
    (outcome (LanggraphWorkflow.run_graph cfg w steps
                LanggraphWorkflow.chatbot_node state) = Raise recursion_error
     /\ llm_calls (trace (LanggraphWorkflow.run_graph cfg w steps
                            LanggraphWorkflow.chatbot_node state)) <= steps)
    /\ (forall earlier c tcs,
          LanggraphWorkflow.messages state = earlier ++ [AIMessage c tcs] ->
          outcome (LanggraphWorkflow.run_graph cfg w steps
                     LanggraphWorkflow.tools_node state) = Raise recursion_error
          /\ llm_calls (trace (LanggraphWorkflow.run_graph cfg w steps
                                 LanggraphWorkflow.tools_node state)) <= steps).
Proof.
  induction steps as [|n IH]; intros state.
  - split; [|intros earlier c tcs _]; split; solve [reflexivity | apply Nat.le_refl].
  - split.
    + simpl LanggraphWorkflow.run_graph.
      destruct (chatbot_requests state) as (c & tc & tcs & msgs & Hbot).
      rewrite outcome_bind, trace_bind, Hbot.
      unfold outcome at 1 3, trace at 1. cbn [fst snd].
      unfold LanggraphWorkflow.should_continue.
      simpl LanggraphWorkflow.messages.
      rewrite last_message_snoc, (bind_ret (AIMessage c (tc :: tcs))).
      simpl tool_calls_of. rewrite (bind_ret ToTools).
      destruct (proj2 (IH (LanggraphWorkflow.add_messages state
                             [AIMessage c (tc :: tcs)]))
                  (LanggraphWorkflow.messages state) c (tc :: tcs) eq_refl)
        as [Hout Hcount].
      split; [exact Hout|].
      rewrite llm_calls_app. change (llm_calls [LLMCall _ _]) with 1. lia.
    + intros earlier c tcs Hmsgs. simpl LanggraphWorkflow.run_graph.
      unfold LanggraphWorkflow.tool_node. rewrite Hmsgs, ToolNode_snoc.
      destruct (outcome_run_tool_calls w (LanggraphWorkflow.workflow_tools cfg w)
                  tcs) as (obs & Hobs & _).
      rewrite bind_assoc, outcome_bind, trace_bind, Hobs, !bind_ret.
      destruct (proj1 (IH (LanggraphWorkflow.add_messages state obs)))
        as [Hout Hcount].
      split; [exact Hout|].
      rewrite llm_calls_app,
        (run_tool_calls_model_free w _ tcs (workflow_tools_model_free cfg w)).
      simpl. lia.
Qed.

End LanggraphLoop.

Lemma run_multi_agent_reply (cfg : Config) (w : World)
    (message : string) (history : list ChatMsg) (uid cid email : string) :
  always_requests_action w -> openai_ok cfg = true ->
  exists r tools msgs c tcs,
    outcome (Agents.run_multi_agent_workflow cfg w message history uid cid email)
    = Ret r
    /\ llm w tools msgs = Ret (c, tcs)
    /\ wr_content r = c.
Proof.
  intros Hstub Hkey. unfold Agents.run_multi_agent_workflow.
  unfold openai_ok in Hkey.
  destruct (negb (Py.truthy (OPENAI_API_KEY cfg)) || _); [discriminate|].
  rewrite outcome_bind. unfold Agents.multi_agent_workflow.
  set (state := {| Agents.messages := _ |}).
  destruct (Agents.supervisor_routing state).
  - rewrite chat_agent_run.
    destruct (Hstub [] (HumanMessage (Agents.chat_system_prompt cfg)
                          :: Agents.messages state)) as (c & tc & tcs & Hllm).
    rewrite Hllm. unfold outcome at 1. cbn [fst].
    simpl Agents.messages.
    pose proof (last_AIMessage (to_langchain history ++ [HumanMessage message])
                  [] c (tc :: tcs) eq_refl) as Hlast.
    change ([AIMessage c (tc :: tcs)] ++ []) with [AIMessage c (tc :: tcs)]
      in Hlast.
    rewrite Hlast.
    eexists.
    exists [], (HumanMessage (Agents.chat_system_prompt cfg)
                  :: Agents.messages state), c, (tc :: tcs).
    split; [reflexivity|]. split; [exact Hllm | reflexivity].
  - destruct (Hstub ["create_freshdesk_ticket"]
                (HumanMessage Agents.ticket_system_prompt
                   :: Agents.messages state)) as (c & tc & tcs & Hllm).
    destruct (ticket_agent_one_round cfg w state c tc tcs Hllm)
      as (final & obs & Hfinal & Hmsgs & _ & Hall & _).
    rewrite Hfinal, Hmsgs, (last_AIMessage _ obs c (tc :: tcs) Hall).
    eexists.
    exists ["create_freshdesk_ticket"],
      (HumanMessage Agents.ticket_system_prompt :: Agents.messages state),
      c, (tc :: tcs).
    split; [reflexivity|]. split; [exact Hllm | reflexivity].
Qed.




(** ** The approval turn *)

Lemma bind_ext {A B} (m : M A) (k1 k2 : A -> M B) :
  (forall a, k1 a = k2 a) -> bind m k1 = bind m k2.
Proof.
  intros H. unfold bind. destruct m as [[a|e] t]; [now rewrite H | reflexivity].
Qed.

(** the filing tool depends on the world through the gateway only *)
Lemma create_freshdesk_ticket_world (cfg : Config) (w w' : World)
    (s d p e : string) :
  freshdesk w' = freshdesk w ->
  Agents.create_freshdesk_ticket cfg w' s d p e
  = Agents.create_freshdesk_ticket cfg w s d p e.
Proof.
  intros H. unfold Agents.create_freshdesk_ticket, ticket_request, requests_post.
  now rewrite H.
Qed.

Lemma create_ticket_directly_world (cfg : Config) (w w' : World)
    (data : gmap string PyVal) (email : string) :
  freshdesk w' = freshdesk w ->
  Agents.create_ticket_directly cfg w' data email
  = Agents.create_ticket_directly cfg w data email.
Proof.
  intros H. unfold Agents.create_ticket_directly. f_equal.
  apply bind_ext; intros subject. apply bind_ext; intros description.
  apply bind_ext; intros priority. cbv zeta. f_equal.
  unfold tool_invoke. destruct (tool_args _) as [[[[s d] p] e]|]; [|reflexivity].
  simpl tool_func. now apply create_freshdesk_ticket_world.
Qed.

Lemma create_ticket_directly_returns (cfg : Config) (w : World)
    (data : gmap string PyVal) (email : string) :
  exists r, outcome (Agents.create_ticket_directly cfg w data email) = Ret r.
Proof. apply try_except_returns. intros e. eexists. reflexivity. Qed.

Lemma create_ticket_directly_cases (cfg : Config) (w : World)
    (data : gmap string PyVal) (email : string) :
  (outcome (Agents.create_ticket_directly cfg w data email)
     = Ret Agents.error_result
   /\ trace (Agents.create_ticket_directly cfg w data email) = [])
  \/ exists s d p t,
       draft_fields data s d p
       /\ outcome (Agents.create_freshdesk_ticket cfg w s d p email) = Ret t
       /\ outcome (Agents.create_ticket_directly cfg w data email)
          = Ret (ticket_result_of t)
       /\ trace (Agents.create_ticket_directly cfg w data email)
          = filing_trace cfg s d p email.
Proof.
  change (Agents.create_ticket_directly cfg w data email)
    with (file_directly (Agents.create_freshdesk_ticket_tool cfg w)
            Agents.error_result data email).
  destruct (file_directly_cases (Agents.create_freshdesk_ticket_tool cfg w)
              Agents.error_result data email) as [H | (s & d & p & Hf)];
    [now left | right].
  destruct (file_directly_valid (Agents.create_freshdesk_ticket cfg w)
              (Agents.create_freshdesk_ticket_tool cfg w) Agents.error_result
              eq_refl (create_freshdesk_ticket_returns cfg w)
              data email s d p Hf) as (t & Ht & Hout & Htr).
  exists s, d, p, t. repeat split; try assumption; try apply Hf.
  rewrite Htr. apply create_freshdesk_ticket_trace.
Qed.

Lemma create_ticket_directly_valid (cfg : Config) (w : World)
    (data : gmap string PyVal) (email s d p : string) :
  draft_fields data s d p ->
  exists t,
    outcome (Agents.create_freshdesk_ticket cfg w s d p email) = Ret t
    /\ outcome (Agents.create_ticket_directly cfg w data email)
       = Ret (ticket_result_of t)
    /\ trace (Agents.create_ticket_directly cfg w data email)
       = filing_trace cfg s d p email.
Proof.
  intros Hf.
  change (Agents.create_ticket_directly cfg w data email)
    with (file_directly (Agents.create_freshdesk_ticket_tool cfg w)
            Agents.error_result data email).
  destruct (file_directly_valid (Agents.create_freshdesk_ticket cfg w)
              (Agents.create_freshdesk_ticket_tool cfg w) Agents.error_result
              eq_refl (create_freshdesk_ticket_returns cfg w)
              data email s d p Hf) as (t & Ht & Hout & Htr).
  exists t. split; [exact Ht|]. split; [exact Hout|].
  rewrite Htr. apply create_freshdesk_ticket_trace.
Qed.

Lemma create_ticket_directly_invalid (cfg : Config) (w : World)
    (data : gmap string PyVal) (email : string) :
  (forall s d p, ~ draft_fields data s d p) ->
  outcome (Agents.create_ticket_directly cfg w data email)
  = Ret Agents.error_result
  /\ trace (Agents.create_ticket_directly cfg w data email) = [].
Proof.
  intros Hnone.
  destruct (create_ticket_directly_cases cfg w data email)
    as [H | (s & d & p & t & Hf & _)]; [exact H|].
  now destruct (Hnone s d p).
Qed.

Lemma approve_branch (cfg : Config) (w : World) (db : Main.Store)
    (request : Main.ChatRequest) (data : gmap string PyVal) :
  Main.action request = Some "approve_ticket" ->
  Main.ticketData request = Some data -> data <> ∅ ->
  Main.chat_endpoint cfg w db request
  = Main.approve_flow cfg w db request data
      (Py.or_default (Main.userEmail request) "user@example.com").
Proof.
  intros Ha Hd Hne. unfold Main.chat_endpoint, Main.is_action, Main.truthy_dict.
  rewrite Ha, Hd. simpl String.eqb. rewrite bool_decide_eq_false_2 by exact Hne.
  reflexivity.
Qed.




(** ** An approve signal without a draft *)

Lemma normal_chat_flow_calls (cfg : Config) (w : World) (db : Main.Store)
    (request : Main.ChatRequest) (uid email : string) :
  calls_of (Main.normal_chat_flow cfg w db request uid email)
  = trace (Main.run_workflow cfg w request
             (Main.history_of db (Main.conversationId request)) uid email).
Proof.
  unfold Main.normal_chat_flow.
  destruct (Main.run_workflow _ _ _ _ _ _) as [[r|e] t]; [|reflexivity].
  destruct (wr_needsApproval r && _); [|reflexivity].
  destruct (_ !! "subject"); reflexivity.
Qed.

(** a normal turn never reports a created ticket *)
Lemma normal_chat_flow_reports_none (cfg : Config) (w : World)
    (db db' : Main.Store) (request : Main.ChatRequest) (uid email : string)
    (r : Main.ChatResponse) (calls : list Event) :
  Main.normal_chat_flow cfg w db request uid email = (Main.Respond r, db', calls) ->
  Main.ticketCreated r = false /\ Main.ticketId r = None
  /\ Main.ticketNumber r = None.
Proof.
  unfold Main.normal_chat_flow.
  destruct (Main.run_workflow _ _ _ _ _ _) as [[wr|e] t].
  - destruct (wr_needsApproval wr && _).
    + destruct (_ !! "subject").
      * intros [= <- _ _]. repeat split.
      * unfold Main.http_error. destruct (Py.str_in _ _); discriminate.
    + intros [= <- _ _]. repeat split.
  - unfold Main.http_error. destruct (Py.str_in _ _); discriminate.
Qed.

(** a gateway call during a normal turn stems from the ticket agent *)
Lemma run_workflow_gateway_origin (cfg : Config) (w : World)
    (request : Main.ChatRequest) (history : list ChatMsg) (uid email : string) :
  gateway_calls (trace (Main.run_workflow cfg w request history uid email))
    <> [] ->
  existsb (fun keyword => Py.str_in keyword (Py.lower (Main.message request)))
    Main.ticket_keywords = false
  /\ existsb (fun keyword =>
                Py.str_in keyword (Py.lower (Main.message request)))
       Agents.ticket_keywords = true
  /\ exists c tcs tc,
       llm w ["create_freshdesk_ticket"]
         (HumanMessage Agents.ticket_system_prompt
            :: to_langchain history ++ [HumanMessage (Main.message request)])
       = Ret (c, tcs)
       /\ In tc tcs /\ name tc = "create_freshdesk_ticket".
Proof.
  unfold Main.run_workflow.
  destruct (existsb _ Main.ticket_keywords).
  - intros H. exfalso. apply H. apply run_approval_workflow_trace.
  - intros H. split; [reflexivity|].
    destruct (run_multi_agent_workflow_trace cfg w (Main.message request)
                history uid (Main.conversationId request) email) as [Hnil | Heq].
    + rewrite Hnil in H. now contradiction H.
    + rewrite Heq in H.
      apply multi_agent_workflow_gateway_origin in H as [Hroute Horigin].
      split; [|exact Horigin].
      unfold Agents.supervisor_routing in Hroute. simpl Agents.messages in Hroute.
      rewrite last_snoc in Hroute. simpl content in Hroute.
      destruct (existsb _ Agents.ticket_keywords); [reflexivity | discriminate].
Qed.

(** C9, as stated, fails: the turn falls through to the normal chat flow,
    and there a message routed to the ticket agent lets the model file a
    ticket, although the response reports none. *)
Lemma approve_without_draft_can_file :
  gateway_calls
    (calls_of (Main.chat_endpoint Sample.cfg Sample.files_ticket
                 Sample.empty_store
                 (Sample.request "please escalate this"
                    (Some "approve_ticket") None)))
  = [gateway_request Sample.cfg "Printer is broken"
       "The printer on floor 2 does not print." 2 "a@b.com"]
  /\ exists r db calls,
       Main.chat_endpoint Sample.cfg Sample.files_ticket Sample.empty_store
         (Sample.request "please escalate this" (Some "approve_ticket") None)
       = (Main.Respond r, db, calls)
       /\ Main.ticketCreated r = false.
Proof.
  split; [reflexivity|].
  eexists. eexists. eexists. split; reflexivity.
Qed.

(** C9, amended.  A request whose action is the approve signal and which
    carries no draft (none, or an empty one) does not take the approval
    branch: the turn is the normal chat flow, exactly as for the same
    request without action and draft, so the direct filing step is not run
    and no error about the missing draft arises.  A response of such a turn
    reports no created ticket and no ticket id.  The gateway can be called
    in such a turn only by the ticket agent, when the model, offered
    [create_freshdesk_ticket], requests it; for a message of ASCII
    characters that is when the message carries none of the endpoint's
    keywords but one of the router's. *)
Theorem approve_without_draft_is_normal_turn
    (cfg : Config) (w : World) (db : Main.Store) (request : Main.ChatRequest)
    (Happrove : Main.action request = Some "approve_ticket")
    (Hnodraft : Main.truthy_dict (Main.ticketData request) = false) :
  let turn := Main.chat_endpoint cfg w db request in
  turn = Main.normal_chat_flow cfg w db request
           (Py.or_default (Main.userId request) "test-user")
           (Py.or_default (Main.userEmail request) "user@example.com")
  /\ turn = Main.chat_endpoint cfg w db (without_approval request)
  /\ (forall r db' calls,
        turn = (Main.Respond r, db', calls) ->
        Main.ticketCreated r = false /\ Main.ticketId r = None
        /\ Main.ticketNumber r = None)
  /\ (gateway_calls (calls_of turn) <> [] ->
      exists c tcs tc,
        llm w ["create_freshdesk_ticket"]
          (HumanMessage Agents.ticket_system_prompt
             :: to_langchain
                  (Main.history_of db (Main.conversationId request))
                ++ [HumanMessage (Main.message request)])
        = Ret (c, tcs)
        /\ In tc tcs /\ name tc = "create_freshdesk_ticket")
  /\ (is_ascii (Main.message request) = true ->
      gateway_calls (calls_of turn) <> [] ->
      existsb (fun keyword =>
                 Py.str_in keyword (Py.lower (Main.message request)))
        Main.ticket_keywords = false
      /\ existsb (fun keyword =>
                    Py.str_in keyword (Py.lower (Main.message request)))
           Agents.ticket_keywords = true).
Proof.
  cbv zeta.
  assert (Hturn :
    Main.chat_endpoint cfg w db request
    = Main.normal_chat_flow cfg w db request
        (Py.or_default (Main.userId request) "test-user")
        (Py.or_default (Main.userEmail request) "user@example.com")).
  { unfold Main.chat_endpoint, Main.is_action. rewrite Hnodraft, Happrove.
    reflexivity. }
  rewrite Hturn. split; [reflexivity|]. split; [reflexivity|].
  split; [intros r db' calls; apply normal_chat_flow_reports_none|].
  rewrite normal_chat_flow_calls.
  split; [intros Hcalled | intros _ Hcalled];
    destruct (run_workflow_gateway_origin _ _ _ _ _ _ Hcalled)
      as (Hendpoint & Hrouter & Horigin); auto.
Qed.

Lemma approve_without_draft_is_normal_turn_witness :
  Main.chat_endpoint Sample.cfg Sample.plain_reply Sample.empty_store
    (Sample.request "My VPN won't connect" (Some "approve_ticket") None)
  = Main.chat_endpoint Sample.cfg Sample.plain_reply Sample.empty_store
      (Sample.request "My VPN won't connect" None None).
Proof.
  exact (proj1 (proj2 (approve_without_draft_is_normal_turn Sample.cfg
                         Sample.plain_reply Sample.empty_store
                         (Sample.request "My VPN won't connect"
                            (Some "approve_ticket") None)
                         eq_refl eq_refl))).
Defined.

(** ** The success flag and the ticket id *)

Lemma drop_prefix_spec (p s rest : string) :
  Py.drop_prefix p s = Some rest <-> s = p +:+ rest.
Proof.
  revert s. induction p as [|a p IH]; intros s; simpl.
  - split; congruence.
  - destruct s as [|b s]; [split; discriminate|].
    destruct (Ascii.eqb_spec a b) as [->|Hne].
    + rewrite IH. split; congruence.
    + split; [discriminate | congruence].
Qed.

Lemma take_word_spec (s : string) :
  exists rest,
    s = Py.take_word s +:+ rest
    /\ all_chars Py.is_word (Py.take_word s) = true
    /\ no_word_ahead rest = true.
Proof.
  induction s as [|c s (rest & Hs & Hall & Hrest)]; simpl.
  - exists EmptyString. repeat split.
  - destruct (Py.is_word c) eqn:Hc.
    + exists rest. simpl. split; [now rewrite <- Hs|].
      split; [|exact Hrest]. unfold all_chars. simpl. now rewrite Hc.
    + exists (String c s). simpl. repeat split. now rewrite Hc.
Qed.

Lemma match_ticket_id_here_spec (s id : string) :
  Py.match_ticket_id_here s = Some id ->
  exists rest,
    s = Py.ticket_id_literal +:+ id +:+ rest
    /\ id <> EmptyString
    /\ all_chars Py.is_word id = true
    /\ no_word_ahead rest = true.
Proof.
  unfold Py.match_ticket_id_here.
  destruct (Py.drop_prefix Py.ticket_id_literal s) as [tail|] eqn:Hdrop;
    [|discriminate].
  apply drop_prefix_spec in Hdrop.
  destruct (take_word_spec tail) as (rest & Htail & Hall & Hrest).
  destruct (Py.take_word tail) as [|c word] eqn:Hword; [discriminate|].
  intros [= <-]. exists rest. repeat split; try assumption; [|discriminate].
  now rewrite Hdrop, Htail.
Qed.

(** the capture: a non-empty maximal run of word characters right after an
    occurrence of the literal *)
Lemma search_ticket_id_some (s id : string) :
  Py.search_ticket_id s = Some id ->
  exists pre rest,
    s = pre +:+ Py.ticket_id_literal +:+ id +:+ rest
    /\ id <> EmptyString
    /\ all_chars Py.is_word id = true
    /\ no_word_ahead rest = true.
Proof.
  induction s as [|c s IH]; intros H.
  - discriminate H.
  - simpl Py.search_ticket_id in H.
    destruct (Py.match_ticket_id_here (String c s)) as [w|] eqn:Hhere.
    + injection H as ->.
      destruct (match_ticket_id_here_spec _ _ Hhere) as (rest & Hs & Hrest).
      exists EmptyString, rest. split; [exact Hs | exact Hrest].
    + destruct (IH H) as (pre & rest & Hs & Hrest).
      exists (String c pre), rest. split; [|exact Hrest].
      simpl. now rewrite Hs.
Qed.

Lemma search_ticket_id_none (s : string) :
  Py.str_in Py.ticket_id_literal s = false -> Py.search_ticket_id s = None.
Proof.
  induction s as [|c s IH]; intros H.
  - reflexivity.
  - change (Py.str_in Py.ticket_id_literal (String c s))
      with (Py.startswith Py.ticket_id_literal (String c s)
            || Py.str_in Py.ticket_id_literal s) in H.
    apply orb_false_iff in H as [Hstart Hrest].
    simpl Py.search_ticket_id.
    destruct (Py.match_ticket_id_here (String c s)) as [w|] eqn:Hhere.
    + exfalso. apply match_ticket_id_here_spec in Hhere as (rest & Hs & _).
      assert (Py.startswith Py.ticket_id_literal (String c s) = true) as Ht
        by (apply startswith_spec; eauto).
      congruence.
    + now apply IH.
Qed.

(** a prefix free of the first character of the needle can be skipped *)
Lemma str_in_skip (c : ascii) (p' a b : string) :
  all_chars (fun x => negb (Ascii.eqb c x)) a = true ->
  Py.str_in (String c p') (a +:+ b) = Py.str_in (String c p') b.
Proof.
  unfold all_chars. induction a as [|x a IH]; intros H; [reflexivity|].
  simpl in H. apply andb_true_iff in H as [Hx Ha].
  cbn [String.append]. cbn [Py.str_in Py.startswith].
  apply negb_true_iff in Hx. rewrite Hx. now apply IH.
Qed.

Lemma search_ticket_id_skip (a b : string) :
  all_chars (fun x => negb (Ascii.eqb "T" x)) a = true ->
  Py.search_ticket_id (a +:+ b) = Py.search_ticket_id b.
Proof.
  unfold all_chars. induction a as [|x a IH]; intros H; [reflexivity|].
  cbn [forallb list_ascii_of_string] in H.
  apply andb_true_iff in H as [Hx Ha]. apply negb_true_iff in Hx.
  cbn [String.append]. cbn [Py.search_ticket_id].
  replace (Py.match_ticket_id_here (String x (a +:+ b))) with (@None string).
  - now apply IH.
  - unfold Py.match_ticket_id_here, Py.ticket_id_literal.
    cbn [Py.drop_prefix]. now rewrite Hx.
Qed.

Lemma string_of_uint_chars (d : Decimal.uint) :
  all_chars Py.is_digit (NilEmpty.string_of_uint d) = true.
Proof. unfold all_chars. induction d; simpl; auto. Qed.

Lemma str_of_Z_chars (n : Z) :
  all_chars (fun x => Py.is_digit x || Ascii.eqb x "-") (Py.str_of_Z n) = true.
Proof.
  assert (Hd : forall d,
    all_chars (fun x => Py.is_digit x || Ascii.eqb x "-")
      (NilEmpty.string_of_uint d) = true).
  { intros d. pose proof (string_of_uint_chars d) as H. unfold all_chars in *.
    rewrite forallb_forall in *. intros x Hx. now rewrite (H x Hx). }
  assert (Hz : forall d,
    all_chars (fun x => Py.is_digit x || Ascii.eqb x "-")
      (NilZero.string_of_uint d) = true).
  { intros d. destruct d; try apply Hd. reflexivity. }
  unfold Py.str_of_Z, NilZero.string_of_int.
  destruct (Z.to_int n) as [d|d]; [apply Hz|].
  unfold all_chars. simpl. apply Hz.
Qed.

Lemma all_chars_weaken (f g : ascii -> bool) (s : string) :
  (forall x, f x = true -> g x = true) ->
  all_chars f s = true -> all_chars g s = true.
Proof.
  unfold all_chars. rewrite !forallb_forall. intros Hfg H x Hx.
  apply Hfg, H, Hx.
Qed.

Lemma digit_or_dash_differs (c x : ascii) :
  Py.is_digit c = false -> Ascii.eqb c "-" = false ->
  Py.is_digit x || Ascii.eqb x "-" = true -> negb (Ascii.eqb c x) = true.
Proof.
  intros Hd Hm Hx. apply negb_true_iff, Ascii.eqb_neq. intros ->.
  rewrite Hd, Hm in Hx. discriminate.
Qed.

(** the flags of a failure text that embeds gateway text are those of the
    embedded text *)
Lemma embedded_text_flags (status : Z) (text : string) :
  ticket_result_of (api_error_message_text text)
  = {| tr_success := Py.str_in "✅" text;
       tr_content := api_error_message_text text;
       tr_ticketId := Py.search_ticket_id text;
       tr_ticketNumber := Py.search_ticket_id text |}
  /\ ticket_result_of (api_error_body_text status text)
     = {| tr_success := Py.str_in "✅" text;
          tr_content := api_error_body_text status text;
          tr_ticketId := Py.search_ticket_id text;
          tr_ticketNumber := Py.search_ticket_id text |}.
Proof.
  split.
  - unfold ticket_result_of, api_error_message_text. f_equal; reflexivity.
  - unfold ticket_result_of, api_error_body_text.
    assert (Hin : Py.str_in "✅" ("❌ Freshdesk API error " +:+
                     Py.str_of_Z status +:+ ": " +:+ text)
                  = Py.str_in "✅" text).
    { change (Py.str_in "✅" ("❌ Freshdesk API error " +:+
                Py.str_of_Z status +:+ ": " +:+ text))
        with (Py.str_in "✅" (Py.str_of_Z status +:+ ": " +:+ text)).
      rewrite str_in_skip; [reflexivity|].
      apply (all_chars_weaken (fun x => Py.is_digit x || Ascii.eqb x "-"));
        [intros x; apply digit_or_dash_differs; reflexivity
        | apply str_of_Z_chars]. }
    assert (Hid : Py.search_ticket_id ("❌ Freshdesk API error " +:+
                     Py.str_of_Z status +:+ ": " +:+ text)
                  = Py.search_ticket_id text).
    { change (Py.search_ticket_id ("❌ Freshdesk API error " +:+
                Py.str_of_Z status +:+ ": " +:+ text))
        with (Py.search_ticket_id (Py.str_of_Z status +:+ ": " +:+ text)).
      rewrite search_ticket_id_skip; [reflexivity|].
      apply (all_chars_weaken (fun x => Py.is_digit x || Ascii.eqb x "-"));
        [intros x; apply digit_or_dash_differs; reflexivity
        | apply str_of_Z_chars]. }
    now rewrite Hin, Hid.
Qed.

Lemma word_safe_skip (a b : string) :
  all_chars (fun x => negb (Ascii.eqb "T" x)) a = true ->
  word_safe (a +:+ b) = word_safe b.
Proof.
  unfold all_chars. induction a as [|x a IH]; intros H; [reflexivity|].
  cbn [forallb list_ascii_of_string] in H.
  apply andb_true_iff in H as [Hx Ha]. apply negb_true_iff in Hx.
  cbn [String.append]. cbn [word_safe].
  replace (Py.drop_prefix Py.ticket_id_literal (String x (a +:+ b)))
    with (@None string).
  - now apply IH.
  - unfold Py.ticket_id_literal. cbn [Py.drop_prefix]. now rewrite Hx.
Qed.

(** the texts put in front of an embedded gateway text hold no occurrence
    of the literal *)
Lemma embedded_text_safe (status : Z) (text : string) :
  word_safe text = true ->
  word_safe (api_error_message_text text) = true
  /\ word_safe (api_error_body_text status text) = true.
Proof.
  intros Hsafe. split.
  - unfold api_error_message_text.
    now rewrite word_safe_skip by reflexivity.
  - unfold api_error_body_text.
    rewrite word_safe_skip by reflexivity.
    rewrite word_safe_skip.
    + now rewrite word_safe_skip by reflexivity.
    + apply (all_chars_weaken (fun x => Py.is_digit x || Ascii.eqb x "-"));
        [intros x; apply digit_or_dash_differs; reflexivity
        | apply str_of_Z_chars].
Qed.

(** [create_ticket_with_approval] never files: whatever the draft, the
    configuration and the gateway, it answers with its apology and calls
    nothing *)
Lemma create_ticket_with_approval_fails (cfg : Config) (w : World)
    (data : gmap string PyVal) (email : string) :
  LanggraphWorkflow.create_ticket_with_approval cfg w data email
  = ret LanggraphWorkflow.error_result.
Proof.
  unfold LanggraphWorkflow.create_ticket_with_approval, dict_item.
  destruct (data !! "subject"); [|reflexivity].
  destruct (data !! "description"); [|reflexivity].
  destruct (data !! "priority"); reflexivity.
Qed.

Lemma run_multi_agent_workflow_flags (cfg : Config) (w : World)
    (message : string) (history : list ChatMsg) (uid cid email : string)
    (r : WorkflowResult) :
  outcome (Agents.run_multi_agent_workflow cfg w message history uid cid email)
    = Ret r ->
  exists final,
    outcome (Agents.multi_agent_workflow cfg w
               {| Agents.messages :=
                    to_langchain history ++ [HumanMessage message];
                  Agents.user_id := uid; Agents.conversation_id := cid;
                  Agents.user_email := email;
                  Agents.current_agent := EmptyString;
                  Agents.ticket_data := None;
                  Agents.needs_approval := false |}) = Ret final
    /\ wr_ticketCreated r
       = existsb (fun msg => Py.str_in "✅" (content msg))
           (List.filter isinstance_ToolMessage (Agents.messages final))
    /\ wr_ticketId r
       = if wr_ticketCreated r
         then Agents.first_ticket_id
                (List.filter isinstance_ToolMessage (Agents.messages final))
         else None.
Proof.
  unfold Agents.run_multi_agent_workflow.
  destruct (negb (Py.truthy (OPENAI_API_KEY cfg)) || _); [discriminate|].
  rewrite outcome_bind.
  destruct (outcome (Agents.multi_agent_workflow _ _ _)) as [final|e];
    [|discriminate].
  destruct (last _) as [final_message|]; [|discriminate].
  intros [= <-]. exists final. repeat split.
Qed.

(** C10, as stated, fails: a failure text that embeds the body of an error
    response begins with the failure marker and yet is reported as a
    created ticket with a ticket id, when that body carries the success
    marker and the pattern.  Nor does every failure text begin with the
    failure marker. *)
Lemma failure_text_reported_as_created :
  outcome (Agents.create_ticket_directly Sample.cfg Sample.misleading_gateway
             Sample.draft "user@example.com")
  = Ret {| tr_success := true;
           tr_content := "❌ Freshdesk API error 500: ✅ Ticket ID:** #77";
           tr_ticketId := Some "77";
           tr_ticketNumber := Some "77" |}
  /\ Py.startswith "❌" LanggraphWorkflow.config_text = false.
Proof. split; reflexivity. Qed.

(** C10, amended.  [create_ticket_directly]: when a field of the draft is
    missing or not a string the tool is not run and the attempt reports
    failure, no ticket id and a fixed error text; otherwise the filing tool
    returns a text, the success flag is true exactly when that text
    contains the success marker, the content is that text, and the ticket
    id is the capture of the ticket-id pattern in it.
    [create_ticket_with_approval] never gets that far: its call of the
    tool object raises, so it always reports failure with its apology and
    calls nothing.  The turn of the multi-agent workflow reports a created
    ticket exactly when some observation of the turn contains the marker,
    and a ticket id only then.  The capture is a non-empty maximal run of
    word characters right after an occurrence of the literal, and there is
    none when the literal does not occur.  Every failure text of fixed
    wording yields failure and no ticket id; a failure text that embeds
    text received from the gateway yields the flags of the embedded text.
    What is said of the capture is said for texts in which only ASCII
    characters stand at the end of the word runs that follow the
    literal. *)
Theorem ticket_result_follows_text
    (cfg : Config) (w : World) (data : gmap string PyVal) (email : string) :
  ((forall s d p, ~ draft_fields data s d p) ->
   outcome (Agents.create_ticket_directly cfg w data email)
   = Ret Agents.error_result
   /\ trace (Agents.create_ticket_directly cfg w data email) = [])
  /\ (forall s d p,
        draft_fields data s d p ->
        exists t r,
          outcome (Agents.create_freshdesk_ticket cfg w s d p email) = Ret t
          /\ outcome (Agents.create_ticket_directly cfg w data email) = Ret r
          /\ tr_success r = Py.str_in "✅" t
          /\ tr_content r = t
          /\ tr_ticketNumber r = tr_ticketId r
          /\ (word_safe t = true -> tr_ticketId r = Py.search_ticket_id t))
  /\ LanggraphWorkflow.create_ticket_with_approval cfg w data email
     = ret LanggraphWorkflow.error_result
  /\ (forall message history uid cid r,
        outcome (Agents.run_multi_agent_workflow cfg w message history
                   uid cid email) = Ret r ->
        exists final,
          outcome (Agents.multi_agent_workflow cfg w
                     {| Agents.messages :=
                          to_langchain history ++ [HumanMessage message];
                        Agents.user_id := uid; Agents.conversation_id := cid;
                        Agents.user_email := email;
                        Agents.current_agent := EmptyString;
                        Agents.ticket_data := None;
                        Agents.needs_approval := false |}) = Ret final
          /\ wr_ticketCreated r
             = existsb (fun msg => Py.str_in "✅" (content msg))
                 (List.filter isinstance_ToolMessage (Agents.messages final))
          /\ (wr_ticketCreated r = false -> wr_ticketId r = None)
          /\ (Forall (fun msg => word_safe (content msg) = true)
                 (List.filter isinstance_ToolMessage (Agents.messages final)) ->
               wr_ticketCreated r = true ->
               wr_ticketId r
               = Agents.first_ticket_id
                   (List.filter isinstance_ToolMessage
                      (Agents.messages final))))
  /\ (forall t,
        (Py.str_in "✅" t = true <->
           exists pre post, t = pre +:+ "✅" +:+ post)
        /\ (word_safe t = true ->
            forall id,
              Py.search_ticket_id t = Some id ->
              exists pre rest,
                t = pre +:+ "Ticket ID:** #" +:+ id +:+ rest
                /\ id <> EmptyString
                /\ all_chars Py.is_word id = true
                /\ no_word_ahead rest = true)
        /\ ((~ exists pre post, t = pre +:+ "Ticket ID:** #" +:+ post) ->
            Py.search_ticket_id t = None))
  /\ (forall t,
        In t fixed_failure_texts ->
        Py.str_in "✅" t = false
        /\ ~ (exists pre post, t = pre +:+ "Ticket ID:** #" +:+ post))
  /\ (tr_success Agents.error_result = false
      /\ tr_ticketId Agents.error_result = None
      /\ tr_success LanggraphWorkflow.error_result = false
      /\ tr_ticketId LanggraphWorkflow.error_result = None)
  /\ (forall status text,
        Py.str_in "✅" (api_error_message_text text) = Py.str_in "✅" text
        /\ Py.str_in "✅" (api_error_body_text status text)
           = Py.str_in "✅" text
        /\ (word_safe text = true ->
            word_safe (api_error_message_text text) = true
            /\ word_safe (api_error_body_text status text) = true
            /\ Py.search_ticket_id (api_error_message_text text)
               = Py.search_ticket_id text
            /\ Py.search_ticket_id (api_error_body_text status text)
               = Py.search_ticket_id text)).
Proof.
  split; [apply create_ticket_directly_invalid|].
  split.
  { intros s d p Hf.
    destruct (create_ticket_directly_valid cfg w data email s d p Hf)
      as (t & Ht & Hout & _).
    exists t, (ticket_result_of t). repeat split; assumption. }
  split; [apply create_ticket_with_approval_fails|].
  split.
  { intros message history uid cid r Hr.
    destruct (run_multi_agent_workflow_flags cfg w message history uid cid
                email r Hr) as (final & Hfinal & Hcreated & Hid).
    exists final. split; [exact Hfinal|]. split; [exact Hcreated|].
    split; [intros Hno | intros _ Hyes]; rewrite Hid;
      [now rewrite Hno | now rewrite Hyes]. }
  split.
  { intros t. split; [apply str_in_spec|].
    split; [intros _ id; apply search_ticket_id_some|].
    intros Hno. apply search_ticket_id_none. apply not_true_is_false.
    intros Hin. apply Hno. now apply str_in_spec. }
  split.
  { intros t Hin. cbn [In fixed_failure_texts] in Hin.
    assert (Hflags : Py.str_in "✅" t = false
                     /\ Py.str_in Py.ticket_id_literal t = false).
    { repeat (destruct Hin as [<- | Hin]; [split; reflexivity|]).
      contradiction. }
    destruct Hflags as [Hmark Hlit]. split; [exact Hmark|].
    intros Hocc. apply str_in_spec in Hocc.
    unfold Py.ticket_id_literal in Hlit. congruence. }
  split; [repeat split|].
  intros status text.
  destruct (embedded_text_flags status text) as [Hm Hb].
  apply (f_equal tr_success) in Hm as Hm1. apply (f_equal tr_ticketId) in Hm.
  apply (f_equal tr_success) in Hb as Hb1. apply (f_equal tr_ticketId) in Hb.
  cbn [ticket_result_of tr_success tr_ticketId] in Hm, Hm1, Hb, Hb1.
  split; [exact Hm1|]. split; [exact Hb1|].
  intros Hsafe.
  destruct (embedded_text_safe status text Hsafe) as [Hs1 Hs2].
  repeat split; assumption.
Qed.

Lemma ticket_result_follows_text_witness :
  exists t r,
    outcome (Agents.create_freshdesk_ticket Sample.cfg Sample.plain_reply
               "Printer is broken" "The printer on floor 2 does not print."
               "2" "user@example.com") = Ret t
    /\ outcome (Agents.create_ticket_directly Sample.cfg Sample.plain_reply
                  Sample.draft "user@example.com") = Ret r
    /\ word_safe t = true
    /\ tr_success r = true
    /\ tr_ticketId r = Some "42".
Proof.
  destruct (proj1 (proj2 (ticket_result_follows_text Sample.cfg
                            Sample.plain_reply Sample.draft
                            "user@example.com"))
              "Printer is broken" "The printer on floor 2 does not print." "2"
              (conj eq_refl (conj eq_refl eq_refl)))
    as (t & r & Ht & Hr & Hsuccess & _ & _ & Hid).
  exists t, r.
  assert (Htext :
    t = ticket_created_text "42" "Printer is broken" "Medium"
          "https://acme.freshdesk.com/a/tickets/42").
  { vm_compute in Ht. injection Ht as <-. reflexivity. }
  split; [exact Ht|]. split; [exact Hr|]. subst t.
  split; [reflexivity|]. split; [rewrite Hsuccess; reflexivity|].
  rewrite (Hid eq_refl). reflexivity.
Defined.

(** * Further properties *)

(** ** The approval workflow *)

Lemma to_langchain_no_calls (history : list ChatMsg) :
  Forall (fun m => tool_calls_of m = []) (to_langchain history).
Proof.
  induction history as [|msg rest IH]; simpl; [constructor|].
  destruct (String.eqb (msg_role msg) "user"); [now constructor|].
  destruct (String.eqb (msg_role msg) "assistant"); [now constructor | exact IH].
Qed.

Lemma find_details_no_calls (msgs rest : list Message) :
  Forall (fun m => tool_calls_of m = []) msgs ->
  ApprovalWorkflow.find_details (msgs ++ rest)
  = ApprovalWorkflow.find_details rest.
Proof.
  induction 1 as [|m msgs Hm _ IH]; [reflexivity|].
  simpl. now rewrite Hm.
Qed.

Lemma observations_no_calls (obs : list Message) :
  forallb isinstance_ToolMessage obs = true ->
  Forall (fun m => tool_calls_of m = []) obs.
Proof.
  induction obs as [|m obs IH]; intros H; [constructor|].
  simpl in H. apply andb_true_iff in H as [Hm Hobs].
  constructor; [destruct m; try discriminate; reflexivity | now apply IH].
Qed.

Lemma Forall_rev_no_calls (msgs : list Message) :
  Forall (fun m => tool_calls_of m = []) msgs ->
  Forall (fun m => tool_calls_of m = []) (rev msgs).
Proof. intros H. now apply Forall_rev. Qed.

Lemma approval_workflow_outcome (cfg : Config) (w : World)
    (state : ApprovalWorkflow.ApprovalState) (c : string) (tcs : list ToolCall) :
  llm w ["generate_ticket_details"]
    (HumanMessage (ApprovalWorkflow.approval_system_prompt cfg)
       :: ApprovalWorkflow.messages state) = Ret (c, tcs) ->
  Forall (fun m => tool_calls_of m = []) (ApprovalWorkflow.messages state) ->
  exists final,
    outcome (ApprovalWorkflow.approval_workflow cfg w state) = Ret final
    /\ last (List.filter isinstance_AIMessage (ApprovalWorkflow.messages final))
       = Some (AIMessage c tcs)
    /\ ApprovalWorkflow.approval_needed final
       = match tcs with
         | [] => true
         | tc :: _ => String.eqb (name tc) "generate_ticket_details"
         end
    /\ ApprovalWorkflow.ticket_details final
       = match tcs with
         | [] => ApprovalWorkflow.ticket_details state
         | tc :: _ =>
             if String.eqb (name tc) "generate_ticket_details"
             then Some (args tc)
             else ApprovalWorkflow.ticket_details state
         end.
Proof.
  intros Hreply Hhist. rewrite approval_workflow_run. cbv zeta.
  rewrite bind_invoke_llm, Hreply. unfold outcome at 1. cbn [fst].
  simpl tool_calls_of. destruct tcs as [|tc tcs].
  - eexists. split; [reflexivity|]. simpl ApprovalWorkflow.messages.
    pose proof (last_AIMessage (ApprovalWorkflow.messages state) [] c []
                  eq_refl) as Hlast.
    change ([AIMessage c []] ++ []) with [AIMessage c []] in Hlast.
    repeat split. exact Hlast.
  - unfold ApprovalWorkflow.generate_details. simpl ApprovalWorkflow.messages.
    rewrite ToolNode_snoc.
    destruct (outcome_run_tool_calls w ApprovalWorkflow.approval_tools
                (tc :: tcs)) as (obs & Hobs & _ & Hall).
    rewrite bind_assoc, outcome_bind, Hobs, !bind_ret.
    eexists. split; [reflexivity|].
    unfold ApprovalWorkflow.extract_ticket_data.
    simpl ApprovalWorkflow.messages.
    rewrite rev_app_distr,
      (find_details_no_calls (rev obs) _
         (Forall_rev_no_calls _ (observations_no_calls obs Hall))).
    rewrite rev_app_distr. simpl rev. simpl ApprovalWorkflow.find_details.
    assert (Hnone :
      ApprovalWorkflow.find_details (rev (ApprovalWorkflow.messages state))
      = None).
    { rewrite <- (app_nil_r (rev _)).
      rewrite find_details_no_calls; [reflexivity|].
      now apply Forall_rev_no_calls. }
    pose proof (last_AIMessage (ApprovalWorkflow.messages state) obs c
                  (tc :: tcs) Hall) as Hlast.
    rewrite app_assoc in Hlast.
    destruct (String.eqb (name tc) "generate_ticket_details").
    + repeat split. exact Hlast.
    + rewrite Hnone. repeat split. exact Hlast.
Qed.

Lemma run_approval_workflow_outcome
    (cfg : Config) (w : World) (message : string) (history : list ChatMsg)
    (uid cid email c : string) (tcs : list ToolCall)
    (Hreply :
       llm w ["generate_ticket_details"]
         (HumanMessage (ApprovalWorkflow.approval_system_prompt cfg)
            :: to_langchain history ++ [HumanMessage message])
       = Ret (c, tcs)) :
  outcome (ApprovalWorkflow.run_approval_workflow cfg w message history
             uid cid email)
  = Ret
      match tcs with
      | [] =>
          {| wr_content := c; wr_needsApproval := true;
             wr_ticketDetails := None;
             wr_toolsUsed := ["generate_ticket_details"];
             wr_issueType := "ticket_approval";
             wr_ticketCreated := false; wr_ticketId := None |}
      | tc :: _ =>
          if String.eqb (name tc) "generate_ticket_details"
          then {| wr_content := c; wr_needsApproval := true;
                  wr_ticketDetails := Some (args tc);
                  wr_toolsUsed := ["generate_ticket_details"];
                  wr_issueType := "ticket_approval";
                  wr_ticketCreated := false; wr_ticketId := None |}
          else {| wr_content := c; wr_needsApproval := false;
                  wr_ticketDetails := None;
                  wr_toolsUsed := [];
                  wr_issueType := "ticket_approval";
                  wr_ticketCreated := false; wr_ticketId := None |}
      end.
Proof.
  unfold ApprovalWorkflow.run_approval_workflow.
  set (state := {| ApprovalWorkflow.messages := _ |}).
  assert (Hhist : Forall (fun m => tool_calls_of m = [])
                    (ApprovalWorkflow.messages state)).
  { apply Forall_app. split; [apply to_langchain_no_calls|].
    now repeat constructor. }
  destruct (approval_workflow_outcome cfg w state c tcs Hreply Hhist)
    as (final & Hfinal & Hlast & Hneeded & Hdetails).
  rewrite outcome_bind, Hfinal, Hlast, Hneeded, Hdetails.
  destruct tcs as [|tc tcs]; [reflexivity|].
  destruct (String.eqb (name tc) "generate_ticket_details"); reflexivity.
Qed.



(** ** The shape of a turn *)

Lemma lookup_nonempty (d : gmap string PyVal) (k : string) (v : PyVal) :
  d !! k = Some v -> d <> ∅.
Proof. intros H ->. now rewrite lookup_empty in H. Qed.

Lemma truthy_dict_spec (o : option (gmap string PyVal)) :
  Main.truthy_dict o = true <-> exists d, o = Some d /\ d <> ∅.
Proof.
  unfold Main.truthy_dict. destruct o as [d|].
  - rewrite negb_true_iff, bool_decide_eq_false. split.
    + intros H. now exists d.
    + now intros (d' & [= <-] & H).
  - split; [discriminate | now intros (d & H & _)].
Qed.

Lemma is_action_spec (request : Main.ChatRequest) (a : string) :
  Main.is_action request a = true <-> Main.action request = Some a.
Proof.
  unfold Main.is_action. destruct (Main.action request) as [a'|].
  - rewrite String.eqb_eq. split; congruence.
  - split; discriminate.
Qed.

(** the approval branch always responds *)
Lemma approve_flow_responds (cfg : Config) (w : World) (db : Main.Store)
    (request : Main.ChatRequest) (data : gmap string PyVal) (email : string) :
  exists result,
    outcome (Agents.create_ticket_directly cfg w data email) = Ret result
    /\ Main.approve_flow cfg w db request data email
       = (Main.Respond
            {| Main.success := true;
               Main.resp_content := tr_content result;
               Main.resp_conversationId := Main.conversationId request;
               Main.needsApproval := false; Main.ticketSummary := None;
               Main.interactiveButtons := None;
               Main.ticketCreated := tr_success result;
               Main.ticketId := tr_ticketId result;
               Main.ticketNumber := tr_ticketNumber result |},
          Main.append_messages db (Main.conversationId request)
            [{| Main.role := "assistant";
                Main.stored_content := tr_content result;
                Main.stored_ticketId := tr_ticketId result;
                Main.stored_ticketNumber := tr_ticketNumber result |}],
          trace (Agents.create_ticket_directly cfg w data email)).
Proof.
  destruct (create_ticket_directly_returns cfg w data email) as [result Hr].
  exists result. split; [exact Hr|]. unfold Main.approve_flow.
  unfold outcome in Hr.
  destruct (Agents.create_ticket_directly cfg w data email) as [o t].
  simpl in Hr. subst o. reflexivity.
Qed.

(** a turn takes exactly one of the three branches *)
Lemma chat_endpoint_cases (cfg : Config) (w : World) (db : Main.Store)
    (request : Main.ChatRequest) :
  (exists data,
     Main.action request = Some "approve_ticket"
     /\ Main.ticketData request = Some data /\ data <> ∅
     /\ Main.chat_endpoint cfg w db request
        = Main.approve_flow cfg w db request data
            (Py.or_default (Main.userEmail request) "user@example.com"))
  \/ (Main.action request = Some "decline_ticket"
      /\ Main.chat_endpoint cfg w db request = Main.decline_flow db request)
  \/ (Main.is_action request "approve_ticket"
      && Main.truthy_dict (Main.ticketData request) = false
      /\ Main.is_action request "decline_ticket" = false
      /\ Main.chat_endpoint cfg w db request
         = Main.normal_chat_flow cfg w db request
             (Py.or_default (Main.userId request) "test-user")
             (Py.or_default (Main.userEmail request) "user@example.com")).
Proof.
  unfold Main.chat_endpoint.
  destruct (Main.is_action request "approve_ticket"
            && Main.truthy_dict (Main.ticketData request)) eqn:Happrove.
  - left. apply andb_true_iff in Happrove as [Ha Hd].
    apply is_action_spec in Ha. apply truthy_dict_spec in Hd as (d & Hd & Hne).
    exists d. rewrite Hd. repeat split; assumption.
  - destruct (Main.is_action request "decline_ticket") eqn:Hdecline.
    + right. left. apply is_action_spec in Hdecline. split; [assumption|].
      reflexivity.
    + right. right. repeat split.
Qed.

Lemma run_multi_agent_never_asks (cfg : Config) (w : World)
    (message : string) (history : list ChatMsg) (uid cid email : string)
    (r : WorkflowResult) :
  outcome (Agents.run_multi_agent_workflow cfg w message history uid cid email)
    = Ret r ->
  wr_needsApproval r = false.
Proof.
  unfold Agents.run_multi_agent_workflow.
  destruct (negb (Py.truthy (OPENAI_API_KEY cfg)) || _); [discriminate|].
  rewrite outcome_bind.
  destruct (outcome (Agents.multi_agent_workflow _ _ _)); [|discriminate].
  destruct (last _); [|discriminate]. now intros [= <-].
Qed.

(** the ways a normal turn can end *)
Lemma normal_chat_flow_cases (cfg : Config) (w : World) (db : Main.Store)
    (request : Main.ChatRequest) (uid email : string) :
  let run :=
    Main.run_workflow cfg w request
      (Main.history_of db (Main.conversationId request)) uid email in
  let turn := Main.normal_chat_flow cfg w db request uid email in
  (exists error,
     outcome run = Raise error
     /\ turn = (Main.http_error error, db, trace run))
  \/ exists wr,
       outcome run = Ret wr
       /\ store_of turn = stored_turn db request uid (wr_content wr)
       /\ calls_of turn = trace run
       /\ ((wr_needsApproval wr && Main.truthy_dict (wr_ticketDetails wr)
            = false
            /\ result_of turn
               = Main.Respond (Main.plain_response request (wr_content wr)))
           \/ (exists details,
                 wr_needsApproval wr = true
                 /\ wr_ticketDetails wr = Some details /\ details <> ∅
                 /\ ((details !! "subject" = None
                      /\ result_of turn
                         = Main.http_error (mkExn OtherException "'subject'"))
                     \/ exists subject,
                          details !! "subject" = Some subject
                          /\ result_of turn
                             = Main.Respond
                                 {| Main.success := true;
                                    Main.resp_content := wr_content wr;
                                    Main.resp_conversationId :=
                                      Main.conversationId request;
                                    Main.needsApproval := true;
                                    Main.ticketSummary := Some subject;
                                    Main.interactiveButtons :=
                                      Some {| Main.approve_data := details |};
                                    Main.ticketCreated := false;
                                    Main.ticketId := None;
                                    Main.ticketNumber := None |}))).
Proof.
  cbv zeta. unfold Main.normal_chat_flow, outcome, trace.
  destruct (Main.run_workflow _ _ _ _ _ _) as [[wr|error] calls]; cbn [fst snd].
  - right. exists wr. split; [reflexivity|].
    destruct (wr_needsApproval wr && Main.truthy_dict (wr_ticketDetails wr))
      eqn:Hask.
    + apply andb_true_iff in Hask as [Hn Hd].
      apply truthy_dict_spec in Hd as (details & Hd & Hne).
      rewrite Hd. change (default ∅ (Some details)) with details.
      destruct (details !! "subject") as [subject|] eqn:Hs.
      * split; [reflexivity|]. split; [reflexivity|].
        right. exists details.
        split; [assumption|]. split; [reflexivity|]. split; [assumption|].
        right. exists subject. split; [assumption | reflexivity].
      * split; [reflexivity|]. split; [reflexivity|].
        right. exists details.
        split; [assumption|]. split; [reflexivity|]. split; [assumption|].
        left. split; [assumption | reflexivity].
    + split; [reflexivity|]. split; [reflexivity|].
      left. split; reflexivity.
  - left. exists error. split; reflexivity.
Qed.

Lemma http_error_not_respond (error : Exn) (r : Main.ChatResponse) :
  Main.http_error error <> Main.Respond r.
Proof. destruct (http_error_status error) as [-> | ->]; discriminate. Qed.

Lemma run_workflow_asks_only_after_draft (cfg : Config) (w : World)
    (request : Main.ChatRequest) (history : list ChatMsg) (uid email : string)
    (wr : WorkflowResult) :
  outcome (Main.run_workflow cfg w request history uid email) = Ret wr ->
  wr_needsApproval wr = true ->
  gateway_calls (trace (Main.run_workflow cfg w request history uid email)) = []
  /\ llm_calls (trace (Main.run_workflow cfg w request history uid email)) = 1.
Proof.
  unfold Main.run_workflow. destruct (existsb _ Main.ticket_keywords).
  - intros _ _. apply run_approval_workflow_trace.
  - intros Hout Hask. apply run_multi_agent_never_asks in Hout. congruence.
Qed.

(** ** The approval prompt *)



(** X3.  Whenever a response carries the approval prompt, it also carries
    the awaiting-approval flag and the subject of the payload as summary,
    it reports no ticket, and the turn has not called the gateway; and the
    payload is never empty, so a later request that sends it back with the
    approve action is always handled by the approval branch, whatever the
    store, the configuration and the model are by then. *)
Theorem offered_draft_is_accepted
    (cfg : Config) (w : World) (db : Main.Store) (request : Main.ChatRequest)
    (r : Main.ChatResponse) (buttons : Main.InteractiveButtons)
    (Hturn : result_of (Main.chat_endpoint cfg w db request) = Main.Respond r)
    (Hbuttons : Main.interactiveButtons r = Some buttons) :
  Main.needsApproval r = true
  /\ Main.ticketCreated r = false
  /\ Main.ticketSummary r = Main.approve_data buttons !! "subject"
  /\ is_Some (Main.ticketSummary r)
  /\ gateway_calls (calls_of (Main.chat_endpoint cfg w db request)) = []
  /\ forall cfg' w' db' request',
       Main.action request' = Some "approve_ticket" ->
       Main.ticketData request' = Some (Main.approve_data buttons) ->
       Main.chat_endpoint cfg' w' db' request'
       = Main.approve_flow cfg' w' db' request' (Main.approve_data buttons)
           (Py.or_default (Main.userEmail request') "user@example.com").
Proof.
  destruct (chat_endpoint_cases cfg w db request)
    as [(data & _ & _ & _ & Heq) | [[_ Heq] | (_ & _ & Heq)]];
    rewrite Heq in *.
  - destruct (approve_flow_responds cfg w db request data
                (Py.or_default (Main.userEmail request) "user@example.com"))
      as (result & _ & Hflow).
    rewrite Hflow in Hturn. injection Hturn as <-. discriminate Hbuttons.
  - injection Hturn as <-. discriminate Hbuttons.
  - destruct (normal_chat_flow_cases cfg w db request
                (Py.or_default (Main.userId request) "test-user")
                (Py.or_default (Main.userEmail request) "user@example.com"))
      as [(error & _ & Hfail)
         | (wr & Hwr & _ & Hcalls & Hresult)]; cbv zeta in *.
    + rewrite Hfail in Hturn. now apply http_error_not_respond in Hturn.
    + destruct Hresult as [[_ Hres] | (details & Hask & _ & Hne & Hres)].
      * rewrite Hres in Hturn. injection Hturn as <-. discriminate Hbuttons.
      * destruct Hres as [[_ Hres] | (subject & Hs & Hres)];
          rewrite Hres in Hturn;
          [now apply http_error_not_respond in Hturn|].
        injection Hturn as <-. injection Hbuttons as <-.
        cbn [Main.needsApproval Main.ticketCreated Main.ticketSummary
             Main.approve_data].
        split; [reflexivity|]. split; [reflexivity|].
        split; [now rewrite Hs|]. split; [eauto|]. split.
        { rewrite Hcalls.
          apply (run_workflow_asks_only_after_draft _ _ _ _ _ _ wr Hwr Hask). }
        intros cfg' w' db' request' Ha Hd.
        apply approve_branch; assumption.
Qed.

Lemma offered_draft_is_accepted_witness :
  gateway_calls
    (calls_of (Main.chat_endpoint Sample.cfg Scenario.drafts Sample.empty_store
                 (Sample.request "yes, create a ticket" None None))) = []
  /\ Main.chat_endpoint Sample.cfg Sample.plain_reply Sample.empty_store
       (Sample.request "ok" (Some "approve_ticket") (Some Sample.draft))
     = Main.approve_flow Sample.cfg Sample.plain_reply Sample.empty_store
         (Sample.request "ok" (Some "approve_ticket") (Some Sample.draft))
         Sample.draft "user@example.com".
Proof.
  destruct (offered_draft_is_accepted Sample.cfg Scenario.drafts
              Sample.empty_store
              (Sample.request "yes, create a ticket" None None)
              _ {| Main.approve_data := Sample.draft |} eq_refl eq_refl)
    as (_ & _ & _ & _ & Hcalls & Haccept).
  split; [exact Hcalls|].
  exact (Haccept Sample.cfg Sample.plain_reply Sample.empty_store
           (Sample.request "ok" (Some "approve_ticket") (Some Sample.draft))
           eq_refl eq_refl).
Defined.

(** ** The store across a turn *)

Lemma get_messages_append (db : Main.Store) (cid : string)
    (new : list Main.StoredMessage) :
  Main.get_conversation_messages (Main.append_messages db cid new) cid
  = Main.get_conversation_messages db cid ++ new.
Proof.
  unfold Main.get_conversation_messages, Main.append_messages.
  cbn [Main.messages_db]. now rewrite lookup_insert_eq.
Qed.

Lemma get_messages_stored_turn (db : Main.Store) (request : Main.ChatRequest)
    (uid reply : string) :
  Main.get_conversation_messages (stored_turn db request uid reply)
    (Main.conversationId request)
  = Main.get_conversation_messages db (Main.conversationId request)
    ++ [stored "user" (Main.message request); stored "assistant" reply].
Proof. unfold stored_turn. apply get_messages_append. Qed.

(** how a turn leaves the store, in terms of the response *)
Lemma turn_store_cases (cfg : Config) (w : World) (db : Main.Store)
    (request : Main.ChatRequest) :
  let turn := Main.chat_endpoint cfg w db request in
  (store_of turn = db
   /\ forall r, result_of turn <> Main.Respond r)
  \/ (exists m r,
        result_of turn = Main.Respond r
        /\ m = {| Main.role := "assistant";
                  Main.stored_content := Main.resp_content r;
                  Main.stored_ticketId := Main.ticketId r;
                  Main.stored_ticketNumber := Main.ticketNumber r |}
        /\ store_of turn
           = Main.append_messages db (Main.conversationId request) [m])
  \/ (exists reply,
        store_of turn
        = stored_turn db request
            (Py.or_default (Main.userId request) "test-user") reply
        /\ forall r, result_of turn = Main.Respond r ->
                     Main.resp_content r = reply
                     /\ Main.ticketId r = None
                     /\ Main.ticketNumber r = None).
Proof.
  cbv zeta.
  destruct (chat_endpoint_cases cfg w db request)
    as [(data & _ & _ & _ & Heq) | [[_ Heq] | (_ & _ & Heq)]]; rewrite Heq.
  - destruct (approve_flow_responds cfg w db request data
                (Py.or_default (Main.userEmail request) "user@example.com"))
      as (result & _ & ->).
    right. left. eexists. eexists. repeat split.
  - right. left. eexists. eexists. repeat split.
  - destruct (normal_chat_flow_cases cfg w db request
                (Py.or_default (Main.userId request) "test-user")
                (Py.or_default (Main.userEmail request) "user@example.com"))
      as [(error & _ & ->) | (wr & _ & Hstore & _ & Hresult)]; cbv zeta in *.
    + left. split; [reflexivity|]. intros r. apply http_error_not_respond.
    + right. right. exists (wr_content wr). split; [exact Hstore|].
      intros r Hr. rewrite Hr in Hresult.
      destruct Hresult as [[_ [= ->]] | (details & _ & _ & _ & Hres)];
        [repeat split|].
      destruct Hres as [[_ Hres] | (subject & _ & [= ->])];
        [|repeat split].
      symmetry in Hres. now apply http_error_not_respond in Hres.
Qed.

(** X4.  A turn touches nothing but its own conversation: the messages and
    the metadata stored for every other conversation id are the same
    after the turn as before, whatever branch the turn takes. *)
Theorem turn_leaves_other_conversations
    (cfg : Config) (w : World) (db : Main.Store) (request : Main.ChatRequest)
    (other : string) (Hother : other <> Main.conversationId request) :
  let db' := store_of (Main.chat_endpoint cfg w db request) in
  Main.messages_db db' !! other = Main.messages_db db !! other
  /\ Main.conversations_db db' !! other = Main.conversations_db db !! other
  /\ Main.get_conversation_messages db' other
     = Main.get_conversation_messages db other
  /\ Main.get_conversation db' other = Main.get_conversation db other.
Proof.
  cbv zeta.
  assert (H :
    Main.messages_db (store_of (Main.chat_endpoint cfg w db request)) !! other
    = Main.messages_db db !! other
    /\ Main.conversations_db (store_of (Main.chat_endpoint cfg w db request))
         !! other
       = Main.conversations_db db !! other).
  { destruct (turn_store_cases cfg w db request)
      as [[-> _] | [(m & r & _ & _ & ->) | (reply & -> & _)]].
    - split; reflexivity.
    - unfold Main.append_messages. cbn [Main.messages_db Main.conversations_db].
      now rewrite lookup_insert_ne by congruence.
    - unfold stored_turn, Main.set_conversation, Main.append_messages.
      cbn [Main.messages_db Main.conversations_db].
      now rewrite !lookup_insert_ne by congruence. }
  destruct H as [Hm Hc]. repeat split; try assumption.
  - unfold Main.get_conversation_messages. now rewrite Hm.
  - unfold Main.get_conversation. now rewrite Hc.
Qed.

Lemma turn_leaves_other_conversations_witness :
  Main.get_conversation_messages
    (store_of (Main.chat_endpoint Sample.cfg Sample.plain_reply
                 Sample.empty_store
                 (Sample.request "My VPN won't connect" None None)))
    "conv-2"
  = Main.get_conversation_messages Sample.empty_store "conv-2".
Proof.
  assert (Hne : "conv-2" <> "conv-1") by discriminate.
  exact (proj1 (proj2 (proj2 (turn_leaves_other_conversations Sample.cfg
                                Sample.plain_reply Sample.empty_store
                                (Sample.request "My VPN won't connect"
                                   None None)
                                "conv-2" Hne)))).
Defined.

(** X5.  The stored history of the conversation only grows: after a turn
    it is the history before, followed by nothing (the workflow raised), by
    one assistant message (approval or decline) or by the user message and
    one assistant message (normal turn).  Whenever the turn responds, the
    last stored message is the assistant message with the text and the
    ticket id of the response. *)
Theorem turn_appends_to_history
    (cfg : Config) (w : World) (db : Main.Store) (request : Main.ChatRequest) :
  let turn := Main.chat_endpoint cfg w db request in
  let before :=
    Main.get_conversation_messages db (Main.conversationId request) in
  let after :=
    Main.get_conversation_messages (store_of turn)
      (Main.conversationId request) in
  (exists new,
     after = before ++ new
     /\ (new = []
         \/ (exists m, new = [m] /\ Main.role m = "assistant")
         \/ exists reply,
              new = [stored "user" (Main.message request);
                     stored "assistant" reply]))
  /\ forall r,
       result_of turn = Main.Respond r ->
       exists earlier,
         after
         = earlier ++ [{| Main.role := "assistant";
                          Main.stored_content := Main.resp_content r;
                          Main.stored_ticketId := Main.ticketId r;
                          Main.stored_ticketNumber := Main.ticketNumber r |}].
Proof.
  cbv zeta.
  destruct (turn_store_cases cfg w db request)
    as [[Hstore Hnone] | [(m & r0 & Hr0 & Hm & Hstore)
                         | (reply & Hstore & Hreply)]];
    cbv zeta in *; rewrite Hstore.
  - split.
    + exists []. rewrite app_nil_r. split; [reflexivity | now left].
    + intros r Hr. now apply Hnone in Hr.
  - rewrite get_messages_append. split.
    + exists [m]. split; [reflexivity|]. right. left. exists m.
      split; [reflexivity | now rewrite Hm].
    + intros r Hr. rewrite Hr0 in Hr. injection Hr as <-.
      eexists. now rewrite Hm.
  - rewrite get_messages_stored_turn. split.
    + eexists. split; [reflexivity|]. right. right. now exists reply.
    + intros r Hr. destruct (Hreply r Hr) as (Hc & Hid & Hnum).
      exists (Main.get_conversation_messages db (Main.conversationId request)
              ++ [stored "user" (Main.message request)]).
      rewrite <- app_assoc. cbn [app]. unfold stored.
      now rewrite Hc, Hid, Hnum.
Qed.

Lemma turn_appends_to_history_witness :
  exists earlier,
    Main.get_conversation_messages
      (store_of (Main.chat_endpoint Sample.cfg Sample.plain_reply
                   Sample.empty_store
                   (Sample.request "My VPN won't connect" None None)))
      "conv-1"
    = earlier ++ [stored "assistant" "Have you tried restarting the VPN client?"].
Proof.
  exact (proj2 (turn_appends_to_history Sample.cfg Sample.plain_reply
                  Sample.empty_store
                  (Sample.request "My VPN won't connect" None None))
           _ eq_refl).
Defined.

Lemma to_langchain_app (a b : list ChatMsg) :
  to_langchain (a ++ b) = to_langchain a ++ to_langchain b.
Proof.
  induction a as [|msg a IH]; [reflexivity|]. simpl.
  destruct (String.eqb (msg_role msg) "user"); [now rewrite IH|].
  destruct (String.eqb (msg_role msg) "assistant"); [now rewrite IH | exact IH].
Qed.

Lemma history_of_messages (db : Main.Store) (cid : string) :
  Main.history_of db cid
  = map (fun msg => {| msg_role := Main.role msg;
                       msg_content := Main.stored_content msg |})
      (Main.get_conversation_messages db cid).
Proof. reflexivity. Qed.

(** X6.  What a responding turn stores is what the model is shown next:
    the converted history of the conversation after the turn is the
    converted history before it, followed by the user message (in a normal
    turn) and by one assistant message with the text of the response and
    no tool calls.  Requested calls and observations of the turn are not
    kept. *)
Theorem stored_turn_is_next_history
    (cfg : Config) (w : World) (db : Main.Store) (request : Main.ChatRequest)
    (r : Main.ChatResponse)
    (Hresponds : result_of (Main.chat_endpoint cfg w db request)
                 = Main.Respond r) :
  let before :=
    to_langchain (Main.history_of db (Main.conversationId request)) in
  let after :=
    to_langchain
      (Main.history_of (store_of (Main.chat_endpoint cfg w db request))
         (Main.conversationId request)) in
  (after = before ++ [AIMessage (Main.resp_content r) []]
   /\ (Main.action request = Some "approve_ticket"
       \/ Main.action request = Some "decline_ticket"))
  \/ (after = before ++ [HumanMessage (Main.message request);
                         AIMessage (Main.resp_content r) []]
      /\ Main.is_action request "decline_ticket" = false).
Proof.
  cbv zeta. rewrite !history_of_messages.
  destruct (chat_endpoint_cases cfg w db request)
    as [(data & Ha & _ & _ & Heq) | [[Ha Heq] | (_ & Hnd & Heq)]];
    rewrite Heq in *.
  - destruct (approve_flow_responds cfg w db request data
                (Py.or_default (Main.userEmail request) "user@example.com"))
      as (result & _ & Hflow).
    rewrite Hflow in *. injection Hresponds as <-.
    left. split; [|now left].
    unfold store_of. cbn [fst snd].
    now rewrite get_messages_append, map_app, to_langchain_app.
  - injection Hresponds as <-. left. split; [|now right].
    unfold Main.decline_flow, store_of. cbn [fst snd].
    now rewrite get_messages_append, map_app, to_langchain_app.
  - right. split; [|exact Hnd].
    destruct (normal_chat_flow_cases cfg w db request
                (Py.or_default (Main.userId request) "test-user")
                (Py.or_default (Main.userEmail request) "user@example.com"))
      as [(error & _ & Hfail) | (wr & _ & Hstore & _ & Hresult)];
      cbv zeta in *.
    + rewrite Hfail in Hresponds. now apply http_error_not_respond in Hresponds.
    + rewrite Hstore, get_messages_stored_turn, map_app, to_langchain_app.
      assert (Hc : Main.resp_content r = wr_content wr).
      { rewrite Hresponds in Hresult.
        destruct Hresult as [[_ [= ->]] | (details & _ & _ & _ & Hres)];
          [reflexivity|].
        destruct Hres as [[_ Hres] | (subject & _ & [= ->])]; [|reflexivity].
        symmetry in Hres. now apply http_error_not_respond in Hres. }
      now rewrite Hc.
Qed.

Lemma stored_turn_is_next_history_witness :
  to_langchain
    (Main.history_of
       (store_of (Main.chat_endpoint Sample.cfg Sample.files_ticket
                    Sample.empty_store
                    (Sample.request "please escalate this" None None)))
       "conv-1")
  = [HumanMessage "please escalate this"; AIMessage "Creating the ticket." []].
Proof.
  destruct (stored_turn_is_next_history Sample.cfg Sample.files_ticket
              Sample.empty_store
              (Sample.request "please escalate this" None None) _ eq_refl)
    as [[_ [H | H]] | [H _]]; [discriminate H | discriminate H | exact H].
Defined.

(** ** Invariants of the store *)

Lemma paired_app (a b : list Main.StoredMessage) :
  paired a -> paired b -> paired (a ++ b).
Proof.
  intros Ha Hb. induction Ha as [|m rest Hm _ IH|u x rest Hu Hx _ IH].
  - exact Hb.
  - simpl. now apply paired_assistant.
  - simpl. now apply paired_turn.
Qed.

Lemma paired_roles (msgs : list Main.StoredMessage) :
  paired msgs ->
  Forall (fun m => Main.role m = "user" \/ Main.role m = "assistant") msgs.
Proof.
  induction 1 as [|m rest Hm _ IH|u x rest Hu Hx _ IH].
  - constructor.
  - constructor; [now right | exact IH].
  - constructor; [now left|]. constructor; [now right | exact IH].
Qed.

Lemma store_ok_append (db : Main.Store) (cid : string)
    (new : list Main.StoredMessage) :
  store_ok db -> new <> [] -> paired new ->
  store_ok (Main.append_messages db cid new).
Proof.
  intros Hok Hne Hnew cid' msgs. unfold Main.append_messages.
  cbn [Main.messages_db]. destruct (decide (cid = cid')) as [<- | Hdiff].
  - rewrite lookup_insert_eq. intros [= <-]. split.
    + intros H. apply app_eq_nil in H as [_ H]. contradiction.
    + apply paired_app; [|exact Hnew].
      destruct (Main.messages_db db !! cid) as [old|] eqn:Hold.
      * apply (Hok cid old Hold).
      * constructor.
  - rewrite lookup_insert_ne by exact Hdiff. apply Hok.
Qed.

Lemma store_ok_step (db db' : Main.Store) :
  step db db' -> store_ok db -> store_ok db'.
Proof.
  intros Hstep Hok. destruct Hstep as [cfg w db request | db cid].
  - destruct (turn_store_cases cfg w db request)
      as [[-> _] | [(m & r & _ & -> & ->) | (reply & -> & _)]].
    + exact Hok.
    + apply store_ok_append; [exact Hok | discriminate |].
      now repeat constructor.
    + unfold stored_turn.
      assert (Happ : store_ok
                (Main.append_messages db (Main.conversationId request)
                   [stored "user" (Main.message request);
                    stored "assistant" reply])).
      { apply store_ok_append; [exact Hok | discriminate |].
        now repeat constructor. }
      exact Happ.
  - exact Hok.
Qed.

(** X7.  In every store the backend can reach from the empty one by chat
    turns and conversation creations, each stored history is non-empty and
    is made of assistant messages and of user messages that are each
    directly followed by an assistant message; so every stored role is
    "user" or "assistant" and the conversion for the model drops
    nothing. *)
Theorem reachable_store_is_paired (db : Main.Store) (Hreach : reachable db) :
  store_ok db
  /\ forall cid,
       paired (Main.get_conversation_messages db cid)
       /\ length (to_langchain (Main.history_of db cid))
          = length (Main.get_conversation_messages db cid).
Proof.
  assert (Hok : store_ok db).
  { induction Hreach as [|db db' _ IH Hstep].
    - intros cid msgs H. cbn [Main.messages_db] in H.
      now rewrite lookup_empty in H.
    - now apply (store_ok_step db db'). }
  split; [exact Hok|]. intros cid.
  assert (Hp : paired (Main.get_conversation_messages db cid)).
  { unfold Main.get_conversation_messages.
    destruct (Main.messages_db db !! cid) as [msgs|] eqn:H;
      [apply (Hok cid msgs H) | constructor]. }
  split; [exact Hp|]. rewrite history_of_messages.
  apply paired_roles in Hp.
  induction Hp as [|m msgs Hm _ IH]; [reflexivity|].
  simpl. destruct Hm as [-> | ->]; simpl; now rewrite IH.
Qed.

Lemma reachable_store_is_paired_witness :
  paired
    (Main.get_conversation_messages
       (store_of (Main.chat_endpoint Sample.cfg Sample.plain_reply
                    Sample.empty_store
                    (Sample.request "My VPN won't connect" None None)))
       "conv-1").
Proof.
  assert (Hreach :
    reachable
      (store_of (Main.chat_endpoint Sample.cfg Sample.plain_reply
                   Sample.empty_store
                   (Sample.request "My VPN won't connect" None None)))).
  { apply (reachable_step Sample.empty_store).
    - exact reachable_start.
    - apply step_chat. }
  exact (proj1 (proj2 (reachable_store_is_paired _ Hreach) "conv-1")).
Defined.

(** ** Calls and flags of a turn *)

Lemma run_workflow_llm_calls (cfg : Config) (w : World)
    (request : Main.ChatRequest) (history : list ChatMsg) (uid email : string) :
  llm_calls (trace (Main.run_workflow cfg w request history uid email)) <= 1.
Proof.
  unfold Main.run_workflow. destruct (existsb _ Main.ticket_keywords).
  - now rewrite (proj2 (run_approval_workflow_trace _ _ _ _ _ _ _)).
  - destruct (run_multi_agent_workflow_trace cfg w (Main.message request)
                history uid (Main.conversationId request) email) as [-> | ->].
    + unfold llm_calls. simpl. lia.
    + now rewrite multi_agent_workflow_llm_calls.
Qed.

Lemma create_ticket_directly_calls (cfg : Config) (w : World)
    (data : gmap string PyVal) (email : string) :
  llm_calls (trace (Agents.create_ticket_directly cfg w data email)) = 0
  /\ length (gateway_calls
               (trace (Agents.create_ticket_directly cfg w data email))) <= 1.
Proof.
  destruct (create_ticket_directly_cases cfg w data email)
    as [[_ ->] | (s & d & p & t & _ & _ & _ & ->)];
    [split; unfold llm_calls; simpl; lia|].
  split; [apply filing_trace_no_llm|].
  destruct (filing_trace_cases cfg s d p email) as [-> | [n [_ ->]]];
    simpl; lia.
Qed.

(** X8.  No turn calls the model more than once: an approval turn and a
    decline turn do not call it at all, and a normal turn calls it at most
    once, whatever the model requests in its reply. *)
Theorem one_model_call_per_turn
    (cfg : Config) (w : World) (db : Main.Store) (request : Main.ChatRequest) :
  llm_calls (calls_of (Main.chat_endpoint cfg w db request)) <= 1
  /\ (Main.is_action request "approve_ticket"
      && Main.truthy_dict (Main.ticketData request)
      || Main.is_action request "decline_ticket" = true ->
      llm_calls (calls_of (Main.chat_endpoint cfg w db request)) = 0).
Proof.
  destruct (chat_endpoint_cases cfg w db request)
    as [(data & _ & _ & _ & Heq) | [[_ Heq] | (Hna & Hnd & Heq)]];
    rewrite Heq.
  - destruct (approve_flow_responds cfg w db request data
                (Py.or_default (Main.userEmail request) "user@example.com"))
      as (result & _ & ->).
    unfold calls_of. cbn [snd].
    rewrite (proj1 (create_ticket_directly_calls _ _ _ _)). split; [lia | auto].
  - split; [unfold calls_of, llm_calls; simpl; lia | reflexivity].
  - rewrite normal_chat_flow_calls. split; [apply run_workflow_llm_calls|].
    rewrite Hna, Hnd. discriminate.
Qed.

Lemma one_model_call_per_turn_witness :
  llm_calls
    (calls_of (Main.chat_endpoint Sample.cfg Sample.files_ticket
                 Sample.empty_store
                 (Sample.request "no thanks" (Some "decline_ticket") None)))
  = 0.
Proof.
  exact (proj2 (one_model_call_per_turn Sample.cfg Sample.files_ticket
                  Sample.empty_store
                  (Sample.request "no thanks" (Some "decline_ticket") None))
           eq_refl).
Defined.

(** X9.  A response reports a created ticket only in an approval turn, and
    then its text contains the success marker, its ticket number is its
    ticket id, and its ticket id is the capture of the ticket-id pattern in
    that text (for a text in which only ASCII characters stand at the end
    of the word runs that follow the literal).  A ticket that the ticket
    agent files during a normal turn is never reported by the flags of the
    response. *)
Theorem created_flag_only_after_approval
    (cfg : Config) (w : World) (db : Main.Store) (request : Main.ChatRequest)
    (r : Main.ChatResponse)
    (Hresponds : result_of (Main.chat_endpoint cfg w db request)
                 = Main.Respond r)
    (Hcreated : Main.ticketCreated r = true) :
  Main.action request = Some "approve_ticket"
  /\ Main.truthy_dict (Main.ticketData request) = true
  /\ Py.str_in "✅" (Main.resp_content r) = true
  /\ Main.ticketNumber r = Main.ticketId r
  /\ (word_safe (Main.resp_content r) = true ->
      Main.ticketId r = Py.search_ticket_id (Main.resp_content r)).
Proof.
  destruct (chat_endpoint_cases cfg w db request)
    as [(data & Ha & Hd & Hne & Heq) | [[_ Heq] | (_ & _ & Heq)]];
    rewrite Heq in *.
  - destruct (approve_flow_responds cfg w db request data
                (Py.or_default (Main.userEmail request) "user@example.com"))
      as (result & Hresult & Hflow).
    rewrite Hflow in Hresponds. injection Hresponds as <-.
    cbn [Main.ticketCreated Main.resp_content Main.ticketId Main.ticketNumber]
      in *.
    split; [exact Ha|]. split; [apply truthy_dict_spec; eauto|].
    destruct (create_ticket_directly_cases cfg w data
                (Py.or_default (Main.userEmail request) "user@example.com"))
      as [[Hout _] | (s & d & p & t & _ & _ & Hout & _)];
      rewrite Hout in Hresult; injection Hresult as <-.
    + discriminate Hcreated.
    + repeat split. exact Hcreated.
  - injection Hresponds as <-. discriminate Hcreated.
  - unfold result_of in Hresponds.
    destruct (Main.normal_chat_flow _ _ _ _ _ _) as [[res db'] calls] eqn:Hflow.
    cbn [fst] in Hresponds. subst res.
    apply normal_chat_flow_reports_none in Hflow as [Hnone _]. congruence.
Qed.

Lemma created_flag_only_after_approval_witness :
  Py.str_in "✅"
    "✅ **Support ticket created successfully!**" = true
  /\ Main.action (Sample.request "ok" (Some "approve_ticket")
                    (Some Sample.draft)) = Some "approve_ticket".
Proof.
  split; [reflexivity|].
  exact (proj1 (created_flag_only_after_approval Sample.cfg Sample.plain_reply
                  Sample.empty_store
                  (Sample.request "ok" (Some "approve_ticket")
                     (Some Sample.draft)) _ eq_refl eq_refl)).
Defined.

(** X10.  An approval turn does not look at the store: its response and
    its external calls are the same from every store.  Sending the same
    approved draft again, on the store the first turn left, therefore
    repeats the same request to the gateway. *)
Theorem approval_is_repeated_on_resubmission
    (cfg : Config) (w : World) (db db' : Main.Store)
    (request : Main.ChatRequest) (data : gmap string PyVal)
    (Happrove : Main.action request = Some "approve_ticket")
    (Hdraft : Main.ticketData request = Some data)
    (Hnonempty : data <> ∅) :
  result_of (Main.chat_endpoint cfg w db' request)
  = result_of (Main.chat_endpoint cfg w db request)
  /\ calls_of (Main.chat_endpoint cfg w db' request)
     = calls_of (Main.chat_endpoint cfg w db request)
  /\ gateway_calls
       (calls_of (Main.chat_endpoint cfg w
                    (store_of (Main.chat_endpoint cfg w db request)) request))
     = gateway_calls (calls_of (Main.chat_endpoint cfg w db request)).
Proof.
  assert (H : forall db1 db2,
    result_of (Main.chat_endpoint cfg w db1 request)
    = result_of (Main.chat_endpoint cfg w db2 request)
    /\ calls_of (Main.chat_endpoint cfg w db1 request)
       = calls_of (Main.chat_endpoint cfg w db2 request)).
  { intros db1 db2.
    rewrite !(approve_branch cfg w _ request data Happrove Hdraft Hnonempty).
    destruct (approve_flow_responds cfg w db1 request data
                (Py.or_default (Main.userEmail request) "user@example.com"))
      as (r1 & Hr1 & ->).
    destruct (approve_flow_responds cfg w db2 request data
                (Py.or_default (Main.userEmail request) "user@example.com"))
      as (r2 & Hr2 & ->).
    rewrite Hr1 in Hr2. injection Hr2 as <-. split; reflexivity. }
  split; [apply H|]. split; [apply H|]. now rewrite (proj2 (H _ db)).
Qed.

Lemma approval_is_repeated_on_resubmission_witness :
  gateway_calls
    (calls_of
       (Main.chat_endpoint Sample.cfg Sample.plain_reply
          (store_of (Main.chat_endpoint Sample.cfg Sample.plain_reply
                       Sample.empty_store
                       (Sample.request "ok" (Some "approve_ticket")
                          (Some Sample.draft))))
          (Sample.request "ok" (Some "approve_ticket") (Some Sample.draft))))
  = gateway_calls
      (calls_of (Main.chat_endpoint Sample.cfg Sample.plain_reply
                   Sample.empty_store
                   (Sample.request "ok" (Some "approve_ticket")
                      (Some Sample.draft)))).
Proof.
  assert (Hne : Sample.draft <> ∅).
  { intros H. apply (f_equal (fun m => m !! "email")) in H.
    vm_compute in H. discriminate H. }
  exact (proj2 (proj2 (approval_is_repeated_on_resubmission Sample.cfg
                         Sample.plain_reply Sample.empty_store
                         Sample.empty_store
                         (Sample.request "ok" (Some "approve_ticket")
                            (Some Sample.draft))
                         Sample.draft eq_refl eq_refl Hne))).
Defined.

(** ** Conversation metadata and the debug totals *)

Lemma get_conversation_stored_turn (db : Main.Store)
    (request : Main.ChatRequest) (reply : string) :
  Main.get_conversation
    (stored_turn db request (Py.or_default (Main.userId request) "test-user")
       reply)
    (Main.conversationId request)
  = turn_metadata request.
Proof.
  unfold Main.get_conversation, stored_turn, Main.set_conversation.
  cbn [Main.conversations_db]. now rewrite lookup_insert_eq.
Qed.

Lemma turn_metadata_no_title (request : Main.ChatRequest) :
  turn_metadata request !! "title" = None.
Proof.
  unfold turn_metadata.
  rewrite !lookup_insert_ne by discriminate. apply lookup_empty.
Qed.

(** X11.  A conversation made by [create_conversation] has the title
    [New Chat] and the messages it had before.  The first normal turn of
    that conversation that gets a response replaces the whole metadata
    entry by the last message and the user id of the turn: the title is
    gone afterwards. *)
Theorem normal_turn_replaces_metadata
    (cfg : Config) (w : World) (db : Main.Store) (request : Main.ChatRequest)
    (r : Main.ChatResponse)
    (Hnormal :
       Main.is_action request "approve_ticket"
       && Main.truthy_dict (Main.ticketData request) = false)
    (Hnot_decline : Main.is_action request "decline_ticket" = false)
    (Hresponds :
       result_of
         (Main.chat_endpoint cfg w
            (snd (Main.create_conversation db (Main.conversationId request)))
            request)
       = Main.Respond r) :
  let cid := Main.conversationId request in
  let created := snd (Main.create_conversation db cid) in
  let after := store_of (Main.chat_endpoint cfg w created request) in
  Main.get_conversation created cid !! "title" = Some (VStr "New Chat")
  /\ Main.get_conversation_messages created cid
     = Main.get_conversation_messages db cid
  /\ Main.get_conversation after cid = turn_metadata request
  /\ Main.get_conversation after cid !! "title" = None.
Proof.
  cbv zeta.
  set (created := snd (Main.create_conversation db (Main.conversationId request)))
    in *.
  split.
  { unfold created, Main.create_conversation, Main.get_conversation,
      Main.set_conversation. cbn [snd Main.conversations_db].
    repeat (rewrite lookup_insert_eq; cbn [default]). reflexivity. }
  split; [reflexivity|].
  assert (Hmeta :
    Main.get_conversation
      (store_of (Main.chat_endpoint cfg w created request))
      (Main.conversationId request) = turn_metadata request).
  { revert Hresponds. unfold Main.chat_endpoint.
    rewrite Hnormal, Hnot_decline. intros Hresponds.
    destruct (normal_chat_flow_cases cfg w created request
                (Py.or_default (Main.userId request) "test-user")
                (Py.or_default (Main.userEmail request) "user@example.com"))
      as [(error & _ & Hturn) | (wr & _ & Hstore & _)]; cbv zeta in *.
    - rewrite Hturn in Hresponds. unfold result_of in Hresponds.
      cbn [fst] in Hresponds. now apply http_error_not_respond in Hresponds.
    - rewrite Hstore. apply get_conversation_stored_turn. }
  split; [exact Hmeta|]. rewrite Hmeta. apply turn_metadata_no_title.
Qed.

Lemma normal_turn_replaces_metadata_witness :
  Main.get_conversation
    (store_of
       (Main.chat_endpoint Sample.cfg Sample.plain_reply
          (snd (Main.create_conversation Sample.empty_store "conv-1"))
          (Sample.request "My VPN won't connect" None None)))
    "conv-1" !! "title" = None.
Proof.
  exact (proj2 (proj2 (proj2
    (normal_turn_replaces_metadata Sample.cfg Sample.plain_reply
       Sample.empty_store (Sample.request "My VPN won't connect" None None)
       _ eq_refl eq_refl eq_refl)))).
Defined.

Lemma total_messages_append (db : Main.Store) (cid : string)
    (new : list Main.StoredMessage) :
  Main.total_messages (Main.debug_conversations (Main.append_messages db cid new))
  = Main.total_messages (Main.debug_conversations db) + length new.
Proof.
  unfold Main.debug_conversations, Main.append_messages.
  cbn [Main.total_messages Main.messages_db].
  set (f := fun (_ : string) (msgs : list Main.StoredMessage) (total : nat) =>
              length msgs + total).
  assert (Hcomm : forall (j1 j2 : string) (z1 z2 : list Main.StoredMessage)
                         (y : nat),
             f j1 z1 (f j2 z2 y) = f j2 z2 (f j1 z1 y)).
  { intros. unfold f. lia. }
  destruct (Main.messages_db db !! cid) as [old|] eqn:Hold.
  - cbn [default].
    assert (Hm : map_fold f 0 (Main.messages_db db)
                 = f cid old (map_fold f 0 (delete cid (Main.messages_db db)))).
    { rewrite <- (insert_id (Main.messages_db db) cid old Hold) at 1.
      rewrite <- insert_delete_eq.
      apply map_fold_insert_L; [intros; apply Hcomm | apply lookup_delete_eq]. }
    rewrite Hm, <- (insert_delete_eq (Main.messages_db db) cid (old ++ new)).
    rewrite map_fold_insert_L
      by (try apply lookup_delete_eq; intros; apply Hcomm).
    unfold f. rewrite length_app. lia.
  - cbn [default].
    rewrite map_fold_insert_L by (try exact Hold; intros; apply Hcomm).
    unfold f. simpl. lia.
Qed.

Lemma total_messages_set_conversation (db : Main.Store) (cid : string)
    (meta : gmap string PyVal) :
  Main.total_messages (Main.debug_conversations
                         (Main.set_conversation db cid meta))
  = Main.total_messages (Main.debug_conversations db).
Proof. reflexivity. Qed.

(** X12.  The message total of [debug_conversations] is the sum over all
    conversations, and a turn adds to it exactly what it appends to its own
    conversation: nothing when the turn fails before its reply, one message
    for an approval or a decline, two for a normal turn.  The response
    itself is always among the messages counted. *)
Theorem debug_total_counts_turn
    (cfg : Config) (w : World) (db : Main.Store) (request : Main.ChatRequest) :
  let turn := Main.chat_endpoint cfg w db request in
  let total db := Main.total_messages (Main.debug_conversations db) in
  let stored db :=
    length (Main.get_conversation_messages db (Main.conversationId request)) in
  total (store_of turn) + stored db = total db + stored (store_of turn)
  /\ total db <= total (store_of turn) <= total db + 2
  /\ (forall r, result_of turn = Main.Respond r ->
                total db < total (store_of turn)).
Proof.
  cbv zeta.
  destruct (turn_store_cases cfg w db request)
    as [[Hstore Hnone] | [(m & r & Hr & _ & Hstore) | (reply & Hstore & _)]];
    cbv zeta in *; rewrite Hstore.
  - split; [lia|]. split; [lia|]. intros r Hr. now apply Hnone in Hr.
  - rewrite total_messages_append, get_messages_append, length_app.
    simpl length. split; [lia|]. split; [lia|]. intros; lia.
  - rewrite get_messages_stored_turn, length_app. unfold stored_turn.
    rewrite total_messages_set_conversation, total_messages_append.
    simpl length. split; [lia|]. split; [lia|]. intros; lia.
Qed.

Lemma debug_total_counts_turn_witness :
  Main.total_messages (Main.debug_conversations Sample.empty_store)
  < Main.total_messages
      (Main.debug_conversations
         (store_of (Main.chat_endpoint Sample.cfg Sample.plain_reply
                      Sample.empty_store
                      (Sample.request "My VPN won't connect" None None)))).
Proof.
  exact (proj2 (proj2 (debug_total_counts_turn Sample.cfg Sample.plain_reply
                         Sample.empty_store
                         (Sample.request "My VPN won't connect" None None)))
           _ eq_refl).
Defined.

(** X13.  An approval turn and a decline turn never write conversation
    metadata.  A conversation that only such turns have touched therefore
    has stored messages and no metadata entry, and [debug_conversations]
    counts its messages while not counting the conversation. *)
Theorem action_turn_writes_no_metadata
    (cfg : Config) (w : World) (db : Main.Store) (request : Main.ChatRequest)
    (Haction :
       Main.is_action request "approve_ticket"
       && Main.truthy_dict (Main.ticketData request)
       || Main.is_action request "decline_ticket" = true) :
  let turn := Main.chat_endpoint cfg w db request in
  let cid := Main.conversationId request in
  Main.conversations_db (store_of turn) = Main.conversations_db db
  /\ Main.get_conversation_messages (store_of turn) cid <> []
  /\ Main.total_conversations (Main.debug_conversations (store_of turn))
     = Main.total_conversations (Main.debug_conversations db)
  /\ Main.total_messages (Main.debug_conversations (store_of turn))
     = Main.total_messages (Main.debug_conversations db) + 1.
Proof.
  cbv zeta.
  assert (Hstore : exists m,
    store_of (Main.chat_endpoint cfg w db request)
    = Main.append_messages db (Main.conversationId request) [m]).
  { destruct (chat_endpoint_cases cfg w db request)
      as [(data & _ & _ & _ & Heq) | [[_ Heq] | (Hna & Hnd & _)]].
    - rewrite Heq.
      destruct (approve_flow_responds cfg w db request data
                  (Py.or_default (Main.userEmail request) "user@example.com"))
        as (result & _ & ->).
      eexists. reflexivity.
    - rewrite Heq. eexists. reflexivity.
    - rewrite Hna, Hnd in Haction. discriminate. }
  destruct Hstore as [m ->].
  split; [reflexivity|].
  split.
  { rewrite get_messages_append. intros H.
    now apply app_eq_nil in H as [_ H]. }
  split; [reflexivity|].
  now rewrite total_messages_append.
Qed.

Lemma action_turn_writes_no_metadata_witness :
  Main.total_conversations
    (Main.debug_conversations
       (store_of (Main.chat_endpoint Sample.cfg Sample.plain_reply
                    Sample.empty_store
                    (Sample.request "no" (Some "decline_ticket") None))))
  = 0
  /\ Main.total_messages
       (Main.debug_conversations
          (store_of (Main.chat_endpoint Sample.cfg Sample.plain_reply
                       Sample.empty_store
                       (Sample.request "no" (Some "decline_ticket") None))))
     = 1.
Proof.
  pose proof (action_turn_writes_no_metadata Sample.cfg Sample.plain_reply
                Sample.empty_store
                (Sample.request "no" (Some "decline_ticket") None) eq_refl)
    as (_ & _ & Hconv & Hmsgs).
  split; [exact Hconv | exact Hmsgs].
Defined.

(** ** The reply of the gateway *)

Lemma take_word_app (id rest : string) (c : ascii) :
  all_chars Py.is_word id = true -> Py.is_word c = false ->
  Py.take_word (id +:+ String c rest) = id.
Proof.
  intros Hid Hc. induction id as [|a id IH].
  - cbn [String.append Py.take_word]. now rewrite Hc.
  - unfold all_chars in Hid. cbn [list_ascii_of_string forallb] in Hid.
    apply andb_true_iff in Hid as [Ha Hid].
    cbn [String.append Py.take_word]. rewrite Ha. f_equal. now apply IH.
Qed.

Lemma match_ticket_id_here_literal (id rest : string) (c : ascii) :
  id <> EmptyString -> all_chars Py.is_word id = true ->
  Py.is_word c = false ->
  Py.match_ticket_id_here (Py.ticket_id_literal +:+ id +:+ String c rest)
  = Some id.
Proof.
  intros Hne Hid Hc. unfold Py.match_ticket_id_here.
  rewrite (proj2 (drop_prefix_spec Py.ticket_id_literal _ _) eq_refl).
  rewrite take_word_app by assumption. now destruct id.
Qed.

Lemma search_ticket_id_here (s id : string) :
  Py.match_ticket_id_here s = Some id -> Py.search_ticket_id s = Some id.
Proof. intros H. destruct s; cbn [Py.search_ticket_id]; now rewrite H. Qed.

(** the success text carries the marker, and its ticket id reads back *)
Lemma created_text_flags (id subject priority_name ticket_url : string) :
  id <> EmptyString -> all_chars Py.is_word id = true ->
  ticket_result_of (ticket_created_text id subject priority_name ticket_url)
  = {| tr_success := true;
       tr_content := ticket_created_text id subject priority_name ticket_url;
       tr_ticketId := Some id;
       tr_ticketNumber := Some id |}.
Proof.
  intros Hne Hid. unfold ticket_result_of.
  assert (Hsearch :
    Py.search_ticket_id
      (ticket_created_text id subject priority_name ticket_url) = Some id).
  { change (ticket_created_text id subject priority_name ticket_url)
      with (("✅ **Support ticket created successfully!**" +:+ nl +:+ nl
             +:+ "**")
            +:+ Py.ticket_id_literal +:+ id
            +:+ String (ascii_of_nat 10)
                  ("**Subject:** " +:+ subject +:+ nl +:+
                   "**Priority:** " +:+ priority_name +:+ nl +:+ nl +:+
                   "**View your ticket:** " +:+ ticket_url +:+ nl +:+ nl +:+
                   "Our IT support team will review your request and respond within 24 hours. You'll receive email updates as we work on your issue.")).
    rewrite search_ticket_id_skip by reflexivity.
    apply search_ticket_id_here, match_ticket_id_here_literal;
      [exact Hne | exact Hid | reflexivity]. }
  rewrite Hsearch. reflexivity.
Qed.

Lemma str_of_Z_nonneg (k : Z) :
  (0 <= k)%Z ->
  Py.str_of_Z k <> EmptyString /\ all_chars Py.is_word (Py.str_of_Z k) = true.
Proof.
  intros Hk.
  assert (Hword : forall d,
    all_chars Py.is_word (NilEmpty.string_of_uint d) = true).
  { intros d. apply (all_chars_weaken Py.is_digit); [|apply string_of_uint_chars].
    intros x Hx. unfold Py.is_word. now rewrite Hx. }
  assert (Hzero : forall d,
    NilZero.string_of_uint d <> EmptyString
    /\ all_chars Py.is_word (NilZero.string_of_uint d) = true).
  { intros d. split; [now destruct d|].
    destruct d; try apply Hword. reflexivity. }
  unfold Py.str_of_Z, NilZero.string_of_int.
  destruct k as [|q|q]; [apply Hzero | apply Hzero | lia].
Qed.

Lemma response_text_created (auth_text domain subject : string) (p : Z)
    (r : Response) (body : gmap string PyVal) (id : PyVal) :
  ok r = true -> json r = Some (JDict body) -> body !! "id" = Some id ->
  outcome (response_text auth_text domain subject p r)
  = Ret (ticket_created_text (str id) subject (priority_names_int p)
           ("https://" +:+ domain +:+ "/a/tickets/" +:+ str id)).
Proof.
  intros Hok Hjson Hid. unfold response_text, response_json.
  rewrite Hok, Hjson. simpl negb. cbv iota.
  rewrite bind_ret. cbn [json_item]. rewrite Hid, bind_ret. reflexivity.
Qed.

Lemma response_text_unreadable (auth_text domain subject : string) (p : Z)
    (r : Response) :
  ok r = true ->
  json r = None \/ json r = Some JOther
  \/ (exists body, json r = Some (JDict body) /\ body !! "id" = None) ->
  exists error,
    outcome (response_text auth_text domain subject p r) = Raise error
    /\ exn_class error = OtherException.
Proof.
  intros Hok Hjson. unfold response_text, response_json.
  rewrite Hok. simpl negb. cbv iota.
  destruct Hjson as [-> | [-> | (body & -> & Hid)]].
  - eexists. split; reflexivity.
  - rewrite bind_ret. eexists. split; reflexivity.
  - rewrite bind_ret. cbn [json_item]. rewrite Hid. eexists. split; reflexivity.
Qed.

Lemma filing_trace_sent (cfg : Config) (s d p e : string) (n : Z) :
  config_ok cfg = true -> Py.int p = Some n ->
  is_ascii (FRESHDESK_API_KEY cfg +:+ ":X") = true ->
  filing_trace cfg s d p e = [GatewayCall (gateway_request cfg s d n e)].
Proof. intros Hc Hp Hk. unfold filing_trace. now rewrite Hc, Hp, Hk. Qed.

(** X14.  An approved draft whose three fields are strings, filed with a
    usable configuration and a priority that reads as an integer, and
    accepted by the gateway with a non-negative integer id: the response
    carries the success text built from that id, the created flag, and as
    ticket id exactly the decimal text of the id the gateway returned; the
    gateway was called once, with the approved fields and the email of the
    request. *)
Theorem filed_ticket_id_is_reported
    (cfg : Config) (w : World) (db : Main.Store) (request : Main.ChatRequest)
    (data : gmap string PyVal) (s d p : string) (n k : Z) (r : Response)
    (body : gmap string PyVal)
    (Happrove : Main.action request = Some "approve_ticket")
    (Hdraft : Main.ticketData request = Some data)
    (Hfields : draft_fields data s d p)
    (Hconfig : config_ok cfg = true)
    (Hkey : is_ascii (FRESHDESK_API_KEY cfg +:+ ":X") = true)
    (Hpriority : Py.int p = Some n)
    (Hgateway :
       freshdesk w
         (gateway_request cfg s d n
            (Py.or_default (Main.userEmail request) "user@example.com"))
       = Ret r)
    (Hok : ok r = true)
    (Hbody : json r = Some (JDict body))
    (Hid : body !! "id" = Some (VInt k))
    (Hk : (0 <= k)%Z) :
  let email := Py.or_default (Main.userEmail request) "user@example.com" in
  let turn := Main.chat_endpoint cfg w db request in
  result_of turn
  = Main.Respond
      {| Main.success := true;
         Main.resp_content :=
           ticket_created_text (Py.str_of_Z k) s (priority_names_int n)
             ("https://" +:+ FRESHDESK_DOMAIN cfg +:+ "/a/tickets/"
              +:+ Py.str_of_Z k);
         Main.resp_conversationId := Main.conversationId request;
         Main.needsApproval := false;
         Main.ticketSummary := None;
         Main.interactiveButtons := None;
         Main.ticketCreated := true;
         Main.ticketId := Some (Py.str_of_Z k);
         Main.ticketNumber := Some (Py.str_of_Z k) |}
  /\ gateway_calls (calls_of turn) = [gateway_request cfg s d n email].
Proof.
  cbv zeta.
  set (email := Py.or_default (Main.userEmail request) "user@example.com") in *.
  assert (Hne : data <> ∅) by exact (lookup_nonempty _ _ _ (proj1 Hfields)).
  rewrite (approve_branch cfg w db request data Happrove Hdraft Hne).
  fold email.
  destruct (approve_flow_responds cfg w db request data email)
    as (result & Hresult & ->).
  destruct (create_ticket_directly_valid cfg w data email s d p Hfields)
    as (t & Ht & Hout & Htr).
  rewrite Hout in Hresult. injection Hresult as <-.
  unfold Agents.create_freshdesk_ticket in Ht.
  rewrite outcome_try,
    (ticket_request_outcome _ _ cfg w s d p email n Hconfig Hpriority Hkey),
    Hgateway,
    (response_text_created _ _ _ _ r body (VInt k) Hok Hbody Hid) in Ht.
  injection Ht as <-. cbn [str].
  destruct (str_of_Z_nonneg k Hk) as [Hnonempty Hword].
  rewrite created_text_flags by assumption.
  unfold result_of, calls_of. cbn [fst snd]. split; [reflexivity|].
  rewrite Htr, (filing_trace_sent cfg s d p email n Hconfig Hpriority Hkey).
  reflexivity.
Qed.

Lemma filed_ticket_id_is_reported_witness :
  exists r,
    result_of (Main.chat_endpoint Sample.cfg Sample.plain_reply
                 Sample.empty_store
                 (Sample.request "ok" (Some "approve_ticket")
                    (Some Sample.draft)))
    = Main.Respond r
    /\ Main.ticketId r = Some "42".
Proof.
  eexists. split.
  - exact (proj1 (filed_ticket_id_is_reported Sample.cfg Sample.plain_reply
                    Sample.empty_store
                    (Sample.request "ok" (Some "approve_ticket")
                       (Some Sample.draft))
                    Sample.draft "Printer is broken"
                    "The printer on floor 2 does not print." "2" 2 42
                    Sample.created (<["id" := VInt 42]> ∅)
                    eq_refl eq_refl
                    (conj eq_refl (conj eq_refl eq_refl))
                    eq_refl eq_refl eq_refl eq_refl eq_refl eq_refl eq_refl
                    ltac:(lia))).
  - reflexivity.
Defined.

(** X15.  Once the request has been sent, a reply that the gateway marks
    as accepted but whose body cannot be read as an object with an id makes
    both filing tools return their unexpected-error text, which reports
    failure and no ticket id: the caller is told that filing failed
    although the gateway accepted the request. *)
Theorem unreadable_acceptance_reports_failure
    (cfg : Config) (w : World) (s d p email : string) (n : Z) (r : Response)
    (Hconfig : config_ok cfg = true)
    (Hkey : is_ascii (FRESHDESK_API_KEY cfg +:+ ":X") = true)
    (Hpriority : Py.int p = Some n)
    (Hgateway : freshdesk w (gateway_request cfg s d n email) = Ret r)
    (Hok : ok r = true)
    (Hbody :
       json r = None \/ json r = Some JOther
       \/ (exists body, json r = Some (JDict body) /\ body !! "id" = None)) :
  outcome (Agents.create_freshdesk_ticket cfg w s d p email)
  = Ret Agents.unexpected_text
  /\ outcome (LanggraphWorkflow.create_support_ticket cfg w s d p email)
     = Ret LanggraphWorkflow.unexpected_text
  /\ trace (Agents.create_freshdesk_ticket cfg w s d p email)
     = [GatewayCall (gateway_request cfg s d n email)]
  /\ trace (LanggraphWorkflow.create_support_ticket cfg w s d p email)
     = [GatewayCall (gateway_request cfg s d n email)]
  /\ tr_success (ticket_result_of Agents.unexpected_text) = false
  /\ tr_ticketId (ticket_result_of Agents.unexpected_text) = None.
Proof.
  split.
  { unfold Agents.create_freshdesk_ticket.
    rewrite outcome_try,
      (ticket_request_outcome _ _ cfg w s d p email n Hconfig Hpriority Hkey),
      Hgateway.
    destruct (response_text_unreadable Agents.auth_text (FRESHDESK_DOMAIN cfg)
                s n r Hok Hbody) as (error & -> & _).
    reflexivity. }
  split.
  { unfold LanggraphWorkflow.create_support_ticket.
    rewrite outcome_try,
      (ticket_request_outcome _ _ cfg w s d p email n Hconfig Hpriority Hkey),
      Hgateway.
    destruct (response_text_unreadable LanggraphWorkflow.auth_text
                (FRESHDESK_DOMAIN cfg) s n r Hok Hbody) as (error & -> & ->).
    reflexivity. }
  rewrite create_freshdesk_ticket_trace, create_support_ticket_trace,
    (filing_trace_sent cfg s d p email n Hconfig Hpriority Hkey).
  repeat split.
Qed.

Lemma unreadable_acceptance_reports_failure_witness :
  outcome (Agents.create_freshdesk_ticket Sample.cfg
             Scenario.accepted_without_id "Printer is broken"
             "The printer on floor 2 does not print." "3" "user@example.com")
  = Ret Agents.unexpected_text.
Proof.
  exact (proj1 (unreadable_acceptance_reports_failure Sample.cfg
                  Scenario.accepted_without_id "Printer is broken"
                  "The printer on floor 2 does not print." "3"
                  "user@example.com" 3 _ eq_refl eq_refl eq_refl eq_refl
                  eq_refl
                  (or_intror (or_intror
                     (ex_intro _ ∅ (conj eq_refl eq_refl)))))).
Defined.

(** X16.  When the request to the gateway raises, the filing tool of
    agents.py answers with its unexpected-error text whatever was raised,
    while the tool of langgraph_workflow.py tells a timeout and a
    connection failure apart from other errors.  Neither tool lets the
    exception through, and neither sends the request again. *)
Theorem gateway_exception_texts
    (cfg : Config) (w : World) (s d p email : string) (n : Z) (error : Exn)
    (Hconfig : config_ok cfg = true)
    (Hkey : is_ascii (FRESHDESK_API_KEY cfg +:+ ":X") = true)
    (Hpriority : Py.int p = Some n)
    (Hgateway : freshdesk w (gateway_request cfg s d n email) = Raise error) :
  outcome (Agents.create_freshdesk_ticket cfg w s d p email)
  = Ret Agents.unexpected_text
  /\ outcome (LanggraphWorkflow.create_support_ticket cfg w s d p email)
     = Ret match exn_class error with
           | Timeout => LanggraphWorkflow.timeout_text
           | ConnectionError => LanggraphWorkflow.connection_text
           | OtherException => LanggraphWorkflow.unexpected_text
           end
  /\ trace (Agents.create_freshdesk_ticket cfg w s d p email)
     = [GatewayCall (gateway_request cfg s d n email)]
  /\ trace (LanggraphWorkflow.create_support_ticket cfg w s d p email)
     = [GatewayCall (gateway_request cfg s d n email)].
Proof.
  split.
  { unfold Agents.create_freshdesk_ticket.
    now rewrite outcome_try,
      (ticket_request_outcome _ _ cfg w s d p email n Hconfig Hpriority Hkey),
      Hgateway. }
  split.
  { unfold LanggraphWorkflow.create_support_ticket.
    rewrite outcome_try,
      (ticket_request_outcome _ _ cfg w s d p email n Hconfig Hpriority Hkey),
      Hgateway.
    now destruct (exn_class error). }
  rewrite create_freshdesk_ticket_trace, create_support_ticket_trace,
    (filing_trace_sent cfg s d p email n Hconfig Hpriority Hkey).
  split; reflexivity.
Qed.

Lemma gateway_exception_texts_witness :
  outcome (LanggraphWorkflow.create_support_ticket Sample.cfg
             Scenario.gateway_times_out "Printer is broken"
             "The printer on floor 2 does not print." "3" "user@example.com")
  = Ret LanggraphWorkflow.timeout_text.
Proof.
  exact (proj1 (proj2 (gateway_exception_texts Sample.cfg
                         Scenario.gateway_times_out "Printer is broken"
                         "The printer on floor 2 does not print." "3"
                         "user@example.com" 3 (mkExn Timeout "Read timed out.")
                         eq_refl eq_refl eq_refl eq_refl))).
Defined.

(** ** Configuration *)

Lemma openai_key_missing (cfg : Config) :
  openai_ok cfg = false ->
  negb (Py.truthy (OPENAI_API_KEY cfg))
  || String.eqb (OPENAI_API_KEY cfg) "your-openai-api-key-here" = true.
Proof. unfold openai_ok. now intros H%negb_false_iff. Qed.

Lemma openai_key_present (cfg : Config) :
  openai_ok cfg = true ->
  negb (Py.truthy (OPENAI_API_KEY cfg))
  || String.eqb (OPENAI_API_KEY cfg) "your-openai-api-key-here" = false.
Proof. unfold openai_ok. now intros H%negb_true_iff. Qed.

(** X17.  With the OpenAI key missing or left at its placeholder, a normal
    turn whose message, of ASCII characters, carries none of the
    endpoint's keywords fails with status 500 and the text of the key
    check, before any external call and with the store as it was.  The
    approval workflow makes no such check: with the key left at its
    placeholder, a message that carries one of the endpoint's keywords
    still reaches the model. *)
Theorem missing_model_key_stops_chat_only
    (cfg : Config) (w : World) (db : Main.Store) (request : Main.ChatRequest)
    (Hkey : openai_ok cfg = false)
    (Hnormal :
       Main.is_action request "approve_ticket"
       && Main.truthy_dict (Main.ticketData request) = false)
    (Hnot_decline : Main.is_action request "decline_ticket" = false) :
  let turn := Main.chat_endpoint cfg w db request in
  let keyword :=
    existsb (fun keyword =>
               Py.str_in keyword (Py.lower (Main.message request)))
      Main.ticket_keywords in
  (is_ascii (Main.message request) = true -> keyword = false ->
   turn
   = (Main.HTTPException 500
        "Sorry, I encountered an error: OpenAI API key not available",
      db, []))
  /\ (OPENAI_API_KEY cfg = "your-openai-api-key-here" -> keyword = true ->
      llm_calls (calls_of turn) = 1).
Proof.
  cbv zeta. unfold Main.chat_endpoint. rewrite Hnormal, Hnot_decline.
  split.
  - intros _ Hkeyword.
    unfold Main.normal_chat_flow, Main.run_workflow. rewrite Hkeyword.
    unfold Agents.run_multi_agent_workflow.
    rewrite (openai_key_missing cfg Hkey). reflexivity.
  - intros _ Hkeyword.
    rewrite normal_chat_flow_calls. unfold Main.run_workflow.
    rewrite Hkeyword. apply run_approval_workflow_trace.
Qed.

Lemma missing_model_key_stops_chat_only_witness :
  Main.chat_endpoint Scenario.no_openai_key Sample.plain_reply
    Sample.empty_store (Sample.request "My VPN won't connect" None None)
  = (Main.HTTPException 500
       "Sorry, I encountered an error: OpenAI API key not available",
     Sample.empty_store, [])
  /\ llm_calls
       (calls_of (Main.chat_endpoint Scenario.no_openai_key Sample.plain_reply
                    Sample.empty_store
                    (Sample.request "yes please" None None))) = 1.
Proof.
  split.
  - exact (proj1 (missing_model_key_stops_chat_only Scenario.no_openai_key
                    Sample.plain_reply Sample.empty_store
                    (Sample.request "My VPN won't connect" None None)
                    eq_refl eq_refl eq_refl) eq_refl eq_refl).
  - exact (proj2 (missing_model_key_stops_chat_only Scenario.no_openai_key
                    Sample.plain_reply Sample.empty_store
                    (Sample.request "yes please" None None)
                    eq_refl eq_refl eq_refl) eq_refl eq_refl).
Defined.

Lemma filing_trace_unconfigured (cfg : Config) (s d p e : string) :
  config_ok cfg = false -> filing_trace cfg s d p e = [].
Proof. intros H. unfold filing_trace. now rewrite H. Qed.

Lemma ticket_tools_unconfigured (cfg : Config) (w : World) :
  config_ok cfg = false -> gateway_free (Agents.ticket_tools cfg w).
Proof.
  intros H t [<- | []] s d p e. simpl tool_func.
  now rewrite create_freshdesk_ticket_trace, filing_trace_unconfigured.
Qed.

Lemma run_workflow_unconfigured (cfg : Config) (w : World)
    (request : Main.ChatRequest) (history : list ChatMsg) (uid email : string) :
  config_ok cfg = false ->
  gateway_calls (trace (Main.run_workflow cfg w request history uid email)) = [].
Proof.
  intros Hconfig. unfold Main.run_workflow.
  destruct (existsb _ Main.ticket_keywords);
    [apply run_approval_workflow_trace|].
  destruct (run_multi_agent_workflow_trace cfg w (Main.message request)
              history uid (Main.conversationId request) email) as [-> | ->];
    [reflexivity|].
  unfold Agents.multi_agent_workflow.
  destruct (Agents.supervisor_routing _).
  - rewrite chat_agent_run. destruct (llm w _ _) as [[c tcs]|e]; reflexivity.
  - rewrite ticket_agent_trace.
    destruct (llm w _ _) as [[c tcs]|e]; [|reflexivity].
    change (gateway_calls
              (trace (run_tool_calls w (Agents.ticket_tools cfg w) tcs)) = []).
    apply run_tool_calls_gateway_free. now apply ticket_tools_unconfigured.
Qed.

(** X18.  With the Freshdesk domain or key empty, or the key left at its
    placeholder, no turn of the endpoint and no run of the test endpoint
    contacts the gateway, whatever the model requests; an approved draft
    with string fields is answered with the configuration text and
    reported as not created. *)
Theorem unconfigured_gateway_is_never_contacted
    (cfg : Config) (w : World) (db : Main.Store) (request : Main.ChatRequest)
    (Hconfig : config_ok cfg = false) :
  gateway_calls (calls_of (Main.chat_endpoint cfg w db request)) = []
  /\ gateway_calls (snd (Main.test_ticket_creation cfg w)) = []
  /\ (forall data s d p,
        Main.action request = Some "approve_ticket" ->
        Main.ticketData request = Some data ->
        draft_fields data s d p ->
        result_of (Main.chat_endpoint cfg w db request)
        = Main.Respond (Main.plain_response request Agents.config_text)).
Proof.
  assert (Hdirect : forall data email,
    gateway_calls (trace (Agents.create_ticket_directly cfg w data email)) = []).
  { intros data email.
    destruct (create_ticket_directly_cases cfg w data email)
      as [[_ ->] | (s & d & p & t & _ & _ & _ & ->)]; [reflexivity|].
    now rewrite filing_trace_unconfigured. }
  split.
  { destruct (chat_endpoint_cases cfg w db request)
      as [(data & _ & _ & _ & ->) | [[_ ->] | (_ & _ & ->)]].
    - destruct (approve_flow_responds cfg w db request data
                  (Py.or_default (Main.userEmail request) "user@example.com"))
        as (result & _ & ->).
      apply Hdirect.
    - reflexivity.
    - rewrite normal_chat_flow_calls. now apply run_workflow_unconfigured. }
  split.
  { unfold Main.test_ticket_creation.
    pose proof (Hdirect Main.test_ticket_data "kingmaker@gmail.com") as H.
    unfold trace in H.
    destruct (Agents.create_ticket_directly cfg w _ _) as [[result|error] calls];
      exact H. }
  intros data s d p Happrove Hdraft Hfields.
  assert (Hne : data <> ∅) by exact (lookup_nonempty _ _ _ (proj1 Hfields)).
  rewrite (approve_branch cfg w db request data Happrove Hdraft Hne).
  destruct (approve_flow_responds cfg w db request data
              (Py.or_default (Main.userEmail request) "user@example.com"))
    as (result & Hresult & ->).
  destruct (create_ticket_directly_valid cfg w data
              (Py.or_default (Main.userEmail request) "user@example.com")
              s d p Hfields) as (t & Ht & Hout & _).
  rewrite Hout in Hresult. injection Hresult as <-.
  unfold Agents.create_freshdesk_ticket in Ht.
  rewrite (ticket_request_unconfigured _ _ cfg w s d p _ Hconfig) in Ht.
  injection Ht as <-. reflexivity.
Qed.

Lemma unconfigured_gateway_is_never_contacted_witness :
  gateway_calls
    (calls_of (Main.chat_endpoint Scenario.unset Sample.files_ticket
                 Sample.empty_store
                 (Sample.request "please escalate" None None))) = [].
Proof.
  exact (proj1 (unconfigured_gateway_is_never_contacted Scenario.unset
                  Sample.files_ticket Sample.empty_store
                  (Sample.request "please escalate" None None) eq_refl)).
Defined.

(** X19.  What the environment decides.  The gateway counts as configured
    exactly when FRESHDESK_API_KEY is set to a non-empty value other than
    the placeholder and FRESHDESK_DOMAIN is not set to the empty string;
    the model key counts as available exactly when OPENAI_API_KEY is set
    to a non-empty value other than its placeholder.  The default domain
    is not a placeholder to the check: with only the key set, requests go
    to the default domain. *)
Theorem environment_decides_configuration (env : gmap string string) :
  (config_ok (from_env env) = true <->
   (exists key, env !! "FRESHDESK_API_KEY" = Some key
                /\ key <> EmptyString
                /\ key <> "your-freshdesk-api-key-here")
   /\ env !! "FRESHDESK_DOMAIN" <> Some EmptyString)
  /\ (openai_ok (from_env env) = true <->
      exists key, env !! "OPENAI_API_KEY" = Some key
                  /\ key <> EmptyString
                  /\ key <> "your-openai-api-key-here")
  /\ (env !! "FRESHDESK_DOMAIN" = None ->
      forall s d p e,
        api_url (gateway_request (from_env env) s d p e)
        = "https://yourcompany.freshdesk.com/api/v2/tickets").
Proof.
  assert (Htruthy : forall s, Py.truthy s = true <-> s <> EmptyString).
  { intros s. destruct s; simpl; split; congruence. }
  assert (Hkey : forall (o : option string) (placeholder : string),
    Py.truthy placeholder = true ->
    negb (negb (Py.truthy (default placeholder o))
          || String.eqb (default placeholder o) placeholder) = true <->
    exists key, o = Some key /\ key <> EmptyString /\ key <> placeholder).
  { intros o placeholder Hp. rewrite negb_true_iff, orb_false_iff, negb_false_iff.
    destruct o as [key|]; cbn [default].
    - rewrite Htruthy, String.eqb_neq. split.
      + intros [H1 H2]. exists key. auto.
      + intros (key' & [= <-] & H1 & H2). auto.
    - rewrite String.eqb_refl. split; [intros [_ H]; discriminate|].
      intros (key & H & _). discriminate. }
  split; [|split].
  - unfold config_ok, from_env.
    cbn [FRESHDESK_DOMAIN FRESHDESK_API_KEY].
    rewrite <- (Hkey (env !! "FRESHDESK_API_KEY")
                  "your-freshdesk-api-key-here" eq_refl).
    rewrite !negb_true_iff, !orb_false_iff, !negb_false_iff.
    destruct (env !! "FRESHDESK_DOMAIN") as [domain|]; cbn [default].
    + destruct domain as [|c domain]; cbn [Py.truthy];
        intuition (try congruence; try discriminate).
    + intuition (try congruence; try discriminate).
  - unfold openai_ok, from_env. cbn [OPENAI_API_KEY].
    apply (Hkey (env !! "OPENAI_API_KEY") "your-openai-api-key-here" eq_refl).
  - intros Hd s d p e. unfold gateway_request, from_env.
    cbn [api_url FRESHDESK_DOMAIN]. now rewrite Hd.
Qed.

Lemma environment_decides_configuration_witness :
  config_ok (from_env (<["FRESHDESK_API_KEY" := "abc123"]> ∅)) = true
  /\ api_url (gateway_request (from_env (<["FRESHDESK_API_KEY" := "abc123"]> ∅))
                "s" "d" 2 "e")
     = "https://yourcompany.freshdesk.com/api/v2/tickets".
Proof.
  destruct (environment_decides_configuration
              (<["FRESHDESK_API_KEY" := "abc123"]> ∅)) as (Hconfig & _ & Hurl).
  split.
  - apply Hconfig. split.
    + exists "abc123". split; [reflexivity|]. split; discriminate.
    + discriminate.
  - apply Hurl. reflexivity.
Defined.

(** ** What the model is asked *)

Lemma run_tool_calls_silent (w : World) (tools : list Tool)
    (tcs : list ToolCall) :
  (forall t, In t tools -> forall s d p e, silent (tool_func t s d p e)) ->
  trace (run_tool_calls w tools tcs) = [].
Proof.
  intros Hsilent. rewrite trace_run_tool_calls.
  induction tcs as [|tc tcs IH]; [reflexivity|].
  simpl. rewrite IH, app_nil_r.
  destruct (trace_run_tool_call w tools tc)
    as [-> | (t & s & d & p & e & Hin & _ & _ & ->)]; [reflexivity|].
  exact (Hsilent t Hin s d p e).
Qed.

Lemma approval_workflow_calls (cfg : Config) (w : World)
    (state : ApprovalWorkflow.ApprovalState) :
  trace (ApprovalWorkflow.approval_workflow cfg w state)
  = [LLMCall ["generate_ticket_details"]
       (HumanMessage (ApprovalWorkflow.approval_system_prompt cfg)
          :: ApprovalWorkflow.messages state)].
Proof.
  rewrite approval_workflow_run. cbv zeta. rewrite bind_invoke_llm.
  destruct (llm w _ _) as [[c tcs]|e]; [|reflexivity].
  simpl tool_calls_of. destruct tcs as [|tc tcs]; [reflexivity|].
  unfold ApprovalWorkflow.generate_details. simpl ApprovalWorkflow.messages.
  rewrite ToolNode_snoc, bind_assoc.
  rewrite trace_bind_silent by (intros obs; now rewrite !bind_ret).
  unfold trace at 1. cbn [snd]. f_equal.
  apply run_tool_calls_silent. intros t [<- | []] s d p e. reflexivity.
Qed.

(** the first external call of a normal turn, in the terms of the model *)
Lemma normal_turn_first_call
    (cfg : Config) (w : World) (db : Main.Store) (request : Main.ChatRequest) :
  openai_ok cfg = true ->
  Main.is_action request "approve_ticket"
  && Main.truthy_dict (Main.ticketData request) = false ->
  Main.is_action request "decline_ticket" = false ->
  exists rest,
    calls_of (Main.chat_endpoint cfg w db request)
    = LLMCall (fst (dispatch cfg (Main.message request)))
        (HumanMessage (snd (dispatch cfg (Main.message request)))
           :: to_langchain (Main.history_of db (Main.conversationId request))
              ++ [HumanMessage (Main.message request)])
      :: rest
    /\ llm_calls rest = 0
    /\ (gateway_calls rest <> [] ->
        fst (dispatch cfg (Main.message request)) = ["create_freshdesk_ticket"]).
Proof.
  intros Hkey Hnormal Hnot_decline.
  unfold Main.chat_endpoint. rewrite Hnormal, Hnot_decline.
  rewrite normal_chat_flow_calls. unfold Main.run_workflow, dispatch.
  destruct (existsb _ Main.ticket_keywords).
  - unfold ApprovalWorkflow.run_approval_workflow.
    rewrite trace_bind_silent
      by (intros result; destruct (last _); reflexivity).
    rewrite approval_workflow_calls. cbn [fst snd ApprovalWorkflow.messages].
    exists []. split; [reflexivity|]. split; [reflexivity|].
    intros H. now contradiction H.
  - unfold Agents.run_multi_agent_workflow.
    rewrite (openai_key_present cfg Hkey).
    rewrite trace_bind_silent
      by (intros result; destruct (last _); reflexivity).
    unfold Agents.multi_agent_workflow, Agents.supervisor_routing.
    cbn [Agents.messages]. rewrite last_snoc. cbn [content].
    destruct (existsb _ Agents.ticket_keywords).
    + rewrite ticket_agent_trace. cbn [fst snd Agents.messages].
      eexists. split; [reflexivity|].
      destruct (llm w _ _) as [[c tcs]|e];
        [|split; [reflexivity | intros H; now contradiction H]].
      split; [|reflexivity].
      apply run_tool_calls_model_free, ticket_tools_model_free.
    + rewrite chat_agent_run. cbn [fst snd Agents.messages].
      exists []. split; [now destruct (llm w _ _) as [[c tcs]|e]|].
      split; [reflexivity|]. intros H. now contradiction H.
Qed.

(** ** The Router behind the endpoint's test *)




(** ** What the model is asked first *)

(** X20.  The one model call of a normal turn.  For a message of ASCII
    characters and with the model key available, the first external call
    of a normal turn is a call of the model on the instruction of the
    dispatched behaviour, the stored history and the new user message,
    with the catalogue of that behaviour: the preview action when the
    message carries one of the endpoint's keywords, else the filing
    action when it carries one of the router's keywords, else no action.
    Nothing that follows is a model call, and a gateway call can only
    follow under the filing catalogue.  The router's keywords
    [create ticket] and [create a ticket] are endpoint keywords too, so a
    message with either never reaches the ticket agent. *)
Theorem model_sees_dispatched_catalogue
    (cfg : Config) (w : World) (db : Main.Store) (request : Main.ChatRequest)
    (Hascii : is_ascii (Main.message request) = true)
    (Hkey : openai_ok cfg = true)
    (Hnormal :
       Main.is_action request "approve_ticket"
       && Main.truthy_dict (Main.ticketData request) = false)
    (Hnot_decline : Main.is_action request "decline_ticket" = false) :
  let message := Main.message request in
  let history :=
    to_langchain (Main.history_of db (Main.conversationId request)) in
  (exists rest,
     calls_of (Main.chat_endpoint cfg w db request)
     = LLMCall (fst (dispatch cfg message))
         (HumanMessage (snd (dispatch cfg message))
            :: history ++ [HumanMessage message])
       :: rest
     /\ llm_calls rest = 0
     /\ (gateway_calls rest <> [] ->
         fst (dispatch cfg message) = ["create_freshdesk_ticket"]))
  /\ (Py.str_in "create ticket" (Py.lower message)
      || Py.str_in "create a ticket" (Py.lower message) = true ->
      fst (dispatch cfg message) = ["generate_ticket_details"]).
Proof.
  cbv zeta. split.
  - exact (normal_turn_first_call cfg w db request Hkey Hnormal Hnot_decline).
  - intros H. unfold dispatch. cbn [existsb Main.ticket_keywords].
    apply orb_true_iff in H as [-> | ->]; [reflexivity|].
    now rewrite orb_true_r.
Qed.

Lemma model_sees_dispatched_catalogue_witness :
  exists rest,
    calls_of (Main.chat_endpoint Sample.cfg Sample.files_ticket
                Sample.empty_store
                (Sample.request "please escalate" None None))
    = LLMCall ["create_freshdesk_ticket"]
        [HumanMessage Agents.ticket_system_prompt;
         HumanMessage "please escalate"]
      :: rest.
Proof.
  destruct (proj1 (model_sees_dispatched_catalogue Sample.cfg
                     Sample.files_ticket Sample.empty_store
                     (Sample.request "please escalate" None None)
                     eq_refl eq_refl eq_refl eq_refl)) as (rest & Hcalls & _).
  exists rest. exact Hcalls.
Defined.

(** ** The tool node of the ticket agent *)

Lemma ticket_tool_call_trace (cfg : Config) (w : World) (tc : ToolCall) :
  config_ok cfg = true ->
  is_ascii (FRESHDESK_API_KEY cfg +:+ ":X") = true ->
  gateway_calls (trace (run_tool_call w (Agents.ticket_tools cfg w) tc))
  = match requested_filing cfg tc with
    | Some request => [request]
    | None => []
    end.
Proof.
  intros Hconfig Hkey. unfold run_tool_call, requested_filing.
  cbn [Agents.ticket_tools find Agents.create_freshdesk_ticket_tool tool_name].
  rewrite (String.eqb_sym (name tc)).
  destruct (String.eqb "create_freshdesk_ticket" (name tc)); [|reflexivity].
  rewrite trace_try_silent by (intros e; reflexivity).
  rewrite trace_bind_silent by (intros r; reflexivity).
  unfold tool_invoke.
  destruct (tool_args (args tc)) as [[[[s d] p] e]|]; [|reflexivity].
  change (tool_func (Agents.create_freshdesk_ticket_tool cfg w) s d p e)
    with (Agents.create_freshdesk_ticket cfg w s d p e).
  rewrite create_freshdesk_ticket_trace.
  unfold filing_trace. rewrite Hconfig, Hkey.
  now destruct (Py.int p).
Qed.

Lemma ticket_tool_calls_trace (cfg : Config) (w : World)
    (tcs : list ToolCall) :
  config_ok cfg = true ->
  is_ascii (FRESHDESK_API_KEY cfg +:+ ":X") = true ->
  gateway_calls (trace (run_tool_calls w (Agents.ticket_tools cfg w) tcs))
  = omap (requested_filing cfg) tcs.
Proof.
  intros Hconfig Hkey. rewrite trace_run_tool_calls.
  induction tcs as [|tc tcs IH]; [reflexivity|].
  cbn [flat_map]. rewrite gateway_calls_app, IH.
  rewrite (ticket_tool_call_trace cfg w tc Hconfig Hkey).
  cbn [omap list_omap]. now destruct (requested_filing cfg tc).
Qed.



(** ** Priority names *)

Lemma priority_names_str_cases (p : string) :
  (p = "1" /\ priority_names_str (VStr p) = "Low")
  \/ (p = "3" /\ priority_names_str (VStr p) = "High")
  \/ (p = "4" /\ priority_names_str (VStr p) = "Urgent")
  \/ priority_names_str (VStr p) = "Medium".
Proof.
  destruct p as [|[[] [] [] [] [] [] [] []] [|c p]]; cbn; auto 6.
Qed.

(** X22.  The preview and the confirmation name the priority from two
    tables: the preview looks the priority text up as it is, the filing
    tool converts it to an integer first.  For a priority that converts,
    the two names agree whenever the preview shows anything but the
    default, and they agree on the four texts [1] to [4]; but a priority
    that only converts (surrounding blanks, a sign, leading zeros) is
    previewed as Medium and confirmed under its own name. *)
Theorem preview_and_confirmation_priority (p : string) (n : Z)
    (Hconverts : Py.int p = Some n) :
  (priority_names_str (VStr p) <> "Medium" ->
   priority_names_int n = priority_names_str (VStr p))
  /\ (In p ["1"; "2"; "3"; "4"] ->
      priority_names_int n = priority_names_str (VStr p))
  /\ (In p [" 3"; "+3"; "03"; "3 "] ->
      priority_names_str (VStr p) = "Medium"
      /\ priority_names_int n = "High").
Proof.
  split; [|split].
  - intros Hshown.
    destruct (priority_names_str_cases p)
      as [[-> ->] | [[-> ->] | [[-> ->] | H]]];
      try (vm_compute in Hconverts; injection Hconverts as <-; reflexivity).
    contradiction.
  - intros Hin. cbn [In] in Hin.
    repeat (destruct Hin as [<- | Hin];
            [vm_compute in Hconverts; injection Hconverts as <-; reflexivity|]).
    contradiction.
  - intros Hin. cbn [In] in Hin.
    repeat (destruct Hin as [<- | Hin];
            [vm_compute in Hconverts; injection Hconverts as <-;
             split; reflexivity|]).
    contradiction.
Qed.

Lemma preview_and_confirmation_priority_witness :
  priority_names_str (VStr "03") = "Medium"
  /\ priority_names_int 3 = "High".
Proof.
  apply (proj2 (proj2 (preview_and_confirmation_priority "03" 3 eq_refl))).
  cbn. tauto.
Defined.

(** ** The chat workflow of langgraph_workflow.py *)

Lemma bind_pair {A B} (a : A) (t : list Event) (k : A -> M B) :
  bind (Ret a, t) k = (outcome (k a), t ++ trace (k a)).
Proof. unfold bind. now destruct (k a). Qed.

Lemma chatbot_reply (cfg : Config) (w : World)
    (state : LanggraphWorkflow.ConversationState) (c : string)
    (tcs : list ToolCall) :
  llm w ["create_support_ticket"]
    (prompted cfg (LanggraphWorkflow.messages state)) = Ret (c, tcs) ->
  LanggraphWorkflow.chatbot cfg w state
  = (Ret (LanggraphWorkflow.add_messages state [AIMessage c tcs]),
     [LLMCall ["create_support_ticket"]
        (prompted cfg (LanggraphWorkflow.messages state))]).
Proof.
  intros Hllm. unfold LanggraphWorkflow.chatbot. simpl map.
  fold (prompted cfg (LanggraphWorkflow.messages state)).
  now rewrite bind_invoke_llm, Hllm.
Qed.

Lemma should_continue_snoc (state : LanggraphWorkflow.ConversationState)
    (earlier : list Message) (c : string) (tcs : list ToolCall) :
  LanggraphWorkflow.messages state = earlier ++ [AIMessage c tcs] ->
  LanggraphWorkflow.should_continue state
  = ret match tcs with [] => ToEND | _ :: _ => ToTools end.
Proof.
  intros H. unfold LanggraphWorkflow.should_continue.
  rewrite H, last_message_snoc, bind_ret. cbn [tool_calls_of].
  now destruct tcs.
Qed.

Lemma tool_node_single (cfg : Config) (w : World)
    (state : LanggraphWorkflow.ConversationState)
    (earlier : list Message) (c : string) (tc : ToolCall) :
  LanggraphWorkflow.messages state = earlier ++ [AIMessage c [tc]] ->
  exists observation,
    LanggraphWorkflow.tool_node cfg w state
    = (Ret (LanggraphWorkflow.add_messages state [ToolMessage observation]),
       trace (run_tool_call w (LanggraphWorkflow.workflow_tools cfg w) tc)).
Proof.
  intros H. unfold LanggraphWorkflow.tool_node.
  rewrite H, ToolNode_snoc. cbn [run_tool_calls].
  destruct (run_tool_call_returns w (LanggraphWorkflow.workflow_tools cfg w) tc)
    as [observation Hobs].
  exists observation. unfold outcome in Hobs. unfold trace.
  destruct (run_tool_call w _ tc) as [o t]. cbn [fst snd] in *. subst o.
  unfold bind, ret. cbn. now rewrite ?app_nil_r.
Qed.

Lemma find_pending_no_calls (earlier rest : list Message) :
  Forall (fun m => tool_calls_of m = []) earlier ->
  LanggraphWorkflow.find_pending (earlier ++ rest)
  = LanggraphWorkflow.find_pending rest.
Proof.
  induction 1 as [|m earlier Hm _ IH]; [reflexivity|].
  cbn [app LanggraphWorkflow.find_pending]. now rewrite Hm.
Qed.

Lemma tool_args_some (input : gmap string PyVal) (s d p e : string) :
  tool_args input = Some (s, d, p, e) ->
  input !! "subject" = Some (VStr s)
  /\ input !! "description" = Some (VStr d)
  /\ input !! "priority" = Some (VStr p)
  /\ input !! "email" = Some (VStr e).
Proof.
  unfold tool_args.
  destruct (input !! "subject") as [[]|]; try discriminate.
  destruct (input !! "description") as [[]|]; try discriminate.
  destruct (input !! "priority") as [[]|]; try discriminate.
  destruct (input !! "email") as [[]|]; try discriminate.
  now intros [= -> -> -> ->].
Qed.

Lemma support_tool_call_trace (cfg : Config) (w : World) (tc : ToolCall)
    (s d p e : string) :
  name tc = "create_support_ticket" ->
  tool_args (args tc) = Some (s, d, p, e) ->
  trace (run_tool_call w (LanggraphWorkflow.workflow_tools cfg w) tc)
  = filing_trace cfg s d p e.
Proof.
  intros Hname Hargs. unfold run_tool_call.
  cbn [LanggraphWorkflow.workflow_tools find
       LanggraphWorkflow.create_support_ticket_tool tool_name].
  rewrite Hname. cbn [String.eqb Ascii.eqb Bool.eqb].
  rewrite trace_try_silent by (intros x; reflexivity).
  rewrite trace_bind_silent by (intros r; reflexivity).
  unfold tool_invoke. rewrite Hargs.
  change (tool_func (LanggraphWorkflow.create_support_ticket_tool cfg w) s d p e)
    with (LanggraphWorkflow.create_support_ticket cfg w s d p e).
  apply create_support_ticket_trace.
Qed.

(** X23.  [run_chat_workflow] asks for approval after the fact.  When the
    model first requests the support-ticket tool and, having seen the
    observation, answers in plain text, and the step limit of the graph
    library lets these three nodes end (a limit of four or more), the tool
    has run inside the graph:
    with a usable configuration the request has been sent to the gateway.
    The result nevertheless carries the approval question built from the
    arguments of the call, the awaiting-approval flag and the arguments as
    pending ticket, and the model's final answer is dropped. *)
Theorem chat_workflow_asks_after_filing
    (cfg : Config) (w : World) (message : string) (history : list ChatMsg)
    (uid cid c1 c2 : string) (tc : ToolCall) (s d p e : string) (n : Z)
    (Hkey : openai_ok cfg = true)
    (Hconfig : config_ok cfg = true)
    (Hascii : is_ascii (FRESHDESK_API_KEY cfg +:+ ":X") = true)
    (Hlimit : 4 <= recursion_limit w)
    (Hname : name tc = "create_support_ticket")
    (Hargs : tool_args (args tc) = Some (s, d, p, e))
    (Hpriority : Py.int p = Some n)
    (Hfirst :
       llm w ["create_support_ticket"]
         (prompted cfg (to_langchain history ++ [HumanMessage message]))
       = Ret (c1, [tc]))
    (Hsecond :
       forall observation,
         llm w ["create_support_ticket"]
           (prompted cfg
              (to_langchain history
               ++ [HumanMessage message; AIMessage c1 [tc];
                   ToolMessage observation]))
         = Ret (c2, [])) :
  let run :=
    LanggraphWorkflow.run_chat_workflow cfg w message history uid cid in
  outcome run
  = Ret {| LanggraphWorkflow.cw_content :=
             approval_question s d (priority_names_str (VStr p));
           LanggraphWorkflow.cw_needsApproval := true;
           LanggraphWorkflow.cw_toolsUsed := ["create_support_ticket"];
           LanggraphWorkflow.cw_issueType := "ticket_creation";
           LanggraphWorkflow.cw_pendingTicket := Some (args tc) |}
  /\ gateway_calls (trace run) = [gateway_request cfg s d n e]
  /\ llm_calls (trace run) = 2.
Proof.
  cbv zeta. unfold LanggraphWorkflow.run_chat_workflow.
  rewrite (openai_key_present cfg Hkey).
  set (start := to_langchain history ++ [HumanMessage message]).
  set (state0 := {| LanggraphWorkflow.messages := start |}).
  assert (Hgraph : exists observation,
    LanggraphWorkflow.langgraph_workflow cfg w state0
    = (Ret (LanggraphWorkflow.add_messages
              (LanggraphWorkflow.add_messages
                 (LanggraphWorkflow.add_messages state0 [AIMessage c1 [tc]])
                 [ToolMessage observation])
              [AIMessage c2 []]),
       [LLMCall ["create_support_ticket"] (prompted cfg start)]
       ++ filing_trace cfg s d p e
       ++ [LLMCall ["create_support_ticket"]
             (prompted cfg
                (to_langchain history
                 ++ [HumanMessage message; AIMessage c1 [tc];
                     ToolMessage observation]))])).
  { unfold LanggraphWorkflow.langgraph_workflow.
    destruct (recursion_limit w) as [|[|[|[|k]]]]; try lia.
    cbn [LanggraphWorkflow.run_graph].
    rewrite (chatbot_reply cfg w state0 c1 [tc] Hfirst), bind_pair.
    rewrite (should_continue_snoc
               (LanggraphWorkflow.add_messages state0 [AIMessage c1 [tc]])
               start c1 [tc] eq_refl), bind_ret.
    destruct (tool_node_single cfg w
                (LanggraphWorkflow.add_messages state0 [AIMessage c1 [tc]])
                start c1 tc eq_refl) as [observation ->].
    exists observation. rewrite bind_pair.
    rewrite (support_tool_call_trace cfg w tc s d p e Hname Hargs).
    assert (Hmsgs :
      LanggraphWorkflow.messages
        (LanggraphWorkflow.add_messages
           (LanggraphWorkflow.add_messages state0 [AIMessage c1 [tc]])
           [ToolMessage observation])
      = to_langchain history
        ++ [HumanMessage message; AIMessage c1 [tc]; ToolMessage observation]).
    { cbn [LanggraphWorkflow.messages LanggraphWorkflow.add_messages state0].
      unfold start. now rewrite <- !app_assoc. }
    rewrite (chatbot_reply cfg w _ c2 []) by (rewrite Hmsgs; apply Hsecond).
    rewrite bind_pair, Hmsgs.
    rewrite (should_continue_snoc _
               (start ++ [AIMessage c1 [tc]] ++ [ToolMessage observation])
               c2 [])
      by (cbn [LanggraphWorkflow.messages LanggraphWorkflow.add_messages state0];
          now rewrite <- !app_assoc).
    rewrite bind_ret.
    unfold outcome, trace, ret. cbn [fst snd]. now rewrite !app_nil_r. }
  destruct Hgraph as [observation ->]. rewrite bind_pair.
  cbn [LanggraphWorkflow.messages LanggraphWorkflow.add_messages state0].
  assert (Hstart : Forall (fun m => tool_calls_of m = []) start).
  { apply Forall_app. split; [apply to_langchain_no_calls|].
    now repeat constructor. }
  assert (Hlast :
    last (List.filter isinstance_AIMessage
            (((start ++ [AIMessage c1 [tc]]) ++ [ToolMessage observation])
             ++ [AIMessage c2 []]))
    = Some (AIMessage c2 [])).
  { rewrite List.filter_app. cbn [List.filter isinstance_AIMessage].
    apply last_snoc. }
  rewrite Hlast.
  rewrite <- !app_assoc, (find_pending_no_calls start _ Hstart).
  cbn [app LanggraphWorkflow.find_pending tool_calls_of].
  rewrite Hname. cbn [String.eqb Ascii.eqb Bool.eqb].
  destruct (tool_args_some _ _ _ _ _ Hargs) as (Hs & Hd & Hp & _).
  unfold dict_item. rewrite Hp, Hs, Hd, !bind_ret. cbn [str].
  unfold outcome, trace, ret. cbn [fst snd]. rewrite ?app_nil_r.
  split; [reflexivity|].
  rewrite (filing_trace_sent cfg s d p e n Hconfig Hpriority Hascii).
  split; reflexivity.
Qed.

Lemma chat_workflow_asks_after_filing_witness :
  gateway_calls
    (trace (LanggraphWorkflow.run_chat_workflow Sample.cfg
              Scenario.files_then_replies "my printer is broken" []
              "test-user" "conv-1"))
  = [gateway_request Sample.cfg "Printer is broken"
       "The printer on floor 2 does not print." 2 "a@b.com"].
Proof.
  exact (proj1 (proj2
    (chat_workflow_asks_after_filing Sample.cfg Scenario.files_then_replies
       "my printer is broken" [] "test-user" "conv-1"
       "Creating the ticket." "Your ticket is on its way."
       Scenario.support_call "Printer is broken"
       "The printer on floor 2 does not print." "2" "a@b.com" 2
       eq_refl eq_refl eq_refl ltac:(vm_compute; lia) eq_refl eq_refl eq_refl
       eq_refl (fun observation => eq_refl)))).
Defined.

(** ** The reply of a multi-agent turn *)

Lemma multi_agent_workflow_final (cfg : Config) (w : World)
    (state : Agents.AgentState) (c : string) (tcs : list ToolCall) :
  match Agents.supervisor_routing state with
  | Agents.chat =>
      llm w [] (HumanMessage (Agents.chat_system_prompt cfg)
                  :: Agents.messages state)
  | Agents.ticket =>
      llm w ["create_freshdesk_ticket"]
        (HumanMessage Agents.ticket_system_prompt :: Agents.messages state)
  end = Ret (c, tcs) ->
  exists final obs,
    outcome (Agents.multi_agent_workflow cfg w state) = Ret final
    /\ Agents.messages final
       = Agents.messages state ++ [AIMessage c tcs] ++ obs
    /\ forallb isinstance_ToolMessage obs = true.
Proof.
  unfold Agents.multi_agent_workflow.
  destruct (Agents.supervisor_routing state); intros Hllm.
  - rewrite chat_agent_run, Hllm. eexists. exists [].
    split; [reflexivity|]. split; reflexivity.
  - destruct tcs as [|tc tcs].
    + rewrite ticket_agent_run. cbv zeta. rewrite bind_invoke_llm, Hllm.
      eexists. exists []. split; [reflexivity|]. split; reflexivity.
    + destruct (ticket_agent_one_round cfg w state c tc tcs Hllm)
        as (final & obs & Hfinal & Hmsgs & _ & Hobs & _).
      exists final, obs. auto.
Qed.



(** ** The test endpoint *)

Lemma test_ticket_fields :
  draft_fields Main.test_ticket_data "Direct API Test Ticket"
    "This is a direct test of the ticket creation API endpoint" "2".
Proof. repeat split. Qed.



(** ** The two filing tools *)

Lemma response_text_two (auth1 auth2 domain subject : string) (p : Z)
    (r : Response) :
  (outcome (response_text auth1 domain subject p r) = Ret auth1
   /\ outcome (response_text auth2 domain subject p r) = Ret auth2)
  \/ outcome (response_text auth1 domain subject p r)
     = outcome (response_text auth2 domain subject p r).
Proof.
  unfold response_text. destruct (negb (ok r)); [|now right].
  rewrite !outcome_try. unfold response_json.
  destruct (json r) as [[body|]|]; [|now right|now right].
  rewrite !bind_ret. cbn [json_get]. rewrite !bind_ret.
  destruct (eq_str (body !! "code") "invalid_credentials");
    [left; split; reflexivity | right].
  now destruct (Py.str_in "email" (Py.lower (text r))).
Qed.

Lemma ticket_request_two (config1 auth1 config2 auth2 : string)
    (cfg : Config) (w : World) (s d p e : string) :
  (outcome (ticket_request config1 auth1 cfg w s d p e) = Ret config1
   /\ outcome (ticket_request config2 auth2 cfg w s d p e) = Ret config2)
  \/ (outcome (ticket_request config1 auth1 cfg w s d p e) = Ret auth1
      /\ outcome (ticket_request config2 auth2 cfg w s d p e) = Ret auth2)
  \/ outcome (ticket_request config1 auth1 cfg w s d p e)
     = outcome (ticket_request config2 auth2 cfg w s d p e).
Proof.
  unfold ticket_request.
  destruct (negb (Py.truthy (FRESHDESK_DOMAIN cfg)) || _ || _);
    [left; split; reflexivity | right].
  unfold int_or_raise. destruct (Py.int p) as [n|]; [|now right].
  rewrite !bind_ret. unfold encode_ascii.
  destruct (is_ascii _); [|now right].
  rewrite !bind_ret, !outcome_bind, !outcome_post.
  destruct (freshdesk w _) as [r|error]; [|now right].
  apply response_text_two.
Qed.

Lemma fixed_failure_flags (t : string) :
  In t fixed_failure_texts ->
  tr_success (ticket_result_of t) = false
  /\ tr_ticketId (ticket_result_of t) = None.
Proof.
  intros Hin. cbn [In fixed_failure_texts] in Hin.
  repeat (destruct Hin as [<- | Hin]; [split; reflexivity|]).
  contradiction.
Qed.

Lemma filing_tools_agree (cfg : Config) (w : World) (s d p e : string) :
  exists t1 t2,
    outcome (Agents.create_freshdesk_ticket cfg w s d p e) = Ret t1
    /\ outcome (LanggraphWorkflow.create_support_ticket cfg w s d p e) = Ret t2
    /\ (t1 = t2
        \/ (In t1 fixed_failure_texts /\ In t2 fixed_failure_texts)).
Proof.
  unfold Agents.create_freshdesk_ticket,
    LanggraphWorkflow.create_support_ticket.
  rewrite !outcome_try.
  destruct (ticket_request_two Agents.config_text Agents.auth_text
              LanggraphWorkflow.config_text LanggraphWorkflow.auth_text
              cfg w s d p e) as [[-> ->] | [[-> ->] | ->]].
  - do 2 eexists. split; [reflexivity|]. split; [reflexivity|].
    right. cbn. tauto.
  - do 2 eexists. split; [reflexivity|]. split; [reflexivity|].
    right. cbn. tauto.
  - destruct (outcome (ticket_request _ _ cfg w s d p e)) as [t|error].
    + exists t, t. auto.
    + destruct (exn_class error); do 2 eexists;
        (split; [reflexivity|]); (split; [reflexivity|]);
        right; cbn; tauto.
Qed.

(** X26.  The two filing tools differ in wording only.  On the same
    arguments both return a text and make the same external calls; the two
    texts are equal, or both are failure texts of fixed wording.  So both
    texts carry the success marker or neither does, and likewise the
    ticket-id literal. *)
Theorem filing_tools_differ_in_wording_only
    (cfg : Config) (w : World) (s d p e : string) :
  trace (LanggraphWorkflow.create_support_ticket cfg w s d p e)
  = trace (Agents.create_freshdesk_ticket cfg w s d p e)
  /\ exists t1 t2,
       outcome (Agents.create_freshdesk_ticket cfg w s d p e) = Ret t1
       /\ outcome (LanggraphWorkflow.create_support_ticket cfg w s d p e)
          = Ret t2
       /\ (t1 = t2
           \/ (In t1 fixed_failure_texts /\ In t2 fixed_failure_texts))
       /\ Py.str_in "✅" t1 = Py.str_in "✅" t2
       /\ Py.str_in Py.ticket_id_literal t1
          = Py.str_in Py.ticket_id_literal t2.
Proof.
  split;
    [now rewrite create_support_ticket_trace, create_freshdesk_ticket_trace|].
  destruct (filing_tools_agree cfg w s d p e)
    as (t1 & t2 & Ht1 & Ht2 & Hagree).
  exists t1, t2. split; [exact Ht1|]. split; [exact Ht2|].
  split; [exact Hagree|].
  destruct Hagree as [-> | [H1 H2]]; [split; reflexivity|].
  assert (Hfixed : forall t, In t fixed_failure_texts ->
            Py.str_in "✅" t = false
            /\ Py.str_in Py.ticket_id_literal t = false).
  { intros t Hin. cbn [In fixed_failure_texts] in Hin.
    repeat (destruct Hin as [<- | Hin]; [split; reflexivity|]).
    contradiction. }
  destruct (Hfixed t1 H1) as [-> ->]. destruct (Hfixed t2 H2) as [-> ->].
  split; reflexivity.
Qed.

Lemma filing_tools_differ_in_wording_only_witness :
  outcome (Agents.create_freshdesk_ticket Sample.cfg
             Sample.rejects_credentials "Printer" "broken" "2" "a@b.com")
  = Ret Agents.auth_text
  /\ outcome (LanggraphWorkflow.create_support_ticket Sample.cfg
                Sample.rejects_credentials "Printer" "broken" "2" "a@b.com")
     = Ret LanggraphWorkflow.auth_text
  /\ In Agents.auth_text fixed_failure_texts
  /\ In LanggraphWorkflow.auth_text fixed_failure_texts.
Proof.
  destruct (filing_tools_differ_in_wording_only Sample.cfg
              Sample.rejects_credentials "Printer" "broken" "2" "a@b.com")
    as (_ & t1 & t2 & Ht1 & Ht2 & Hagree & _).
  assert (H1 : t1 = Agents.auth_text).
  { vm_compute in Ht1. injection Ht1 as <-. reflexivity. }
  assert (H2 : t2 = LanggraphWorkflow.auth_text).
  { vm_compute in Ht2. injection Ht2 as <-. reflexivity. }
  subst t1 t2. split; [exact Ht1|]. split; [exact Ht2|].
  destruct Hagree as [Heq | Hfixed]; [discriminate Heq | exact Hfixed].
Defined.
